(** * cx-dashboard: reconciliation and enrichment pipeline

    A shallow embedding of the three pipeline scripts
    [scripts/phase1_parse_excel.py], [scripts/phase2_enrich_inject.py] and
    [scripts/phase3_db_inject.py], and the properties of the pipeline that
    its specification states.

    Python values are modelled by [pyval]; a Python [str] is the byte
    string of its UTF-8 encoding (every pattern and separator the scripts
    use is ASCII, and an ASCII byte never occurs inside a multi-byte UTF-8
    sequence, so searching and stripping act alike on both);
    a raised exception is the [Raise] branch of [result].

    The files that the scripts read and write (the destination document,
    the segment cache, the hand-off file) are the fields of a [world]
    that every script takes and returns; the answer of the [bq] command
    is a function argument.  The library functions that the scripts call
    ([float], [json.loads], [json.dumps], [re.search], [re.sub],
    [strptime]) are written out; the printing of a float, a list or a
    dict by [str] is a parameter, [py_repr].  Progress messages are left
    out. *)

From Stdlib Require Import ZArith QArith Bool List Ascii String DecimalString Lia.
From Stdlib Require DecimalPos.
Import ListNotations.
Open Scope string_scope.
Open Scope Z_scope.
Open Scope list_scope.

(** ** Exceptions and results *)

Inductive exn : Type :=
| KeyError | TypeError | ValueError | AttributeError | OverflowError
| JSONDecodeError | ReError | FileNotFoundError | TimeoutExpired
| IndexError | SystemExit.

Inductive result (A : Type) : Type :=
| Ok (a : A)
| Raise (e : exn).
Arguments Ok {A} a.
Arguments Raise {A} e.

Definition bind {A B : Type} (r : result A) (k : A -> result B) : result B :=
  match r with
  | Ok a => k a
  | Raise e => Raise e
  end.

Notation "x <- r ;; k" := (bind r (fun x => k))
  (at level 61, r at next level, right associativity).

(** ** Python values *)

(** A Python [float]: a finite binary64 value (kept as the rational it
    denotes), an infinity, or NaN. *)
Inductive pyfloat : Type :=
| Fin (q : Q)
| PInf
| NInf
| NaN.

(** A [datetime] object, as the workbook reader yields for a date cell. *)
Record datetime : Type := mkDateTime {
  dt_year : Z; dt_month : Z; dt_day : Z;
  dt_hour : Z; dt_minute : Z; dt_second : Z; dt_microsecond : Z
}.

(** A Python value as the scripts meet them: what a decoded JSON text, a
    record under construction or a cell holds.  A [VDict] keeps its keys
    in insertion order, as a [dict]. *)
#[warnings="-register-all"]
Inductive pyval : Type :=
| VNone
| VBool (b : bool)
| VInt (z : Z)
| VFloat (f : pyfloat)
| VStr (s : string)
| VDateTime (d : datetime)
| VList (l : list pyval)
| VDict (d : list (string * pyval)).

(** What a spreadsheet cell or a database column holds when it is read:
    nothing, a boolean, an integer, a finite float, a text or a date.
    NaN is not among them: a workbook has no such number and SQLite
    stores it as NULL. *)
Inductive cell : Type :=
| CNone
| CBool (b : bool)
| CInt (z : Z)
| CFloat (q : Q)
| CStr (s : string)
| CDateTime (d : datetime).

Definition of_cell (c : cell) : pyval :=
  match c with
  | CNone => VNone
  | CBool b => VBool b
  | CInt z => VInt z
  | CFloat q => VFloat (Fin q)
  | CStr s => VStr s
  | CDateTime d => VDateTime d
  end.

(** Python truthiness of a value ([if v:], [v or d], [not v]). *)
Definition truthy (v : pyval) : bool :=
  match v with
  | VNone => false
  | VBool b => b
  | VInt z => negb (z =? 0)
  | VFloat (Fin q) => negb (Qeq_bool q 0)
  | VFloat _ => true
  | VStr s => negb (String.eqb s "")
  | VDateTime _ => true
  | VList l => match l with [] => false | _ => true end
  | VDict d => match d with [] => false | _ => true end
  end.

(** [a or b] *)
Definition py_or (a b : pyval) : pyval := if truthy a then a else b.

(** [isinstance(v, str)] *)
Definition is_str (v : pyval) : bool :=
  match v with VStr _ => true | _ => false end.

Definition num_of (v : pyval) : option pyfloat :=
  match v with
  | VBool b => Some (Fin (if b then 1%Q else 0%Q))
  | VInt z => Some (Fin (inject_Z z))
  | VFloat f => Some f
  | _ => None
  end.

(** [x == y] on numbers: NaN equals nothing, itself included. *)
Definition float_eqb (x y : pyfloat) : bool :=
  match x, y with
  | Fin p, Fin q => Qeq_bool p q
  | PInf, PInf | NInf, NInf => true
  | _, _ => false
  end.

Definition datetime_eqb (a b : datetime) : bool :=
  (dt_year a =? dt_year b) && (dt_month a =? dt_month b) && (dt_day a =? dt_day b)
  && (dt_hour a =? dt_hour b) && (dt_minute a =? dt_minute b)
  && (dt_second a =? dt_second b) && (dt_microsecond a =? dt_microsecond b).

(** Python [==] between hashable values: numbers compare by value across
    [bool], [int] and [float]; strings with strings, dates with dates,
    [None] with [None].  Lists and dicts are not hashable and never reach
    a set or a key. *)
Definition py_eqb (a b : pyval) : bool :=
  match a, b with
  | VNone, VNone => true
  | VStr s, VStr t => String.eqb s t
  | VDateTime d, VDateTime e => datetime_eqb d e
  | _, _ =>
      match num_of a, num_of b with
      | Some x, Some y => float_eqb x y
      | _, _ => false
      end
  end.

Definition hashable (v : pyval) : bool :=
  match v with VList _ | VDict _ => false | _ => true end.

(** [x in xs] for a set [xs] of hashable values. *)
Definition py_in (x : pyval) (xs : list pyval) : bool :=
  existsb (py_eqb x) xs.

(** ** Conversion to float *)

(** Round-to-nearest-even of a positive rational [n/d] to a 53-bit
    significand, in lowest terms. *)
Definition round_pos (n d : positive) : Q :=
  let e0 := Z.log2 (Zpos n) - Z.log2 (Zpos d) - 52 in
  let scaled (e : Z) : Z * Z :=       (* numerator and denominator of q / 2^e *)
    if 0 <=? e then (Zpos n, Zpos d * 2 ^ e) else (Zpos n * 2 ^ (- e), Zpos d) in
  let e := let '(a, b) := scaled e0 in if a / b <? 2 ^ 52 then e0 - 1 else e0 in
  let '(a, b) := scaled e in
  let m := a / b in
  let r := a mod b in
  let m' := if 2 * r <? b then m
            else if b <? 2 * r then m + 1
            else if Z.even m then m else m + 1 in
  if 0 <=? e then inject_Z (m' * 2 ^ e)
  else Qred (Qmake m' (Z.to_pos (2 ^ (- e)))).

Definition DBL_OVERFLOW : Q := inject_Z (2 ^ 1024).

(** The binary64 value nearest to a rational; values under the normal
    range are kept as they are (they compare like their roundings with
    every constant used here). *)
Definition round_binary64 (q : Q) : pyfloat :=
  match Qnum q with
  | Z0 => Fin 0
  | Zpos n =>
      if Qle_bool (Qmake 1 (Z.to_pos (2 ^ 1022))) q then
        let r := round_pos n (Qden q) in
        if Qle_bool DBL_OVERFLOW r then PInf else Fin r
      else Fin (Qred q)
  | Zneg n =>
      if Qle_bool (Qmake 1 (Z.to_pos (2 ^ 1022))) (Qopp q) then
        let r := round_pos n (Qden q) in
        if Qle_bool DBL_OVERFLOW r then NInf else Fin (Qopp r)
      else Fin (Qred q)
  end.

(** *** [float(s)] for a string *)

Definition is_digit (c : ascii) : bool :=
  let n := nat_of_ascii c in (48 <=? n)%nat && (n <=? 57)%nat.

Definition digit_val (c : ascii) : Z := Z.of_nat (nat_of_ascii c) - 48.

Definition is_space (c : ascii) : bool :=
  let n := nat_of_ascii c in
  (n =? 32)%nat || ((9 <=? n)%nat && (n <=? 13)%nat).

Definition lower (c : ascii) : ascii :=
  let n := nat_of_ascii c in
  if (65 <=? n)%nat && (n <=? 90)%nat then ascii_of_nat (n + 32) else c.

Fixpoint lower_str (s : string) : string :=
  match s with
  | EmptyString => EmptyString
  | String c s' => String (lower c) (lower_str s')
  end.

Fixpoint lstrip (s : string) : string :=
  match s with
  | String c s' => if is_space c then lstrip s' else s
  | EmptyString => EmptyString
  end.

Fixpoint rstrip (s : string) : string :=
  match s with
  | EmptyString => EmptyString
  | String c s' =>
      match rstrip s' with
      | EmptyString => if is_space c then EmptyString else String c EmptyString
      | t => String c t
      end
  end.

(** Digits with single underscores between them: value, number of digits,
    rest of the input. *)
Fixpoint digits_from (acc : Z) (cnt : nat) (s : string) : Z * nat * string :=
  match s with
  | String c s' =>
      if is_digit c then digits_from (acc * 10 + digit_val c) (S cnt) s'
      else if Ascii.eqb c "_" then
        match s' with
        | String c2 _ => if is_digit c2 then digits_from acc cnt s' else (acc, cnt, s)
        | EmptyString => (acc, cnt, s)
        end
      else (acc, cnt, s)
  | EmptyString => (acc, cnt, s)
  end.

Definition digitpart (s : string) : Z * nat * string :=
  match s with
  | String c _ => if is_digit c then digits_from 0 0 s else (0, 0%nat, s)
  | EmptyString => (0, 0%nat, s)
  end.

(** The exponent part [e[+-]digits], when there is one. *)
Definition exponent (s : string) : option (Z * string) :=
  match s with
  | String c s' =>
      if Ascii.eqb (lower c) "e" then
        let '(neg, s2) :=
          match s' with
          | String "-" t => (true, t)
          | String "+" t => (false, t)
          | _ => (false, s')
          end in
        let '(v, n, rest) := digitpart s2 in
        match n with
        | O => None
        | _ => Some (if neg then - v else v, rest)
        end
      else Some (0, s)
  | EmptyString => Some (0, s)
  end.

(** An unsigned decimal literal, as an exact rational. *)
Definition decimal (s : string) : option Q :=
  let '(ip, ni, s1) := digitpart s in
  let '(fp, nf, s2) :=
    match s1 with
    | String "." t => digitpart t
    | _ => (0, 0%nat, s1)
    end in
  match (ni + nf)%nat with
  | O => None
  | _ =>
      match exponent s2 with
      | Some (e, EmptyString) =>
          let m := ip * 10 ^ Z.of_nat nf + fp in
          let e' := e - Z.of_nat nf in
          Some (if 0 <=? e' then inject_Z (m * 10 ^ e')
                else Qmake m (Z.to_pos (10 ^ (- e'))))
      | _ => None
      end
  end.

Definition neg_float (f : pyfloat) : pyfloat :=
  match f with
  | Fin q => Fin (Qred (Qopp q))
  | PInf => NInf
  | NInf => PInf
  | NaN => NaN
  end.

(** [float(s)]: surrounding white space, a sign, then "inf", "infinity",
    "nan" in any case or a decimal literal; [None] is ValueError.
    ASCII digits and white space only. *)
Definition float_of_str (s : string) : option pyfloat :=
  let t := rstrip (lstrip s) in
  let '(neg, body) :=
    match t with
    | String "-" u => (true, u)
    | String "+" u => (false, u)
    | _ => (false, t)
    end in
  let sign (f : pyfloat) := if neg then neg_float f else f in
  let l := lower_str body in
  if String.eqb l "inf" || String.eqb l "infinity" then Some (sign PInf)
  else if String.eqb l "nan" then Some NaN
  else match decimal body with
       | Some q => Some (sign (round_binary64 q))
       | None => None
       end.

(** [float(v)] *)
Definition py_float (v : pyval) : result pyfloat :=
  match v with
  | VNone => Raise TypeError
  | VBool b => Ok (Fin (if b then 1 else 0)%Q)
  | VInt z =>
      match round_binary64 (inject_Z z) with
      | Fin q => Ok (Fin q)
      | _ => Raise OverflowError
      end
  | VFloat f => Ok f
  | VStr s =>
      match float_of_str s with
      | Some f => Ok f
      | None => Raise ValueError
      end
  | VDateTime _ | VList _ | VDict _ => Raise TypeError
  end.

(** [a < b] for a float [a] and a finite constant [b]. *)
Definition flt (a : pyfloat) (b : Q) : bool :=
  match a with
  | Fin q => negb (Qle_bool b q)
  | NInf => true
  | PInf | NaN => false
  end.

(** ** Tier classifier *)

Definition UNMATCHED : string := "미매칭".
Definition TIER_UNDER_10M : string := "1천만 미만".
Definition TIER_10M_50M : string := "1천만~5천만".
Definition TIER_50M_100M : string := "5천만~1억".
Definition TIER_100M_500M : string := "1억~5억".
Definition TIER_500M_UP : string := "5억 이상".

(** [to_limit_tier], the same text in phase 2 and in phase 3. *)
Definition to_limit_tier (grant_limit : pyval) : result string :=
  match grant_limit with
  | VNone => Ok UNMATCHED
  | _ =>
      match py_float grant_limit with
      | Raise ValueError | Raise TypeError => Ok UNMATCHED
      | Raise e => Raise e
      | Ok v =>
          if flt v 10000000 then Ok TIER_UNDER_10M
          else if flt v 50000000 then Ok TIER_10M_50M
          else if flt v 100000000 then Ok TIER_50M_100M
          else if flt v 500000000 then Ok TIER_100M_500M
          else Ok TIER_500M_UP
      end
  end.

(** ** Dicts

    A [dict] is an association list in insertion order with at most one
    binding per key: [assoc_set] overwrites in place, as assignment to an
    existing key does, and appends a new key at the end. *)

Section Assoc.
Context {K V : Type} (keqb : K -> K -> bool).

Fixpoint assoc_get (k : K) (d : list (K * V)) : option V :=
  match d with
  | [] => None
  | (k', v) :: d' => if keqb k k' then Some v else assoc_get k d'
  end.

Fixpoint assoc_set (k : K) (v : V) (d : list (K * V)) : list (K * V) :=
  match d with
  | [] => [(k, v)]
  | (k', v') :: d' =>
      if keqb k k' then (k', v) :: d' else (k', v') :: assoc_set k v d'
  end.

End Assoc.

Definition dict_get {V : Type} := @assoc_get string V String.eqb.
Definition dict_set {V : Type} := @assoc_set string V String.eqb.

(** [r.get(k, default)]: only a dict has [get]. *)
Definition py_get (r : pyval) (k : string) (default : pyval) : result pyval :=
  match r with
  | VDict d => Ok (match dict_get k d with Some v => v | None => default end)
  | _ => Raise AttributeError
  end.

(** [r[k]] for a string key [k]. *)
Definition py_item (r : pyval) (k : string) : result pyval :=
  match r with
  | VDict d => match dict_get k d with Some v => Ok v | None => Raise KeyError end
  | _ => Raise TypeError
  end.

(** [r[k] = v] for a string key [k]. *)
Definition py_setitem (r : pyval) (k : string) (v : pyval) : result pyval :=
  match r with
  | VDict d => Ok (VDict (dict_set k v d))
  | _ => Raise TypeError
  end.

(** The items a [for] loop over a value visits: the elements of a list,
    the keys of a dict, the characters of a string (each a string again;
    only emptiness matters to the callers here). *)
Definition py_iter (v : pyval) : result (list pyval) :=
  match v with
  | VList l => Ok l
  | VDict d => Ok (map (fun kv => VStr (fst kv)) d)
  | VStr s => Ok (map (fun c => VStr (String c EmptyString)) (list_ascii_of_string s))
  | _ => Raise TypeError
  end.

(** Adding to a set: an unhashable value raises. *)
Definition set_add (v : pyval) (s : list pyval) : result (list pyval) :=
  if hashable v then Ok (if py_in v s then s else s ++ [v]) else Raise TypeError.

(** ** JSON decoding: [json.loads]

    A recursive-descent decoder over the JSON grammar as [json.loads]
    reads it (strict mode): white space is space, tab, line feed and
    carriage return; a raw control character inside a string is an error;
    a repeated key keeps its first position and its last value.  [None]
    is [JSONDecodeError].  As the decoder does, it reads the constants
    [NaN], [Infinity] and [-Infinity], and a literal beyond the binary64
    range as an infinity. *)

Definition is_json_ws (c : ascii) : bool :=
  let n := nat_of_ascii c in
  (n =? 32)%nat || (n =? 9)%nat || (n =? 10)%nat || (n =? 13)%nat.

Fixpoint skip_ws (s : string) : string :=
  match s with
  | String c s' => if is_json_ws c then skip_ws s' else s
  | EmptyString => EmptyString
  end.

Definition hex_val (c : ascii) : option N :=
  let n := N_of_ascii c in
  if (48 <=? n)%N && (n <=? 57)%N then Some (n - 48)%N
  else if (65 <=? n)%N && (n <=? 70)%N then Some (n - 55)%N
  else if (97 <=? n)%N && (n <=? 102)%N then Some (n - 87)%N
  else None.

(** Four hexadecimal digits. *)
Definition hex4 (s : string) : option (N * string) :=
  match s with
  | String a (String b (String c (String d rest))) =>
      match hex_val a, hex_val b, hex_val c, hex_val d with
      | Some x, Some y, Some z, Some w =>
          Some (((x * 16 + y) * 16 + z) * 16 + w, rest)%N
      | _, _, _, _ => None
      end
  | _ => None
  end.

(** The UTF-8 bytes of a code point. *)
Definition utf8 (n : N) : string :=
  let b (x : N) := ascii_of_N x in
  (if n <? 128 then String (b n) EmptyString
   else if n <? 2048 then
     String (b (192 + n / 64)) (String (b (128 + n mod 64)) EmptyString)
   else if n <? 65536 then
     String (b (224 + n / 4096))
       (String (b (128 + (n / 64) mod 64)) (String (b (128 + n mod 64)) EmptyString))
   else
     String (b (240 + n / 262144))
       (String (b (128 + (n / 4096) mod 64))
          (String (b (128 + (n / 64) mod 64))
             (String (b (128 + n mod 64)) EmptyString))))%N.

(** The rest of a string literal after its opening quote: the decoded
    text and what follows the closing quote. *)
Fixpoint scan_string (fuel : nat) (s : string) : option (string * string) :=
  match fuel with
  | O => None
  | S fuel' =>
      match s with
      | EmptyString => None
      | String c s' =>
          if Ascii.eqb c "034" then Some (EmptyString, s')
          else if (nat_of_ascii c <? 32)%nat then None
          else if Ascii.eqb c "\" then
            match s' with
            | EmptyString => None
            | String e s2 =>
                let lit (x : N) :=
                  match scan_string fuel' s2 with
                  | Some (t, rest) => Some (String (ascii_of_N x) t, rest)
                  | None => None
                  end in
                if Ascii.eqb e "034" then lit 34%N
                else if Ascii.eqb e "\" then lit 92%N
                else if Ascii.eqb e "/" then lit 47%N
                else if Ascii.eqb e "b" then lit 8%N
                else if Ascii.eqb e "f" then lit 12%N
                else if Ascii.eqb e "n" then lit 10%N
                else if Ascii.eqb e "r" then lit 13%N
                else if Ascii.eqb e "t" then lit 9%N
                else if Ascii.eqb e "u" then
                  match hex4 s2 with
                  | None => None
                  | Some (u, s3) =>
                      let single :=
                        match scan_string fuel' s3 with
                        | Some (t, rest) => Some (append (utf8 u) t, rest)
                        | None => None
                        end in
                      if ((55296 <=? u) && (u <=? 56319))%N then
                        match s3 with
                        | String "\" (String "u" s4) =>
                            match hex4 s4 with
                            | Some (u2, s5) =>
                                if ((56320 <=? u2) && (u2 <=? 57343))%N then
                                  match scan_string fuel' s5 with
                                  | Some (t, rest) =>
                                      Some (append
                                              (utf8 (65536 + (u - 55296) * 1024
                                                     + (u2 - 56320))%N) t, rest)
                                  | None => None
                                  end
                                else single
                            | None => single
                            end
                        | _ => single
                        end
                      else single
                  end
                else None
            end
          else
            match scan_string fuel' s' with
            | Some (t, rest) => Some (String c t, rest)
            | None => None
            end
      end
  end.

(** Plain digits (no underscores): value, count, rest. *)
Fixpoint json_digits (acc : Z) (cnt : nat) (s : string) : Z * nat * string :=
  match s with
  | String c s' =>
      if is_digit c then json_digits (acc * 10 + digit_val c) (S cnt) s'
      else (acc, cnt, s)
  | EmptyString => (acc, cnt, s)
  end.

(** A number: an optional minus, an integer part without leading zero,
    an optional fraction, an optional exponent; the longest prefix that
    matches is taken.  An integer literal is an [int], the others a
    [float]. *)
Definition scan_number (s : string) : option (pyval * string) :=
  let '(neg, s0) :=
    match s with String "-" t => (true, t) | _ => (false, s) end in
  let int_part :=
    match s0 with
    | String "0" t => Some (0, t)
    | String c _ =>
        if is_digit c then let '(v, _, t) := json_digits 0 0 s0 in Some (v, t)
        else None
    | EmptyString => None
    end in
  match int_part with
  | None => None
  | Some (ip, s1) =>
      let '(fp, nf, s2) :=
        match s1 with
        | String "." t =>
            let '(v, n, r) := json_digits 0 0 t in
            match n with O => (0, O, s1) | _ => (v, n, r) end
        | _ => (0, O, s1)
        end in
      let '(has_exp, ex, s3) :=
        match s2 with
        | String c t =>
            if Ascii.eqb c "e" || Ascii.eqb c "E" then
              let '(eneg, t1) :=
                match t with
                | String "-" u => (true, u)
                | String "+" u => (false, u)
                | _ => (false, t)
                end in
              let '(v, n, r) := json_digits 0 0 t1 in
              match n with
              | O => (false, 0, s2)
              | _ => (true, if eneg then - v else v, r)
              end
            else (false, 0, s2)
        | EmptyString => (false, 0, s2)
        end in
      match nf, has_exp with
      | O, false => Some (VInt (if neg then - ip else ip), s3)
      | _, _ =>
          let m := ip * 10 ^ Z.of_nat nf + fp in
          let e' := ex - Z.of_nat nf in
          let q := if 0 <=? e' then inject_Z (m * 10 ^ e')
                   else Qmake m (Z.to_pos (10 ^ (- e'))) in
          let f := round_binary64 q in
          Some (VFloat (if neg then neg_float f else f), s3)
      end
  end.

Fixpoint strip_prefix (p s : string) : option string :=
  match p with
  | EmptyString => Some s
  | String a p' =>
      match s with
      | String b s' => if Ascii.eqb a b then strip_prefix p' s' else None
      | EmptyString => None
      end
  end.

(** [dict(pairs)]: pairs in order, a repeated key overwritten in place. *)
Definition dict_of_pairs (ps : list (string * pyval)) : list (string * pyval) :=
  fold_left (fun d kv => dict_set (fst kv) (snd kv) d) ps [].

(** One JSON value at the head of [s] (no leading white space), and the
    rest of the input. *)
Fixpoint scan_value (fuel : nat) (s : string) : option (pyval * string) :=
  match fuel with
  | O => None
  | S fuel' =>
      let fix elements (n : nat) (s : string) : option (list pyval * string) :=
        (* after "[" or ",": white space already skipped *)
        match n with
        | O => None
        | S n' =>
            match scan_value fuel' s with
            | None => None
            | Some (v, r) =>
                match skip_ws r with
                | String "]" r' => Some ([v], r')
                | String "," r' =>
                    match elements n' (skip_ws r') with
                    | Some (vs, r2) => Some (v :: vs, r2)
                    | None => None
                    end
                | _ => None
                end
            end
        end in
      let fix members (n : nat) (s : string)
        : option (list (string * pyval) * string) :=
        (* at the quote that opens a key *)
        match n with
        | O => None
        | S n' =>
            match s with
            | String "034"%char s1 =>
                match scan_string (S (String.length s1)) s1 with
                | None => None
                | Some (k, r) =>
                    match skip_ws r with
                    | String ":" r1 =>
                        match scan_value fuel' (skip_ws r1) with
                        | None => None
                        | Some (v, r2) =>
                            match skip_ws r2 with
                            | String "}" r3 => Some ([(k, v)], r3)
                            | String "," r3 =>
                                match members n' (skip_ws r3) with
                                | Some (kvs, r4) => Some ((k, v) :: kvs, r4)
                                | None => None
                                end
                            | _ => None
                            end
                        end
                    | _ => None
                    end
                end
            | _ => None
            end
        end in
      match s with
      | String "034"%char s' =>
          match scan_string (S (String.length s')) s' with
          | Some (t, r) => Some (VStr t, r)
          | None => None
          end
      | String "[" s' =>
          match skip_ws s' with
          | String "]" r => Some (VList [], r)
          | t =>
              match elements (S (String.length t)) t with
              | Some (vs, r) => Some (VList vs, r)
              | None => None
              end
          end
      | String "{" s' =>
          match skip_ws s' with
          | String "}" r => Some (VDict [], r)
          | t =>
              match members (S (String.length t)) t with
              | Some (kvs, r) => Some (VDict (dict_of_pairs kvs), r)
              | None => None
              end
          end
      | _ =>
          match strip_prefix "null" s with
          | Some r => Some (VNone, r)
          | None =>
              match strip_prefix "true" s with
              | Some r => Some (VBool true, r)
              | None =>
                  match strip_prefix "false" s with
                  | Some r => Some (VBool false, r)
                  | None =>
                      match scan_number s with
                      | Some res => Some res
                      | None =>
                          match strip_prefix "NaN" s with
                          | Some r => Some (VFloat NaN, r)
                          | None =>
                              match strip_prefix "Infinity" s with
                              | Some r => Some (VFloat PInf, r)
                              | None =>
                                  match strip_prefix "-Infinity" s with
                                  | Some r => Some (VFloat NInf, r)
                                  | None => None
                                  end
                              end
                          end
                      end
                  end
              end
          end
      end
  end.

(** [json.loads(s)] *)
Definition json_loads (s : string) : result pyval :=
  let t := skip_ws s in
  match scan_value (S (String.length t)) t with
  | Some (v, r) =>
      match skip_ws r with
      | EmptyString => Ok v
      | _ => Raise JSONDecodeError
      end
  | None => Raise JSONDecodeError
  end.

(** ** Text of values: [str] and [json.dumps] *)

Definition str_of_Z (z : Z) : string := NilZero.string_of_int (Z.to_int z).

Fixpoint join (sep : string) (l : list string) : string :=
  match l with
  | [] => EmptyString
  | [x] => x
  | x :: l' => append x (append sep (join sep l'))
  end.

Definition hex_digit (n : N) : ascii :=
  if (n <? 10)%N then ascii_of_N (48 + n) else ascii_of_N (87 + n).

(** The escapes of [json.dumps(..., ensure_ascii=False)]. *)
Fixpoint json_escape (s : string) : string :=
  match s with
  | EmptyString => EmptyString
  | String c s' =>
      let n := N_of_ascii c in
      let rest := json_escape s' in
      if (n =? 34)%N then String "\" (String "034" rest)
      else if (n =? 92)%N then String "\" (String "\" rest)
      else if (n =? 10)%N then String "\" (String "n" rest)
      else if (n =? 13)%N then String "\" (String "r" rest)
      else if (n =? 9)%N then String "\" (String "t" rest)
      else if (n =? 8)%N then String "\" (String "b" rest)
      else if (n =? 12)%N then String "\" (String "f" rest)
      else if (n <? 32)%N then
        append "\u00" (String (hex_digit (n / 16)) (String (hex_digit (n mod 16)) rest))
      else String c rest
  end.

Definition json_quote (s : string) : string :=
  String "034" (append (json_escape s) (String "034" EmptyString)).

Fixpoint spaces (n : nat) : string :=
  match n with O => EmptyString | S n' => String " " (spaces n') end.

(** What [json.dumps] can write: everything but a date. *)
Fixpoint serializable (v : pyval) : bool :=
  match v with
  | VDateTime _ => false
  | VList l => forallb serializable l
  | VDict d => forallb (fun kv => serializable (snd kv)) d
  | _ => true
  end.

Section Repr.

(** What [str] prints for a float, a date, a list or a dict: the
  interpreter's own printing, any function here. *)
Variable py_repr : pyval -> string.

(** [str(v)] *)
Definition py_str (v : pyval) : string :=
  match v with
  | VNone => "None"
  | VBool true => "True"
  | VBool false => "False"
  | VInt z => str_of_Z z
  | VStr s => s
  | _ => py_repr v
  end.

(** [json.dumps(v, ensure_ascii=False, separators=(",", ":"))], for a
  value that [serializable] accepts. *)
Fixpoint json_dumps (v : pyval) : string :=
  match v with
  | VNone => "null"
  | VBool true => "true"
  | VBool false => "false"
  | VInt z => str_of_Z z
  | VFloat (Fin _) => py_repr v
  | VFloat PInf => "Infinity"
  | VFloat NInf => "-Infinity"
  | VFloat NaN => "NaN"
  | VStr s => json_quote s
  | VDateTime _ => EmptyString
  | VList l => append "[" (append (join "," (map json_dumps l)) "]")
  | VDict d =>
      append "{"
        (append (join "," (map (fun kv => append (json_quote (fst kv))
                                            (append ":" (json_dumps (snd kv)))) d))
           "}")
  end.

(** [json.dump(v, f, ensure_ascii=False, indent=2)], at nesting depth
    [lvl]. *)
Fixpoint json_dumps_indent (lvl : nat) (v : pyval) : string :=
  let nl (k : nat) := String (ascii_of_nat 10) (spaces (2 * k)) in
  match v with
  | VList [] => "[]"
  | VList l =>
      append "["
        (append (nl (S lvl))
           (append (join (append "," (nl (S lvl))) (map (json_dumps_indent (S lvl)) l))
              (append (nl lvl) "]")))
  | VDict [] => "{}"
  | VDict d =>
      append "{"
        (append (nl (S lvl))
           (append (join (append "," (nl (S lvl)))
                      (map (fun kv => append (json_quote (fst kv))
                                        (append ": " (json_dumps_indent (S lvl) (snd kv)))) d))
              (append (nl lvl) "}")))
  | _ => json_dumps v
  end.

End Repr.

(** ** The files and the remote tool *)

(** The files a run reads and writes ([None]: the file does not exist),
    and the number of [bq] commands started so far. *)
Record world : Type := mkWorld {
  index_html : option string;
  segment_cache : option string;
  new_records_json : option string;
  bq_attempts : nat
}.

Definition set_index_html (c : string) (w : world) : world :=
  mkWorld (Some c) (segment_cache w) (new_records_json w) (bq_attempts w).
Definition set_segment_cache (c : string) (w : world) : world :=
  mkWorld (index_html w) (Some c) (new_records_json w) (bq_attempts w).
Definition set_new_records_json (c : string) (w : world) : world :=
  mkWorld (index_html w) (segment_cache w) (Some c) (bq_attempts w).
Definition count_bq_attempt (w : world) : world :=
  mkWorld (index_html w) (segment_cache w) (new_records_json w) (S (bq_attempts w)).

(** How [subprocess.run(["bq", ...], timeout=30)] ends: the tool is not
    installed, it does not answer in time, or it exits with a return code
    and its standard output. *)
Inductive bq_outcome : Type :=
| BqNotFound
| BqTimeout
| BqExit (returncode : Z) (stdout : string).

(** ** Segment profiles *)

Section Segments.

Variable py_repr : pyval -> string.

(** The loop that both [load_segment_cache] and [fetch_segments_from_bq]
    run over the decoded rows: one profile per row, keyed by
    [str(row.get("corp_id", ""))], a later row replacing an earlier one
    with the same key. *)
Fixpoint seg_map_of_rows (rows : list pyval) (seg_map : list (string * pyval))
  : result (list (string * pyval)) :=
  match rows with
  | [] => Ok seg_map
  | row :: rows' =>
      c <- py_get row "corp_id" (VStr "") ;;
      let cid := py_str py_repr c in
      dc <- py_get row "detail_category" VNone ;;
      ss <- py_get row "stability_status" VNone ;;
      gs <- py_get row "growth_status" VNone ;;
      gl <- py_get row "grant_limit" VNone ;;
      tier <- to_limit_tier gl ;;
      seg_map_of_rows rows'
        (dict_set cid
           (VDict [("detailCategory", py_or dc (VStr UNMATCHED));
                   ("stabilityStatus", py_or ss (VStr UNMATCHED));
                   ("growthStatus", py_or gs (VStr UNMATCHED));
                   ("limitTier", VStr tier)])
           seg_map)
  end.

(** [load_segment_cache()], the same text in phase 2 and in phase 3. *)
Definition load_segment_cache (w : world) : result (list (string * pyval)) :=
  match segment_cache w with
  | None => Ok []
  | Some text =>
      rows <- json_loads text ;;
      items <- py_iter rows ;;
      seg_map_of_rows items []
  end.

End Segments.

(** ** The destination document: searching and patching

    The two regular expressions of the scripts are a literal prefix, a
    lazy [.*?] under [re.DOTALL] and the literal [];].  The leftmost match
    starts at the first occurrence of the prefix that has a [];] after
    it; if the first occurrence has none, no later one has; and the lazy
    group ends at the first [];].  So a match is found by two literal
    searches. *)

(** The first occurrence of [needle] in [hay]: what is before it and
    what is after it. *)
Fixpoint find_sub (needle hay : string) : option (string * string) :=
  match strip_prefix needle hay with
  | Some rest => Some (EmptyString, rest)
  | None =>
      match hay with
      | EmptyString => None
      | String c hay' =>
          match find_sub needle hay' with
          | Some (before, after) => Some (String c before, after)
          | None => None
          end
      end
  end.

Definition SEARCH_MARKER : string := "const ALL_RECORDS = [".
Definition SUB_MARKER : string := "    const ALL_RECORDS = [".
Definition BLOCK_END : string := "];".

(** [re.search] of the data block in [content], under [re.DOTALL]:
    group 1 of the match (the array text, brackets included), if any. *)
Definition search_all_records (content : string) : option string :=
  match find_sub SEARCH_MARKER content with
  | Some (_, after) =>
      match find_sub BLOCK_END after with
      | Some (body, _) => Some (append "[" (append body "]"))
      | None => None
      end
  | None => None
  end.

Definition is_ascii_letter (c : ascii) : bool :=
  let n := nat_of_ascii c in
  ((65 <=? n)%nat && (n <=? 90)%nat) || ((97 <=? n)%nat && (n <=? 122)%nat).

(** The replacement template of [re.sub], expanded: a backslash and one
    of the letters a, b, f, n, r, t, v or a second backslash is the
    character it names; a backslash and any other ASCII letter is an
    error (bad escape); a backslash and a character that is neither
    letter nor digit stays as it is; a backslash at the end is an error.
    A group reference (backslash g, backslash digit) cannot occur in a
    JSON text, where a backslash is followed by a double quote, a
    backslash or one of b, f, n, r, t, u only; the pattern has no group
    and the expansion refuses it. *)
Fixpoint expand_template (t : string) : option string :=
  match t with
  | EmptyString => Some EmptyString
  | String c t' =>
      if Ascii.eqb c "\" then
        match t' with
        | EmptyString => None
        | String e t2 =>
            let put (x : ascii) :=
              match expand_template t2 with
              | Some r => Some (String x r)
              | None => None
              end in
            if Ascii.eqb e "a" then put (ascii_of_nat 7)
            else if Ascii.eqb e "b" then put (ascii_of_nat 8)
            else if Ascii.eqb e "f" then put (ascii_of_nat 12)
            else if Ascii.eqb e "n" then put (ascii_of_nat 10)
            else if Ascii.eqb e "r" then put (ascii_of_nat 13)
            else if Ascii.eqb e "t" then put (ascii_of_nat 9)
            else if Ascii.eqb e "v" then put (ascii_of_nat 11)
            else if Ascii.eqb e "\" then put "\"%char
            else if is_ascii_letter e || is_digit e then None
            else
              match expand_template t2 with
              | Some r => Some (String c (String e r))
              | None => None
              end
        end
      else
        match expand_template t' with
        | Some r => Some (String c r)
        | None => None
        end
  end.

(** [re.sub] of the data block (the pattern with its four leading
    spaces) by [new_line] in [content], with [count=1] and [re.DOTALL].
    The template is compiled before the search, so a bad escape raises
    whether the pattern occurs or not. *)
Definition sub_all_records (new_line content : string) : result string :=
  match expand_template new_line with
  | None => Raise ReError
  | Some lit =>
      Ok (match find_sub SUB_MARKER content with
          | Some (before, after) =>
              match find_sub BLOCK_END after with
              | Some (_, rest) => append before (append lit rest)
              | None => content
              end
          | None => content
          end)
  end.


Definition DATE_MARKER : string :=
  append "id=" (String "034" (append "lastUpdateDate" (String "034" ">"))).

(** The characters up to the first less-than sign, and what follows
    that sign. *)
Fixpoint until_lt (s : string) : option (string * string) :=
  match s with
  | EmptyString => None
  | String c s' =>
      if Ascii.eqb c "<" then Some (EmptyString, s')
      else match until_lt s' with
           | Some (a, b) => Some (String c a, b)
           | None => None
           end
  end.

(** [re.sub] of the display-date element in [content]: the marker, one
    or more characters other than a less-than sign, and a less-than
    sign; every match is replaced by the marker, [date_display] and a
    less-than sign. *)
Fixpoint sub_last_update (fuel : nat) (date_display content : string) : string :=
  match fuel with
  | O => content
  | S fuel' =>
      match find_sub DATE_MARKER content with
      | None => content
      | Some (before, after) =>
          match until_lt after with
          | Some (String c old, rest) =>
              append before
                (append DATE_MARKER
                   (append date_display
                      (String "<" (sub_last_update fuel' date_display rest))))
          | _ =>
              append before
                (append DATE_MARKER (sub_last_update fuel' date_display after))
          end
      end
  end.

(** *** The display date *)

Definition is_leap (y : Z) : bool :=
  ((y mod 4 =? 0) && negb (y mod 100 =? 0)) || (y mod 400 =? 0).

Definition days_in_month (y m : Z) : Z :=
  if m =? 2 then (if is_leap y then 29 else 28)
  else if (m =? 4) || (m =? 6) || (m =? 9) || (m =? 11) then 30 else 31.

(** [datetime.strptime(s, "%Y-%m-%d")], to year, month and day: four
    digits; a month 10 to 12, 01 to 09 or 1 to 9; a day 30 or 31, 10 to
    29, 01 to 09, 1 to 9, or a space and 1 to 9, the first of these that
    fits; nothing after it; and a date that exists.  [None] is
    ValueError. *)
Definition strptime_ymd (s : string) : option (Z * Z * Z) :=
  match s with
  | String y1 (String y2 (String y3 (String y4 (String "-" s1)))) =>
      if is_digit y1 && is_digit y2 && is_digit y3 && is_digit y4 then
        let y := ((digit_val y1 * 10 + digit_val y2) * 10 + digit_val y3) * 10
                 + digit_val y4 in
        let month : option (Z * string) :=
          match s1 with
          | String a (String b (String "-" r)) =>
              if Ascii.eqb a "1" && is_digit b && (digit_val b <=? 2) then
                Some (10 + digit_val b, r)
              else if Ascii.eqb a "0" && is_digit b && negb (digit_val b =? 0) then
                Some (digit_val b, r)
              else None
          | String a (String "-" r) =>
              if is_digit a && negb (digit_val a =? 0) then Some (digit_val a, r)
              else None
          | _ => None
          end in
        match month with
        | None => None
        | Some (m, s2) =>
            let day : option (Z * string) :=
              match s2 with
              | String a (String b r) =>
                  if Ascii.eqb a "3" && is_digit b && (digit_val b <=? 1) then
                    Some (30 + digit_val b, r)
                  else if (Ascii.eqb a "1" || Ascii.eqb a "2") && is_digit b then
                    Some (digit_val a * 10 + digit_val b, r)
                  else if Ascii.eqb a "0" && is_digit b && negb (digit_val b =? 0) then
                    Some (digit_val b, r)
                  else if is_digit a && negb (digit_val a =? 0) then
                    Some (digit_val a, String b r)
                  else if Ascii.eqb a " " && is_digit b && negb (digit_val b =? 0) then
                    Some (digit_val b, r)
                  else None
              | String a EmptyString =>
                  if is_digit a && negb (digit_val a =? 0) then
                    Some (digit_val a, EmptyString)
                  else None
              | EmptyString => None
              end in
            match day with
            | Some (d, EmptyString) =>
                if (1 <=? y) && (d <=? days_in_month y m) then Some (y, m, d) else None
            | _ => None
            end
        end
      else None
  | _ => None
  end.

(** [f"{dt.year}. {dt.month}. {dt.day}."] *)
Definition date_display (ymd : Z * Z * Z) : string :=
  let '(y, m, d) := ymd in
  append (str_of_Z y)
    (append ". " (append (str_of_Z m) (append ". " (append (str_of_Z d) ".")))).

(** [a < b] on strings: code point order, which is byte order in UTF-8. *)
Fixpoint str_ltb (a b : string) : bool :=
  match a, b with
  | _, EmptyString => false
  | EmptyString, String _ _ => true
  | String x a', String y b' =>
      if (nat_of_ascii x <? nat_of_ascii y)%nat then true
      else if (nat_of_ascii y <? nat_of_ascii x)%nat then false
      else str_ltb a' b'
  end.

(** [max(all_dates)] followed by [strptime]: when every date is a string
    the greatest one is parsed; in every other case one of the two raises
    [TypeError] (two values that do not compare, or a maximum that is not
    a string). *)
Definition max_date_of (all_dates : list pyval) : result (Z * Z * Z) :=
  let fix go (m : string) (l : list pyval) : result string :=
    match l with
    | [] => Ok m
    | VStr t :: l' => go (if str_ltb m t then t else m) l'
    | _ :: _ => Raise TypeError
    end in
  match all_dates with
  | VStr m :: l =>
      mx <- go m l ;;
      match strptime_ymd mx with
      | Some ymd => Ok ymd
      | None => Raise ValueError
      end
  | _ => Raise TypeError
  end.

(** [[r.get("date") for r in all_records if r.get("date")]] *)
Fixpoint dates_of (all_records : list pyval) : result (list pyval) :=
  match all_records with
  | [] => Ok []
  | r :: rest =>
      d <- py_get r "date" VNone ;;
      ds <- dates_of rest ;;
      Ok (if truthy d then d :: ds else ds)
  end.

(** ** Workbooks *)

(** [re.sub(r"[^0-9]", "", s)]: the ASCII digits of [s], in order. *)
Fixpoint strip_non_digits (s : string) : string :=
  match s with
  | EmptyString => EmptyString
  | String c s' =>
      if is_digit c then String c (strip_non_digits s') else strip_non_digits s'
  end.

(** A workbook as the scripts read it: the rows 2 to [max_row] of the two
    sheets, each row the list of its cells from column 1 on. *)
Record workbook : Type := mkWorkbook {
  UserChat : list (list cell);
  UserData : list (list cell)
}.

(** [ws.cell(r, c).value], columns counted from 1; an empty cell is
    [None]. *)
Definition cell_value (row : list cell) (c : nat) : pyval :=
  of_cell (nth (pred c) row CNone).

(** ** Phase 1: ingestion of the spreadsheet *)

(** The first [n] characters of a UTF-8 text ([s[:n]]): a byte from 128
    to 191 continues the character before it. *)
Fixpoint take_chars (n : nat) (s : string) : string :=
  match s with
  | EmptyString => EmptyString
  | String c s' =>
      let b := nat_of_ascii c in
      if (128 <=? b)%nat && (b <? 192)%nat then String c (take_chars n s')
      else match n with
           | O => EmptyString
           | S n' => String c (take_chars n' s')
           end
  end.

Definition two_digits (z : Z) : string :=
  if z <? 10 then append "0" (str_of_Z z) else str_of_Z z.

(** [d.strftime("%Y-%m-%d")] *)
Definition strftime_ymd (d : datetime) : string :=
  append (str_of_Z (dt_year d))
    (append "-" (append (two_digits (dt_month d))
                   (append "-" (two_digits (dt_day d))))).

Definition UNCLASSIFIED : string := "미분류".

(** [{r["chatId"] for r in records}] and [set(r.get("chatId", "") for r
    in records)]: the set built from the identity [get_id] reads. *)
Fixpoint id_set (get_id : pyval -> result pyval) (records : list pyval)
  (acc : list pyval) : result (list pyval) :=
  match records with
  | [] => Ok acc
  | r :: rest =>
      v <- get_id r ;;
      acc' <- set_add v acc ;;
      id_set get_id rest acc'
  end.

Module Phase1.

(** [load_existing_chat_ids()], phase 1. *)
Definition load_existing_chat_ids (w : world) : result (list pyval) :=
  match index_html w with
  | None => Ok []
  | Some content =>
      match search_all_records content with
      | None => Ok []
      | Some block =>
          records <- json_loads block ;;
          items <- py_iter records ;;
          id_set (fun r => py_item r "chatId") items []
      end
  end.

(** [build_user_map(wb)]: user id to company and business number. *)
Fixpoint build_user_map (rows : list (list cell)) (user_map : list (pyval * pyval))
  : list (pyval * pyval) :=
  match rows with
  | [] => user_map
  | r :: rows' =>
      let uid := cell_value r 1 in
      if negb (truthy uid) then build_user_map rows' user_map
      else
        build_user_map rows'
          (assoc_set py_eqb uid
             (VDict [("company", cell_value r 5); ("corp_number", cell_value r 6)])
             user_map)
  end.

(** The conversion of a response time: [None] stays, a value [float]
    refuses becomes [None]. *)
Definition to_seconds (v : pyval) : result pyval :=
  match v with
  | VNone => Ok VNone
  | _ =>
      match py_float v with
      | Ok f => Ok (VFloat f)
      | Raise ValueError | Raise TypeError => Ok VNone
      | Raise e => Raise e
      end
  end.

Section Parse.

Variable py_repr : pyval -> string.

(** The record that the body of the loop of [parse_userchat] builds for
    a row that is neither empty nor a duplicate. *)
Definition record_of_row (r : list cell) (user_map : list (pyval * pyval))
  (chat_id : pyval) : result pyval :=
  let managed_at := cell_value r 2 in
  let date_str :=
    match managed_at with
    | VDateTime d => VStr (strftime_ymd d)
    | _ => if truthy managed_at
           then VStr (take_chars 10 (py_str py_repr managed_at))
           else VNone
    end in
  let company0 := cell_value r 3 in
  let company1 := if truthy company0 && negb (is_str company0) then VNone else company0 in
  company <-
    (if negb (truthy company1) then
       let user_id := cell_value r 14 in
       if truthy user_id then
         match assoc_get py_eqb user_id user_map with
         | Some u => py_get u "company" VNone
         | None => Ok company1
         end
       else Ok company1
     else Ok company1) ;;
  let old_tag := py_or (cell_value r 9) (VStr UNCLASSIFIED) in
  first_answer_sec <- to_seconds (cell_value r 67) ;;
  close_sec <- to_seconds (cell_value r 79) ;;
  Ok (VDict [("chatId", chat_id);
             ("date", date_str);
             ("company", company);
             ("oldTag", old_tag);
             ("primaryTag", old_tag);
             ("secondaryTag", VNone);
             ("confidence", VNone);
             ("detailCategory", VStr UNMATCHED);
             ("stabilityStatus", VStr UNMATCHED);
             ("growthStatus", VStr UNMATCHED);
             ("limitTier", VStr UNMATCHED);
             ("firstAnswerSec", first_answer_sec);
             ("closeSec", close_sec)]).

(** [parse_userchat(wb, user_map, existing_ids)]: the new records, and
    the two counts it prints, of empty rows and of duplicates. *)
Fixpoint parse_userchat (rows : list (list cell)) (user_map : list (pyval * pyval))
  (existing_ids : list pyval) : result (list pyval * nat * nat) :=
  match rows with
  | [] => Ok ([], O, O)
  | r :: rows' =>
      let chat_id := cell_value r 1 in
      if negb (truthy chat_id) then
        res <- parse_userchat rows' user_map existing_ids ;;
        let '(recs, skipped_empty, skipped_dup) := res in
        Ok (recs, S skipped_empty, skipped_dup)
      else if py_in chat_id existing_ids then
        res <- parse_userchat rows' user_map existing_ids ;;
        let '(recs, skipped_empty, skipped_dup) := res in
        Ok (recs, skipped_empty, S skipped_dup)
      else
        record <- record_of_row r user_map chat_id ;;
        res <- parse_userchat rows' user_map existing_ids ;;
        let '(recs, skipped_empty, skipped_dup) := res in
        Ok (record :: recs, skipped_empty, skipped_dup)
  end.

(** The date statistics of [main]: [min] and [max] over the distinct
    dates of the new records fail when a missing date meets a text. *)
Definition date_range_ok (new_records : list pyval) : result unit :=
  ds <- (fix go (l : list pyval) : result (list pyval) :=
           match l with
           | [] => Ok []
           | r :: l' =>
               d <- py_get r "date" (VStr "unknown") ;;
               t <- go l' ;;
               Ok (d :: t)
           end) new_records ;;
  if existsb (fun d => match d with VNone => true | _ => false end) ds
     && existsb is_str ds
  then Raise TypeError else Ok tt.

(** [main()], phase 1, from the loaded workbook on: the hand-off file is
    written only when there is a new record. *)
Definition main (wb : workbook) (w : world) : result (list pyval) * world :=
  match load_existing_chat_ids w with
  | Raise e => (Raise e, w)
  | Ok existing_ids =>
      let user_map := build_user_map (UserData wb) [] in
      match parse_userchat (UserChat wb) user_map existing_ids with
      | Raise e => (Raise e, w)
      | Ok (new_records, _, _) =>
          match new_records with
          | [] => (Ok [], w)
          | _ =>
              match date_range_ok new_records with
              | Raise e => (Raise e, w)
              | Ok _ =>
                  if serializable (VList new_records) then
                    (Ok new_records,
                     set_new_records_json
                       (json_dumps_indent py_repr 0 (VList new_records)) w)
                  else (Raise TypeError, w)
              end
          end
      end
  end.

End Parse.
End Phase1.

(** ** Phase 2: enrichment of the hand-off records and injection *)

Module Phase2.

Section Mapper.

Variable py_repr : pyval -> string.

(** First loop of [build_corp_number_map]: [chat_to_user] and
    [chat_to_corp_direct] from the UserChat sheet. *)
Fixpoint scan_userchat (rows : list (list cell))
  (chat_to_user : list (pyval * pyval)) (chat_to_corp_direct : list (pyval * string))
  : list (pyval * pyval) * list (pyval * string) :=
  match rows with
  | [] => (chat_to_user, chat_to_corp_direct)
  | r :: rows' =>
      let chat_id := cell_value r 1 in
      if negb (truthy chat_id) then scan_userchat rows' chat_to_user chat_to_corp_direct
      else
        let user_id := cell_value r 14 in
        let chat_to_user' :=
          if truthy user_id then assoc_set py_eqb chat_id user_id chat_to_user
          else chat_to_user in
        let corp_direct := cell_value r 4 in
        let chat_to_corp_direct' :=
          match corp_direct with
          | VStr t =>
              if truthy corp_direct
              then assoc_set py_eqb chat_id (strip_non_digits t) chat_to_corp_direct
              else chat_to_corp_direct
          | _ => chat_to_corp_direct
          end in
        scan_userchat rows' chat_to_user' chat_to_corp_direct'
  end.

(** Second loop: [user_to_corp] from the User data sheet. *)
Fixpoint scan_userdata (rows : list (list cell)) (user_to_corp : list (pyval * string))
  : list (pyval * string) :=
  match rows with
  | [] => user_to_corp
  | r :: rows' =>
      let uid := cell_value r 1 in
      let corp := cell_value r 6 in
      scan_userdata rows'
        (if truthy uid && truthy corp
         then assoc_set py_eqb uid (strip_non_digits (py_str py_repr corp)) user_to_corp
         else user_to_corp)
  end.

(** Third loop: over the keys of [chat_to_user], the direct value first. *)
Fixpoint resolve_chats (keys : list (pyval * pyval))
  (chat_to_corp_direct user_to_corp result : list (pyval * string))
  : list (pyval * string) :=
  match keys with
  | [] => result
  | (chat_id, user_id) :: keys' =>
      resolve_chats keys' chat_to_corp_direct user_to_corp
        (match assoc_get py_eqb chat_id chat_to_corp_direct with
         | Some direct => assoc_set py_eqb chat_id direct result
         | None =>
             match assoc_get py_eqb user_id user_to_corp with
             | Some corp => assoc_set py_eqb chat_id corp result
             | None => result
             end
         end)
  end.

(** [build_corp_number_map(excel_path)], from the loaded workbook on;
    [None] stands for the early returns (no reader, no workbook). *)
Definition build_corp_number_map (wb : option workbook) : list (pyval * string) :=
  match wb with
  | None => []
  | Some wb =>
      let '(chat_to_user, chat_to_corp_direct) := scan_userchat (UserChat wb) [] [] in
      let user_to_corp := scan_userdata (UserData wb) [] in
      resolve_chats chat_to_user chat_to_corp_direct user_to_corp []
  end.

End Mapper.

(** [enrich_records(new_records, corp_map, seg_map)]: the records after
    the loop and the count [matched]. *)
Fixpoint enrich_records (new_records : list pyval)
  (corp_map : list (pyval * string)) (seg_map : list (string * pyval))
  : result (list pyval * nat) :=
  match new_records with
  | [] => Ok ([], O)
  | rec :: rest =>
      chat_id <- py_item rec "chatId" ;;
      _ <- (if hashable chat_id then Ok tt else Raise TypeError) ;;
      rec' <-
        match assoc_get py_eqb chat_id corp_map with
        | Some corp_id =>
            if negb (String.eqb corp_id "") then
              match dict_get corp_id seg_map with
              | Some seg =>
                  v1 <- py_item seg "detailCategory" ;;
                  r1 <- py_setitem rec "detailCategory" v1 ;;
                  v2 <- py_item seg "stabilityStatus" ;;
                  r2 <- py_setitem r1 "stabilityStatus" v2 ;;
                  v3 <- py_item seg "growthStatus" ;;
                  r3 <- py_setitem r2 "growthStatus" v3 ;;
                  v4 <- py_item seg "limitTier" ;;
                  r4 <- py_setitem r3 "limitTier" v4 ;;
                  Ok (r4, 1%nat)
              | None => Ok (rec, O)
              end
            else Ok (rec, O)
        | None => Ok (rec, O)
        end ;;
      tail <- enrich_records rest corp_map seg_map ;;
      Ok (fst rec' :: fst tail, (snd rec' + snd tail)%nat)
  end.

Section Resolver.

Variable py_repr : pyval -> string.

(** What answers the [bq] command, for the identifiers of the query. *)
Variable remote : list Z -> bq_outcome.

(** [fetch_segments_from_bq(corp_ids)], phase 2.  The [except] clause
    catches three exceptions: the tool missing, the timeout, and a
    standard output that does not decode; what the loop over the rows
    raises is not caught. *)
Definition fetch_segments_from_bq (corp_ids : list Z) (w : world)
  : result (list (string * pyval)) * world :=
  match corp_ids with
  | [] => (Ok [], w)
  | _ =>
      let w1 := count_bq_attempt w in
      match remote corp_ids with
      | BqExit 0 stdout =>
          match json_loads stdout with
          | Ok rows =>
              match (items <- py_iter rows ;; seg_map_of_rows py_repr items []) with
              | Ok seg_map =>
                  (Ok seg_map, set_segment_cache (json_dumps_indent py_repr 0 rows) w1)
              | Raise e => (Raise e, w1)
              end
          | Raise _ => (load_segment_cache py_repr w1, w1)
          end
      | _ => (load_segment_cache py_repr w1, w1)
      end
  end.

End Resolver.

(** [load_new_records()]: the run stops when the hand-off file is
    missing. *)
Definition load_new_records (w : world) : result pyval :=
  match new_records_json w with
  | None => Raise SystemExit
  | Some text => json_loads text
  end.

(** [load_existing_records(html_path)], phase 2: the records of the data
    block (none when there is no block) and the text read.  Opening a
    missing document raises. *)
Definition load_existing_records (w : world) : result (pyval * string) :=
  match index_html w with
  | None => Raise FileNotFoundError
  | Some content =>
      match search_all_records content with
      | None => Ok (VList [], content)
      | Some block =>
          records <- json_loads block ;;
          Ok (records, content)
      end
  end.

Definition INDEX_FIELDS : list string :=
  ["chatId"; "date"; "company"; "oldTag";
   "primaryTag"; "secondaryTag"; "confidence";
   "detailCategory"; "stabilityStatus"; "growthStatus"; "limitTier";
   "firstAnswerSec"; "closeSec"].

(** [{k: r.get(k) for k in fields_to_keep}], the keys in the order of
    [fields_to_keep]. *)
Fixpoint keep_fields (fields_to_keep : list string) (r : pyval)
  (acc : list (string * pyval)) : result (list (string * pyval)) :=
  match fields_to_keep with
  | [] => Ok acc
  | k :: ks =>
      v <- py_get r k VNone ;;
      keep_fields ks r (dict_set k v acc)
  end.

(** The list [filtered] of [inject_into_html]. *)
Fixpoint filter_fields (fields_to_keep : list string) (all_records : list pyval)
  : result (list pyval) :=
  match all_records with
  | [] => Ok []
  | r :: rest =>
      d <- keep_fields fields_to_keep r [] ;;
      t <- filter_fields fields_to_keep rest ;;
      Ok (VDict d :: t)
  end.

Definition ALL_RECORDS_DECL : string := "    const ALL_RECORDS = ".

Section Inject.

Variable py_repr : pyval -> string.
Variable remote : list Z -> bq_outcome.

(** [inject_into_html(html_path, all_records, fields_to_keep)], phase 2,
    on the index document. *)
Definition inject_into_html (all_records : list pyval) (fields_to_keep : list string)
  (w : world) : result unit * world :=
  match index_html w with
  | None => (Raise FileNotFoundError, w)
  | Some content =>
      match filter_fields fields_to_keep all_records with
      | Raise e => (Raise e, w)
      | Ok filtered =>
          if serializable (VList filtered) then
            let json_str := json_dumps py_repr (VList filtered) in
            let new_line := append ALL_RECORDS_DECL (append json_str ";") in
            match sub_all_records new_line content with
            | Raise e => (Raise e, w)
            | Ok content' => (Ok tt, set_index_html content' w)
            end
          else (Raise TypeError, w)
      end
  end.

(** [[int(c) for c in unique_corps if c.isdigit()]] *)
Definition int_of_digits (s : string) : Z := fst (fst (json_digits 0 0 s)).

Definition isdigit (s : string) : bool :=
  negb (String.eqb s "") && String.eqb (strip_non_digits s) s.

(** The identities [r["chatId"]] of the records, each one hashable (it
    is looked up in a dict). *)
Fixpoint chat_ids_of (new_records : list pyval) : result (list pyval) :=
  match new_records with
  | [] => Ok []
  | r :: rest =>
      chat_id <- py_item r "chatId" ;;
      _ <- (if hashable chat_id then Ok tt else Raise TypeError) ;;
      t <- chat_ids_of rest ;;
      Ok (chat_id :: t)
  end.

(** The set [unique_corps] of [main], in the order of first insertion. *)
Fixpoint unique_corps_of (chat_ids : list pyval) (corp_map : list (pyval * string))
  (acc : list string) : list string :=
  match chat_ids with
  | [] => acc
  | chat_id :: rest =>
      unique_corps_of rest corp_map
        (match assoc_get py_eqb chat_id corp_map with
         | Some c => if existsb (String.eqb c) acc then acc else acc ++ [c]
         | None => acc
         end)
  end.

(** The display-date step that closes [main]. *)
Definition update_last_date (all_index : list pyval) (w : world)
  : result unit * world :=
  match dates_of all_index with
  | Raise e => (Raise e, w)
  | Ok [] => (Ok tt, w)
  | Ok all_dates =>
      match max_date_of all_dates with
      | Raise e => (Raise e, w)
      | Ok ymd =>
          match index_html w with
          | None => (Ok tt, w)
          | Some content =>
              (Ok tt,
               set_index_html
                 (sub_last_update (String.length content) (date_display ymd) content) w)
          end
      end
  end.

(** [main()], phase 2: the merged list [all_index] and the count
    [matched], and the files after the run.  [wb] is the workbook that
    [build_corp_number_map] finds, if any. *)
Definition main (wb : option workbook) (w : world)
  : result (list pyval * nat) * world :=
  match load_new_records w with
  | Raise e => (Raise e, w)
  | Ok (VList []) | Ok (VDict []) | Ok (VStr EmptyString) => (Ok ([], O), w)
  | Ok (VList new_records) =>
      let corp_map := build_corp_number_map py_repr wb in
      match chat_ids_of new_records with
      | Raise e => (Raise e, w)
      | Ok chat_ids =>
          let unique_corps := unique_corps_of chat_ids corp_map [] in
          let '(seg, w1) :=
            fetch_segments_from_bq py_repr remote
              (map int_of_digits (filter isdigit unique_corps)) w in
          match seg with
          | Raise e => (Raise e, w1)
          | Ok seg_map =>
              match enrich_records new_records corp_map seg_map with
              | Raise e => (Raise e, w1)
              | Ok (enriched, matched) =>
                  match load_existing_records w1 with
                  | Raise e => (Raise e, w1)
                  | Ok (VList existing_index, _) =>
                      let all_index := existing_index ++ enriched in
                      match inject_into_html all_index INDEX_FIELDS w1 with
                      | (Raise e, w2) => (Raise e, w2)
                      | (Ok _, w2) =>
                          match update_last_date all_index w2 with
                          | (Raise e, w3) => (Raise e, w3)
                          | (Ok _, w3) => (Ok (all_index, matched), w3)
                          end
                      end
                  | Ok _ => (Raise TypeError, w1)
                  end
              end
          end
      end
  | Ok _ => (Raise TypeError, w)
  end.

End Inject.

End Phase2.

(** ** Phase 3: from the database to the document *)

Module Phase3.

Section Resolver.

Variable py_repr : pyval -> string.
Variable remote : list Z -> bq_outcome.

(** [fetch_segments_from_bq(corp_ids)], phase 3: as in phase 2, but an
    empty list of identifiers returns the cache. *)
Definition fetch_segments_from_bq (corp_ids : list Z) (w : world)
  : result (list (string * pyval)) * world :=
  match corp_ids with
  | [] => (load_segment_cache py_repr w, w)
  | _ =>
      let w1 := count_bq_attempt w in
      match remote corp_ids with
      | BqExit 0 stdout =>
          match json_loads stdout with
          | Ok rows =>
              match (items <- py_iter rows ;; seg_map_of_rows py_repr items []) with
              | Ok seg_map =>
                  (Ok seg_map, set_segment_cache (json_dumps_indent py_repr 0 rows) w1)
              | Raise e => (Raise e, w1)
              end
          | Raise _ => (load_segment_cache py_repr w1, w1)
          end
      | _ => (load_segment_cache py_repr w1, w1)
      end
  end.

End Resolver.

(** A row of the table [insights], with the fifteen columns that
    [load_db_records] selects. *)
Record db_row : Type := mkDbRow {
  id : cell; date : cell; tags : cell; tag_major : cell; impact : cell;
  journey : cell; title : cell; summary : cell; customer_request : cell;
  result_ : cell; slack_ts : cell; slack_link : cell; corp_number : cell;
  companyname : cell; assignee : cell
}.

(** [load_existing_chat_ids()], phase 3. *)
Definition load_existing_chat_ids (w : world) : result (list pyval) :=
  match index_html w with
  | None => Ok []
  | Some content =>
      match search_all_records content with
      | None => Ok []
      | Some block =>
          records <- json_loads block ;;
          items <- py_iter records ;;
          id_set (fun r => py_get r "chatId" (VStr "")) items []
      end
  end.

(** [load_existing_records()], phase 3. *)
Definition load_existing_records (w : world) : result (pyval * string) :=
  match index_html w with
  | None => Ok (VList [], EmptyString)
  | Some content =>
      match search_all_records content with
      | None => Ok (VList [], content)
      | Some block =>
          records <- json_loads block ;;
          Ok (records, content)
      end
  end.

(** [re.sub(r"[^0-9]", "", v or "")]: the pattern applies to a string
    only. *)
Definition digits_of_value (v : pyval) : result string :=
  match py_or v (VStr "") with
  | VStr t => Ok (strip_non_digits t)
  | _ => Raise TypeError
  end.

(** [convert_record(row, seg_map)] *)
Definition convert_record (row : db_row) (seg_map : list (string * pyval))
  : result pyval :=
  corp <- digits_of_value (of_cell (corp_number row)) ;;
  let seg := match dict_get corp seg_map with Some g => g | None => VDict [] end in
  dc <- py_get seg "detailCategory" (VStr UNMATCHED) ;;
  ss <- py_get seg "stabilityStatus" (VStr UNMATCHED) ;;
  gs <- py_get seg "growthStatus" (VStr UNMATCHED) ;;
  lt <- py_get seg "limitTier" (VStr UNMATCHED) ;;
  Ok (VDict [("chatId", of_cell (slack_ts row));
             ("date", of_cell (date row));
             ("company", py_or (of_cell (companyname row)) (VStr "미확인"));
             ("oldTag", py_or (of_cell (tags row)) (VStr UNCLASSIFIED));
             ("primaryTag", py_or (of_cell (tag_major row)) (VStr UNCLASSIFIED));
             ("secondaryTag", of_cell (impact row));
             ("confidence", VStr "auto");
             ("detailCategory", dc);
             ("stabilityStatus", ss);
             ("growthStatus", gs);
             ("limitTier", lt);
             ("firstAnswerSec", VNone);
             ("closeSec", VNone);
             ("impact", of_cell (impact row));
             ("journey", of_cell (journey row));
             ("title", of_cell (title row));
             ("summary", of_cell (summary row));
             ("customerRequest", of_cell (customer_request row));
             ("result", of_cell (result_ row));
             ("assignee", of_cell (assignee row));
             ("slackLink", of_cell (slack_link row));
             ("source", VStr "db")]).

(** [[r for r in db_records if r["slack_ts"] not in existing_ids]] *)
Definition new_rows_of (db_records : list db_row) (existing_ids : list pyval)
  : list db_row :=
  filter (fun r => negb (py_in (of_cell (slack_ts r)) existing_ids)) db_records.

(** The set [corp_ids] of [main], in the order of first insertion. *)
Fixpoint corp_ids_of (new_rows : list db_row) (acc : list Z) : result (list Z) :=
  match new_rows with
  | [] => Ok acc
  | r :: rest =>
      corp <- digits_of_value (of_cell (corp_number r)) ;;
      corp_ids_of rest
        (if String.eqb corp "" then acc
         else let n := fst (fst (json_digits 0 0 corp)) in
              if existsb (Z.eqb n) acc then acc else acc ++ [n])
  end.

(** [[convert_record(r, seg_map) for r in new_rows]] *)
Fixpoint convert_all (new_rows : list db_row) (seg_map : list (string * pyval))
  : result (list pyval) :=
  match new_rows with
  | [] => Ok []
  | r :: rest =>
      c <- convert_record r seg_map ;;
      t <- convert_all rest seg_map ;;
      Ok (c :: t)
  end.

Definition ALL_RECORDS_DECL : string := "    const ALL_RECORDS = ".

Section Inject.

Variable py_repr : pyval -> string.
Variable remote : list Z -> bq_outcome.

(** [inject_into_html(all_records)], phase 3: the data block, then the
    display date, then one write. *)
Definition inject_into_html (all_records : list pyval) (w : world)
  : result unit * world :=
  match index_html w with
  | None => (Raise FileNotFoundError, w)
  | Some content =>
      if serializable (VList all_records) then
        let json_str := json_dumps py_repr (VList all_records) in
        let new_line := append ALL_RECORDS_DECL (append json_str ";") in
        match
          (content1 <- sub_all_records new_line content ;;
           all_dates <- dates_of all_records ;;
           match all_dates with
           | [] => Ok content1
           | _ =>
               ymd <- max_date_of all_dates ;;
               Ok (sub_last_update (String.length content1) (date_display ymd) content1)
           end)
        with
        | Raise e => (Raise e, w)
        | Ok content2 => (Ok tt, set_index_html content2 w)
        end
      else (Raise TypeError, w)
  end.

(** [main()], phase 3: the accepted set it leaves in the document (the
    existing one when there is no new row), and the files after the run.
    [db] is the content of the table, [None] when the database is
    missing. *)
Definition main (db : option (list db_row)) (w : world)
  : result (list pyval) * world :=
  match db with
  | None => (Raise SystemExit, w)
  | Some [] => (Raise IndexError, w)
  | Some db_records =>
      match load_existing_records w with
      | Raise e => (Raise e, w)
      | Ok (VList existing_records, _) =>
          match id_set (fun r => py_get r "chatId" (VStr "")) existing_records [] with
          | Raise e => (Raise e, w)
          | Ok existing_ids =>
              match new_rows_of db_records existing_ids with
              | [] => (Ok existing_records, w)
              | new_rows =>
                  match corp_ids_of new_rows [] with
                  | Raise e => (Raise e, w)
                  | Ok corp_ids =>
                      let '(seg, w1) := fetch_segments_from_bq py_repr remote corp_ids w in
                      match seg with
                      | Raise e => (Raise e, w1)
                      | Ok seg_map =>
                          match convert_all new_rows seg_map with
                          | Raise e => (Raise e, w1)
                          | Ok converted =>
                              let all_records := existing_records ++ converted in
                              match inject_into_html all_records w1 with
                              | (Raise e, w2) => (Raise e, w2)
                              | (Ok _, w2) => (Ok all_records, w2)
                              end
                          end
                      end
                  end
              end
          end
      | Ok _ => (Raise TypeError, w)
      end
  end.

End Inject.

End Phase3.


(** ** Vocabulary of the properties *)

(** The four fields that enrichment writes. *)
Definition ENRICHMENT_FIELDS : list string :=
  ["detailCategory"; "stabilityStatus"; "growthStatus"; "limitTier"].

(** The profile that [enrich_records] finds for a record: its [chatId]
    maps to a non-empty business identifier that is a key of the profile
    mapping. *)
Definition profile_of (corp_map : list (pyval * string))
  (seg_map : list (string * pyval)) (rec : pyval) : option pyval :=
  match py_item rec "chatId" with
  | Ok chat_id =>
      match assoc_get py_eqb chat_id corp_map with
      | Some corp_id =>
          if negb (String.eqb corp_id "") then dict_get corp_id seg_map else None
      | None => None
      end
  | Raise _ => None
  end.

Definition has_profile (corp_map : list (pyval * string))
  (seg_map : list (string * pyval)) (rec : pyval) : bool :=
  match profile_of corp_map seg_map rec with Some _ => true | None => false end.

(** What enrichment makes of one record: nothing when the record has no
    profile; otherwise the four enrichment fields hold the values of the
    profile and every other field is what it was. *)
Definition enriched_from (corp_map : list (pyval * string))
  (seg_map : list (string * pyval)) (rec rec' : pyval) : Prop :=
  match profile_of corp_map seg_map rec with
  | None => rec' = rec
  | Some seg =>
      exists d d',
        rec = VDict d /\ rec' = VDict d' /\
        (forall k, In k ENRICHMENT_FIELDS -> exists v, py_item seg k = Ok v /\ dict_get k d' = Some v) /\
        (forall k, ~ In k ENRICHMENT_FIELDS -> dict_get k d' = dict_get k d)
  end.

(** The last row of a sheet for which [f] answers. *)
Fixpoint last_some {A : Type} (f : list cell -> option A) (rows : list (list cell))
  : option A :=
  match rows with
  | [] => None
  | r :: rest =>
      match last_some f rest with
      | Some x => Some x
      | None => f r
      end
  end.

(** The actor reference that a UserChat row carries for identity [c]. *)
Definition row_actor (c : pyval) (r : list cell) : option pyval :=
  let chat_id := cell_value r 1 in
  if truthy chat_id && py_eqb c chat_id && truthy (cell_value r 14)
  then Some (cell_value r 14) else None.

(** The business number embedded in a UserChat row for identity [c]: a
    non-empty text in column 4, its non-digits stripped. *)
Definition row_direct (c : pyval) (r : list cell) : option string :=
  let chat_id := cell_value r 1 in
  if truthy chat_id && py_eqb c chat_id then
    match cell_value r 4 with
    | VStr t => if String.eqb t "" then None else Some (strip_non_digits t)
    | _ => None
    end
  else None.

(** The business number that a User data row holds for actor [uid]: a
    non-empty value in column 6, the non-digits of its text stripped. *)
Definition row_actor_corp (py_repr : pyval -> string) (uid : pyval) (r : list cell)
  : option string :=
  let u := cell_value r 1 in
  let corp := cell_value r 6 in
  if truthy u && truthy corp && py_eqb uid u
  then Some (strip_non_digits (py_str py_repr corp)) else None.

(** A text of ASCII digits only (the empty text among them). *)
Fixpoint digits_only (s : string) : bool :=
  match s with
  | EmptyString => true
  | String c s' => is_digit c && digits_only s'
  end.

(** Every value of a mapping is made of digits. *)
Definition digit_values {K : Type} (d : list (K * string)) : Prop :=
  Forall (fun kv => digits_only (snd kv) = true) d.

(** No two keys of an association list are equal. *)
Fixpoint keys_unique {V : Type} (d : list (pyval * V)) : Prop :=
  match d with
  | [] => True
  | (k, _) :: d' => assoc_get py_eqb k d' = None /\ keys_unique d'
  end.

(** [r.get("chatId", "")], the identity that phase 3 reads. *)
Definition chat_id_or_empty (r : pyval) : result pyval := py_get r "chatId" (VStr "").

(** [r["chatId"]], the identity that phase 1 reads. *)
Definition chat_id_of (r : pyval) : result pyval := py_item r "chatId".

(** The identities of a list of records, as [get_id] reads them. *)
Definition ids_are (get_id : pyval -> result pyval) (records ids : list pyval) : Prop :=
  Forall2 (fun r v => get_id r = Ok v) records ids.

(** No two identities of a list are equal. *)
Fixpoint distinct_ids (ids : list pyval) : bool :=
  match ids with
  | [] => true
  | x :: rest => negb (py_in x rest) && distinct_ids rest
  end.



(** A record projected on the thirteen index fields, in their order; a
    field that the record lacks is [None]. *)
Definition project_record (rd : list (string * pyval)) : pyval :=
  VDict (map (fun k => (k, match dict_get k rd with Some v => v | None => VNone end))
           Phase2.INDEX_FIELDS).


(** The data block of the document of [w] decodes to the list
    [records]: the accepted set that a run finds there. *)
Definition document_holds (w : world) (records : list pyval) : Prop :=
  exists content block,
    index_html w = Some content /\
    search_all_records content = Some block /\
    json_loads block = Ok (VList records).

(** ** Sample inputs of the examples *)

(** The sample texts are written with an apostrophe for each double
    quote. *)
Fixpoint dq (s : string) : string :=
  match s with
  | EmptyString => EmptyString
  | String c s' => String (if Ascii.eqb c "'" then "034"%char else c) (dq s')
  end.

(** The interpreter's printing in the examples: none of them prints a
    float, a date, a list or a dict. *)
Definition repr_unused : pyval -> string := fun _ => EmptyString.

(** A cache snapshot with one profile, for business identifier 123 and
    a grant limit of 75,000,000. *)
Definition sample_cache_text : string :=
  dq "[{'corp_id': '123', 'detail_category': 'SaaS', 'stability_status': 'stable', 'growth_status': 'growing', 'grant_limit': 75000000}]".

Definition sample_world : world :=
  mkWorld None (Some sample_cache_text) None 0.



(** Two fresh records as phase 1 hands them over, a mapping that knows
    the second one, and the profile of the sample cache. *)
Definition fresh_record (chat_id : string) : pyval :=
  VDict [("chatId", VStr chat_id);
         ("date", VStr "2026-02-20");
         ("company", VNone);
         ("oldTag", VStr UNCLASSIFIED);
         ("primaryTag", VStr UNCLASSIFIED);
         ("secondaryTag", VNone);
         ("confidence", VNone);
         ("detailCategory", VStr UNMATCHED);
         ("stabilityStatus", VStr UNMATCHED);
         ("growthStatus", VStr UNMATCHED);
         ("limitTier", VStr UNMATCHED);
         ("firstAnswerSec", VNone);
         ("closeSec", VNone)].

Definition sample_corp_map : list (pyval * string) := [(VStr "B2", "123")].

Definition sample_seg_map : list (string * pyval) :=
  [("123", VDict [("detailCategory", VStr "SaaS");
                  ("stabilityStatus", VStr "stable");
                  ("growthStatus", VStr "growing");
                  ("limitTier", VStr TIER_50M_100M)])].

(** A UserChat row with an identity, an embedded business number
    (column 4) and an actor reference (column 14); a User data row with an
    actor and its business number (column 6). *)
Definition chat_row (chat_id corp_direct user_id : cell) : list cell :=
  [chat_id; CNone; CNone; corp_direct;
   CNone; CNone; CNone; CNone; CNone; CNone; CNone; CNone; CNone; user_id].

Definition user_row (uid corp : cell) : list cell :=
  [uid; CNone; CNone; CNone; CNone; corp].

(** The accepted set that the document of [w] holds. *)
Definition accepted_set (w : world) : result pyval :=
  r <- Phase3.load_existing_records w ;; Ok (fst r).

(** One run of the spreadsheet path: the script of phase 1, then the
    script of phase 2, on the same workbook. *)
Definition spreadsheet_run (py_repr : pyval -> string) (remote : list Z -> bq_outcome)
  (wb : workbook) (w : world) : result (list pyval * nat) * world :=
  match Phase1.main py_repr wb w with
  | (Ok _, w1) => Phase2.main py_repr remote (Some wb) w1
  | (Raise e, w1) => (Raise e, w1)
  end.

(** A destination document that holds one accepted record, A1, and a
    display date; a workbook with the rows A1 and B2, the second with the
    business number 123; a database with the same two rows. *)
Definition sample_document : string :=
  dq "<span id='lastUpdateDate'>2026. 1. 1.</span><script>    const ALL_RECORDS = [{'chatId':'A1','date':'2026-01-01'}];</script>".

Definition sample_start : world :=
  mkWorld (Some sample_document) (Some sample_cache_text) None 0.

Definition sample_chat_row (chat_id day : string) : list cell :=
  [CStr chat_id; CStr day; CNone; CStr "123";
   CNone; CNone; CNone; CNone; CNone; CNone; CNone; CNone; CNone; CStr "u1"].

Definition sample_workbook : workbook :=
  mkWorkbook [sample_chat_row "A1" "2026-01-01"; sample_chat_row "B2" "2026-02-20"]
             [user_row (CStr "u1") (CStr "123")].

Definition sample_db_row (ts day : string) : Phase3.db_row :=
  Phase3.mkDbRow (CInt 1) (CStr day) CNone CNone CNone CNone CNone CNone CNone CNone
    (CStr ts) CNone (CStr "123") CNone CNone.

Definition sample_db : list Phase3.db_row :=
  [sample_db_row "A1" "2026-01-01"; sample_db_row "B2" "2026-02-20"].

Definition no_bq : list Z -> bq_outcome := fun _ => BqTimeout.

(** A destination document whose one accepted record came from the
    database path and carries its field [source]. *)
Definition sample_document_db : string :=
  dq "<span id='lastUpdateDate'>2026. 1. 1.</span><script>    const ALL_RECORDS = [{'chatId':'A1','date':'2026-01-01','source':'db'}];</script>".

Definition sample_start_db : world :=
  mkWorld (Some sample_document_db) (Some sample_cache_text) None 0.

(** The record B2 as the spreadsheet path writes it, with the profile of
    business 123. *)
Definition enriched_B2 : pyval :=
  VDict [("chatId", VStr "B2");
         ("date", VStr "2026-02-20");
         ("company", VNone);
         ("oldTag", VStr UNCLASSIFIED);
         ("primaryTag", VStr UNCLASSIFIED);
         ("secondaryTag", VNone);
         ("confidence", VNone);
         ("detailCategory", VStr "SaaS");
         ("stabilityStatus", VStr "stable");
         ("growthStatus", VStr "growing");
         ("limitTier", VStr TIER_50M_100M);
         ("firstAnswerSec", VNone);
         ("closeSec", VNone)].

(** The record A1 of [sample_document], projected on the index fields;
    B2 as the database path converts it. *)
Definition projected_A1 : pyval :=
  project_record [("chatId", VStr "A1"); ("date", VStr "2026-01-01")].

Definition plain_A1 : pyval :=
  VDict [("chatId", VStr "A1"); ("date", VStr "2026-01-01")].

(** A document whose data block is found but is not JSON. *)
Definition broken_block_world : world :=
  mkWorld (Some "<script>
    const ALL_RECORDS = [oops];
</script>") None None 0.

(** ** Vocabulary of the further properties *)

(** The three kinds of rows of the UserChat sheet that [parse_userchat]
    tells apart: a row without identity, a row whose identity is in the
    index, and a row that is accepted. *)
Definition row_empty (r : list cell) : bool := negb (truthy (cell_value r 1)).

Definition row_known (ids : list pyval) (r : list cell) : bool :=
  truthy (cell_value r 1) && py_in (cell_value r 1) ids.

Definition row_new (ids : list pyval) (r : list cell) : bool :=
  truthy (cell_value r 1) && negb (py_in (cell_value r 1) ids).

(** A record whose keys are the thirteen index fields, in their order. *)
Definition index_record (r : pyval) : Prop :=
  exists d, r = VDict d /\ map fst d = Phase2.INDEX_FIELDS.

(** The six labels of [to_limit_tier]. *)
Definition TIER_LABELS : list string :=
  [UNMATCHED; TIER_UNDER_10M; TIER_10M_50M; TIER_50M_100M; TIER_100M_500M; TIER_500M_UP].

(** A profile as the loop over the rows of a cache or of a response
    builds it: the four enrichment fields, the first three never empty,
    the fourth one of the six tier labels. *)
Definition profile_ok (seg : pyval) : Prop :=
  exists dc ss gs lt,
    seg = VDict [("detailCategory", dc); ("stabilityStatus", ss);
                 ("growthStatus", gs); ("limitTier", VStr lt)] /\
    truthy dc = true /\ truthy ss = true /\ truthy gs = true /\ In lt TIER_LABELS.


(** A world without destination document, with a hand-off file of one
    record. *)
Definition no_document_world : world :=
  mkWorld None None (Some (dq "[{'chatId': 'B2', 'date': '2026-02-20'}]")) 0.

(** A calendar date with a year of four digits. *)
Definition four_digit_date (d : datetime) : Prop :=
  1000 <= dt_year d <= 9999 /\ 1 <= dt_month d <= 12 /\
  1 <= dt_day d <= days_in_month (dt_year d) (dt_month d).

(** The company that a User data row holds for actor [uid] (column 5),
    when the row is a row of that actor. *)
Definition row_company (uid : pyval) (r : list cell) : option pyval :=
  let u := cell_value r 1 in
  if truthy u && py_eqb uid u then Some (cell_value r 5) else None.


(** The two loops of [scan_value], over the elements of an array and
    over the members of an object, for a given scanner of values. *)
Fixpoint scan_elements (scan : string -> option (pyval * string)) (n : nat) (s : string)
  : option (list pyval * string) :=
  match n with
  | O => None
  | S n' =>
      match scan s with
      | None => None
      | Some (v, r) =>
          match skip_ws r with
          | String "]" r' => Some ([v], r')
          | String "," r' =>
              match scan_elements scan n' (skip_ws r') with
              | Some (vs, r2) => Some (v :: vs, r2)
              | None => None
              end
          | _ => None
          end
      end
  end.

Fixpoint scan_members (scan : string -> option (pyval * string)) (n : nat) (s : string)
  : option (list (string * pyval) * string) :=
  match n with
  | O => None
  | S n' =>
      match s with
      | String "034"%char s1 =>
          match scan_string (S (String.length s1)) s1 with
          | None => None
          | Some (k, r) =>
              match skip_ws r with
              | String ":" r1 =>
                  match scan (skip_ws r1) with
                  | None => None
                  | Some (v, r2) =>
                      match skip_ws r2 with
                      | String "}" r3 => Some ([(k, v)], r3)
                      | String "," r3 =>
                          match scan_members scan n' (skip_ws r3) with
                          | Some (kvs, r4) => Some ((k, v) :: kvs, r4)
                          | None => None
                          end
                      | _ => None
                      end
                  end
              | _ => None
              end
          end
      | _ => None
      end
  end.

(** No two keys of a list are equal. *)
Fixpoint distinct_keys (ks : list string) : bool :=
  match ks with
  | [] => true
  | k :: rest => negb (existsb (String.eqb k) rest) && distinct_keys rest
  end.

(** A value that [json.dumps] writes without the help of the float
    printer and that is a well-formed [dict] wherever it is one: no
    finite float, no date, no repeated key. *)
Fixpoint json_plain (v : pyval) : bool :=
  match v with
  | VFloat (Fin _) | VDateTime _ => false
  | VList l => forallb json_plain l
  | VDict d => forallb (fun kv => json_plain (snd kv)) d && distinct_keys (map fst d)
  | _ => true
  end.

(** What may follow a JSON value in a text: nothing, a comma, a closing
    bracket or brace, or white space. *)
Definition delimited (rest : string) : bool :=
  match rest with
  | EmptyString => true
  | String c _ =>
      Ascii.eqb c "," || Ascii.eqb c "]" || Ascii.eqb c "}" || is_json_ws c
  end.

(** A value inside a list or a dict that the decoder reads back with
    fuel [f]: it is plain, its text is not longer than [f], and it is
    decoded from its text before any delimiter. *)
Definition decodes (py_repr : pyval -> string) (f : nat) (v : pyval) : Prop :=
  json_plain v = true /\
  (String.length (json_dumps py_repr v) <= f)%nat /\
  forall rest, delimited rest = true ->
               scan_value f (append (json_dumps py_repr v) rest) = Some (v, rest).

(** A text without the character [c]. *)
Fixpoint lacks (c : ascii) (s : string) : bool :=
  match s with
  | EmptyString => true
  | String a s' => negb (Ascii.eqb a c) && lacks c s'
  end.

(** A character that the writer passes through unharmed: no control
    character, no backslash (both are rewritten by the replacement
    template of [re.sub]), no semicolon (it could close the data block
    early) and no greater-than sign (it could close a display-date
    marker). *)
Definition safe_char (c : ascii) : bool :=
  (32 <=? nat_of_ascii c)%nat
  && negb (Ascii.eqb c "\") && negb (Ascii.eqb c ";") && negb (Ascii.eqb c ">").

Fixpoint safe_text (s : string) : bool :=
  match s with
  | EmptyString => true
  | String c s' => safe_char c && safe_text s'
  end.

(** A value whose texts, keys included, are safe, and which is plain. *)
Fixpoint doc_safe (v : pyval) : bool :=
  match v with
  | VFloat (Fin _) | VDateTime _ => false
  | VStr s => safe_text s
  | VList l => forallb doc_safe l
  | VDict d =>
      forallb (fun kv => safe_text (fst kv) && doc_safe (snd kv)) d
      && distinct_keys (map fst d)
  | _ => true
  end.

(** A text that the replacement template of [re.sub] reproduces as it
    is, whatever follows it. *)
Definition template_literal (t : string) : Prop :=
  forall x,
    expand_template (append t x)
    = match expand_template x with
      | Some r => Some (append t r)
      | None => None
      end.

(** A text that is a template literal and has neither semicolon nor
    greater-than sign. *)
Definition inert (t : string) : Prop :=
  lacks ";" t = true /\ lacks ">" t = true /\ template_literal t.

(** What follows the last less-than sign of a text (the whole text when
    it has none). *)
Fixpoint after_last_lt (s : string) : string :=
  match s with
  | EmptyString => EmptyString
  | String c s' =>
      if lacks "<" s' then (if Ascii.eqb c "<" then s' else s)
      else after_last_lt s'
  end.

(** Every display-date marker of a text is followed, in the text, by a
    less-than sign: no marker occurs after the last one. *)
Definition date_closed (head : string) : bool :=
  match find_sub DATE_MARKER (after_last_lt head) with
  | None => true
  | Some _ => false
  end.

(** The first occurrence of [needle] in the text [p] followed by
    [needle] is the one at the end. *)
Definition first_at (needle p : string) : Prop :=
  find_sub needle (append p needle) = Some (p, EmptyString).

(** A document that the writer and the reader take the same way: the
    first declaration of the data block is indented by four spaces, as
    the writer's pattern has it; a [];] follows it; and every
    display-date marker before it is followed by a less-than sign
    before it. *)
Definition block_ready (content : string) : bool :=
  match find_sub SUB_MARKER content, find_sub SEARCH_MARKER content with
  | Some (head, after), Some (before, _) =>
      String.eqb before (append head "    ")
      && date_closed head
      && match find_sub BLOCK_END after with Some _ => true | None => false end
  | _, _ => false
  end.

(** A control character that [json.dumps] writes as a [\u] escape: one
    below 32 that is none of backspace, tab, line feed, form feed and
    carriage return. *)
Definition u_escaped (c : ascii) : bool :=
  let n := nat_of_ascii c in
  (n <? 32)%nat
  && negb ((n =? 8) || (n =? 9) || (n =? 10) || (n =? 12) || (n =? 13))%nat.

(** A text that the replacement template of [re.sub] refuses, whatever
    follows it. *)
Definition template_error (t : string) : Prop :=
  forall x, expand_template (append t x) = None.

(** A text of JSON white space only. *)
Fixpoint all_ws (s : string) : bool :=
  match s with
  | EmptyString => true
  | String c s' => is_json_ws c && all_ws s'
  end.

(** A value is read from the text [enc v] by the decoder with fuel
    [f]: the text starts with a character that is neither white space
    nor a closing bracket or brace, and before any delimiter it is
    decoded to the value. *)
Definition reads (f : nat) (enc : pyval -> string) (v : pyval) : Prop :=
  (exists c t, enc v = String c t /\
               is_json_ws c = false /\ Ascii.eqb c "]" = false /\ Ascii.eqb c "}" = false) /\
  forall rest, delimited rest = true ->
               scan_value f (append (enc v) rest) = Some (v, rest).

(** The line break and the indentation that [json.dump(..., indent=2)]
    writes at nesting depth [k]. *)
Definition indent_newline (k : nat) : string :=
  String (ascii_of_nat 10) (spaces (2 * k)).









(** The record B2 as phase 1 writes it to the hand-off file. *)
Definition handoff_B2 : pyval :=
  VDict [("chatId", VStr "B2");
         ("date", VStr "2026-02-20");
         ("company", VNone);
         ("oldTag", VStr UNCLASSIFIED);
         ("primaryTag", VStr UNCLASSIFIED);
         ("secondaryTag", VNone);
         ("confidence", VNone);
         ("detailCategory", VStr UNMATCHED);
         ("stabilityStatus", VStr UNMATCHED);
         ("growthStatus", VStr UNMATCHED);
         ("limitTier", VStr UNMATCHED);
         ("firstAnswerSec", VNone);
         ("closeSec", VNone)].

(** The files after phase 1 has run on the sample. *)
Definition sample_handoff_world : world :=
  set_new_records_json (json_dumps_indent repr_unused 0 (VList [handoff_B2])) sample_start.

(** A UserChat row without a date, and a workbook in which it follows
    the dated rows of the sample. *)
Definition undated_chat_row (chat_id : string) : list cell :=
  [CStr chat_id; CNone; CNone; CStr "123";
   CNone; CNone; CNone; CNone; CNone; CNone; CNone; CNone; CNone; CStr "u1"].

Definition sample_workbook_undated : workbook :=
  mkWorkbook [sample_chat_row "A1" "2026-01-01"; sample_chat_row "B2" "2026-02-20";
              undated_chat_row "C3"]
             [user_row (CStr "u1") (CStr "123")].

(** The merged list and the match count of a run of phase 2 that
    succeeded (the empty list and zero otherwise). *)
Definition merged_of (r : result (list pyval * nat) * world) : list pyval * nat :=
  match fst r with
  | Ok x => x
  | Raise _ => ([], O)
  end.

(** * Properties *)

Section TierClassifier.

Local Open Scope Q_scope.





End TierClassifier.



Section SegmentResolver.

Variable py_repr : pyval -> string.

Lemma load_segment_cache_bq_attempt (w : world) :
  load_segment_cache py_repr (count_bq_attempt w) = load_segment_cache py_repr w.
Proof. reflexivity. Qed.



End SegmentResolver.



(** C6, as the claim states it, fails on phase 2: with an empty list of
    identifiers its resolver returns the empty mapping although the cache
    holds a profile. *)
Lemma fetch_segments_empty_ids_counterexample :
  fst (Phase2.fetch_segments_from_bq repr_unused (fun _ => BqTimeout) [] sample_world)
  = Ok [] /\
  load_segment_cache repr_unused sample_world
  = Ok [("123", VDict [("detailCategory", VStr "SaaS");
                       ("stabilityStatus", VStr "stable");
                       ("growthStatus", VStr "growing");
                       ("limitTier", VStr TIER_50M_100M)])].
Proof. split; vm_compute; reflexivity. Qed.

(** C6, amended (segment resolver on no identifier).  With an empty list
    of identifiers neither resolver starts a remote query or touches a
    file; the resolver of phase 3 returns the cache snapshot as
    [load_segment_cache] reads it, unfiltered, and the resolver of phase 2
    returns the empty mapping. *)
Theorem fetch_segments_empty_ids
  (py_repr : pyval -> string) (remote : list Z -> bq_outcome) (w : world) :
  Phase3.fetch_segments_from_bq py_repr remote [] w = (load_segment_cache py_repr w, w) /\
  Phase2.fetch_segments_from_bq py_repr remote [] w = (Ok [], w).
Proof. split; reflexivity. Qed.

Section IdentityIndex.

Lemma parse_userchat_no_index (py_repr : pyval -> string)
  (rows : list (list cell)) (user_map : list (pyval * pyval)) :
  forall recs skipped_empty skipped_dup,
    Phase1.parse_userchat py_repr rows user_map [] = Ok (recs, skipped_empty, skipped_dup) ->
    skipped_dup = O /\ (List.length recs + skipped_empty = List.length rows)%nat.
Proof.
  induction rows as [|r rows IH]; intros recs se sd H; simpl in H.
  - inversion H; subst. split; reflexivity.
  - destruct (negb (truthy (cell_value r 1))).
    + destruct (Phase1.parse_userchat py_repr rows user_map []) as [[[recs' se'] sd']|e];
        simpl in H; [|discriminate].
      inversion H; subst. destruct (IH _ _ _ eq_refl) as [-> E]. split; [reflexivity|].
      simpl. lia.
    + simpl in H.
      destruct (Phase1.record_of_row py_repr r user_map (cell_value r 1)) as [rec|e];
        simpl in H; [|discriminate].
      destruct (Phase1.parse_userchat py_repr rows user_map []) as [[[recs' se'] sd']|e];
        simpl in H; [|discriminate].
      inversion H; subst. destruct (IH _ _ _ eq_refl) as [-> E]. split; [reflexivity|].
      simpl. lia.
Qed.

Lemma new_rows_of_no_index (db_records : list Phase3.db_row) :
  Phase3.new_rows_of db_records [] = db_records.
Proof.
  unfold Phase3.new_rows_of. induction db_records as [|r l IH]; simpl; [reflexivity|].
  f_equal. exact IH.
Qed.

End IdentityIndex.

(** C8, as the claim states it, fails where the data block is found but
    cannot be parsed: both loaders of the identity index raise the
    decoding error instead of yielding an empty index. *)
Lemma load_existing_chat_ids_unparsable_counterexample :
  Phase1.load_existing_chat_ids broken_block_world = Raise JSONDecodeError /\
  Phase3.load_existing_chat_ids broken_block_world = Raise JSONDecodeError /\
  Phase3.load_existing_records broken_block_world = Raise JSONDecodeError.
Proof. repeat split; vm_compute; reflexivity. Qed.

(** The decoding error of a block that is found is the loaders' own
    result. *)
Lemma load_existing_chat_ids_decode_error (w : world) (content block : string) (e : exn) :
  index_html w = Some content ->
  search_all_records content = Some block ->
  json_loads block = Raise e ->
  Phase1.load_existing_chat_ids w = Raise e /\
  Phase3.load_existing_chat_ids w = Raise e /\
  Phase3.load_existing_records w = Raise e.
Proof.
  intros H S J.
  unfold Phase1.load_existing_chat_ids, Phase3.load_existing_chat_ids,
    Phase3.load_existing_records.
  rewrite H, S, J. repeat split.
Qed.

(** C8, amended (degradation of the identity index).  When the
    destination document is absent, or holds no data block, the identity
    index is empty and building it raises nothing: phase 3 then keeps
    every row of the batch, and phase 1 counts no duplicate and turns
    every row with an identity into a record.  When the block is found
    and its text does not decode, the decoding error is raised. *)
Theorem load_existing_chat_ids_degrades (w : world) :
  ((index_html w = None \/
    exists content, index_html w = Some content /\ search_all_records content = None) ->
   Phase1.load_existing_chat_ids w = Ok [] /\
   Phase3.load_existing_chat_ids w = Ok [] /\
   (exists content, Phase3.load_existing_records w = Ok (VList [], content)) /\
   (forall db_records, Phase3.new_rows_of db_records [] = db_records) /\
   (forall py_repr rows user_map recs skipped_empty skipped_dup,
      Phase1.parse_userchat py_repr rows user_map []
      = Ok (recs, skipped_empty, skipped_dup) ->
      skipped_dup = O /\ (List.length recs + skipped_empty = List.length rows)%nat)) /\
  (forall content block e,
     index_html w = Some content ->
     search_all_records content = Some block ->
     json_loads block = Raise e ->
     Phase1.load_existing_chat_ids w = Raise e /\
     Phase3.load_existing_chat_ids w = Raise e /\
     Phase3.load_existing_records w = Raise e).
Proof.
  split; [|apply load_existing_chat_ids_decode_error].
  intros H.
  assert (A : Phase1.load_existing_chat_ids w = Ok [] /\
              Phase3.load_existing_chat_ids w = Ok [] /\
              exists content, Phase3.load_existing_records w = Ok (VList [], content)).
  { unfold Phase1.load_existing_chat_ids, Phase3.load_existing_chat_ids,
      Phase3.load_existing_records.
    destruct H as [H | (content & H & S)]; rewrite H.
    - repeat split. now exists EmptyString.
    - rewrite S. repeat split. now exists content. }
  destruct A as (A1 & A2 & A3).
  repeat split; try assumption.
  - apply new_rows_of_no_index.
  - eapply parse_userchat_no_index; eassumption.
  - eapply parse_userchat_no_index; eassumption.
Qed.

(** The index of a run without a destination document. *)
Lemma load_existing_chat_ids_degrades_witness :
  Phase1.load_existing_chat_ids sample_world = Ok [] /\
  Phase3.load_existing_chat_ids sample_world = Ok [].
Proof.
  destruct (load_existing_chat_ids_degrades sample_world) as (H & _).
  destruct H as (A & B & _).
  - left. reflexivity.
  - split; assumption.
Defined.

Section DocumentWriter.

Variable py_repr : pyval -> string.


Lemma sub_all_records_outcome (new_line c1 c2 : string) :
  (exists t, sub_all_records new_line c1 = Ok t) ->
  exists t, sub_all_records new_line c2 = Ok t.
Proof.
  unfold sub_all_records. destruct (expand_template new_line).
  - intros _. eexists. reflexivity.
  - intros [t H]. discriminate.
Qed.





End DocumentWriter.




Section DictFacts.

Context {V : Type}.

Lemma dict_get_set_same (k : string) (v : V) (d : list (string * V)) :
  dict_get k (dict_set k v d) = Some v.
Proof.
  unfold dict_get, dict_set.
  induction d as [|[k' v'] d IH]; simpl.
  - now rewrite String.eqb_refl.
  - destruct (String.eqb k k') eqn:E; simpl; rewrite E; [reflexivity|exact IH].
Qed.

Lemma dict_get_set_other (k k' : string) (v : V) (d : list (string * V)) :
  k <> k' -> dict_get k' (dict_set k v d) = dict_get k' d.
Proof.
  unfold dict_get, dict_set. intro N.
  induction d as [|[k0 v0] d IH]; simpl.
  - destruct (String.eqb k' k) eqn:E; [|reflexivity].
    apply String.eqb_eq in E. congruence.
  - destruct (String.eqb k k0) eqn:E; simpl.
    + apply String.eqb_eq in E. subst k0.
      destruct (String.eqb k' k) eqn:E'; [|reflexivity].
      apply String.eqb_eq in E'. congruence.
    + destruct (String.eqb k' k0); [reflexivity|exact IH].
Qed.

End DictFacts.

Section Enrichment.

Variable corp_map : list (pyval * string).
Variable seg_map : list (string * pyval).

Lemma py_item_dict (r : pyval) (k : string) (v : pyval) :
  py_item r k = Ok v -> exists d, r = VDict d /\ dict_get k d = Some v.
Proof.
  destruct r; simpl; try discriminate.
  intro H. exists d. split; [reflexivity|].
  destruct (dict_get k d); [congruence|discriminate].
Qed.

Ltac dict_lookup :=
  repeat first
    [ rewrite dict_get_set_same
    | rewrite dict_get_set_other by (intro; discriminate || congruence) ].

Lemma enrich_records_frame_aux (recs : list pyval) :
  forall recs' matched,
    Phase2.enrich_records recs corp_map seg_map = Ok (recs', matched) ->
    Forall2 (enriched_from corp_map seg_map) recs recs' /\
    matched = List.length (filter (has_profile corp_map seg_map) recs).
Proof.
  induction recs as [|rec rest IH]; intros recs' matched H; simpl in H.
  - inversion H; subst. split; [constructor|reflexivity].
  - destruct (py_item rec "chatId") as [chat_id|e] eqn:EI; cbn [bind] in H; [|discriminate].
    destruct (hashable chat_id); cbn [bind] in H; [|discriminate].
    destruct (py_item_dict _ _ _ EI) as (d & -> & Hd).
    assert (P : profile_of corp_map seg_map (VDict d)
                = match assoc_get py_eqb chat_id corp_map with
                  | Some corp_id =>
                      if negb (String.eqb corp_id "") then dict_get corp_id seg_map else None
                  | None => None
                  end)
      by (unfold profile_of; rewrite EI; reflexivity).
    assert (Tail : forall r0 (m0 : nat),
               (r1 <- Phase2.enrich_records rest corp_map seg_map ;;
                Ok (r0 :: fst r1, (m0 + snd r1)%nat)) = Ok (recs', matched) ->
               exists tl, recs' = r0 :: tl /\
                 Forall2 (enriched_from corp_map seg_map) rest tl /\
                 matched = (m0 + List.length (filter (has_profile corp_map seg_map) rest))%nat).
    { intros r0 m0 H0.
      destruct (Phase2.enrich_records rest corp_map seg_map) as [[tl m]|];
        cbn [bind fst snd] in H0; [|discriminate].
      inversion H0; subst. destruct (IH _ _ eq_refl) as [F ->].
      exists tl. repeat split. exact F. }
    simpl filter. unfold has_profile at 1. rewrite P.
    destruct (assoc_get py_eqb chat_id corp_map) as [corp_id|] eqn:EC.
    + destruct (negb (String.eqb corp_id "")) eqn:EN.
      * destruct (dict_get corp_id seg_map) as [seg|] eqn:ES.
        -- destruct (py_item seg "detailCategory") as [v1|] eqn:E1; cbn [bind py_setitem] in H; [|discriminate].
           destruct (py_item seg "stabilityStatus") as [v2|] eqn:E2; cbn [bind py_setitem] in H; [|discriminate].
           destruct (py_item seg "growthStatus") as [v3|] eqn:E3; cbn [bind py_setitem] in H; [|discriminate].
           destruct (py_item seg "limitTier") as [v4|] eqn:E4; cbn [bind py_setitem] in H; [|discriminate].
           destruct (Tail _ _ H) as (tl & -> & F & ->).
           split; [|reflexivity].
           constructor; [|exact F].
           unfold enriched_from. rewrite P.
           eexists. eexists. split; [reflexivity|]. split; [reflexivity|]. split.
           ++ intros k [<-|[<-|[<-|[<-|[]]]]]; eexists; (split; [eassumption|]); dict_lookup; reflexivity.
           ++ intros k N. unfold ENRICHMENT_FIELDS in N. simpl in N.
              rewrite !dict_get_set_other; [reflexivity| | | |]; intro; subst; apply N; auto.
        -- cbn [bind] in H. destruct (Tail _ _ H) as (tl & -> & F & ->).
           split; [|reflexivity]. constructor; [|exact F].
           unfold enriched_from. rewrite P. reflexivity.
      * cbn [bind] in H. destruct (Tail _ _ H) as (tl & -> & F & ->).
        split; [|reflexivity]. constructor; [|exact F].
        unfold enriched_from. rewrite P. reflexivity.
    + cbn [bind] in H. destruct (Tail _ _ H) as (tl & -> & F & ->).
      split; [|reflexivity]. constructor; [|exact F].
      unfold enriched_from. rewrite P. reflexivity.
Qed.

Lemma dict_get_In (k : string) (v : pyval) (d : list (string * pyval)) :
  dict_get k d = Some v -> exists k', In (k', v) d.
Proof.
  unfold dict_get. induction d as [|[k0 v0] d IH]; simpl; [discriminate|].
  destruct (String.eqb k k0).
  - intro H. inversion H; subst. exists k0. now left.
  - intro H. destruct (IH H) as [k' I]. exists k'. now right.
Qed.

Lemma enrich_records_total (recs : list pyval) :
  Forall (fun r => exists v, py_item r "chatId" = Ok v /\ hashable v = true) recs ->
  Forall (fun kv => forall k, In k ENRICHMENT_FIELDS ->
                    exists v, py_item (snd kv) k = Ok v) seg_map ->
  exists recs' matched, Phase2.enrich_records recs corp_map seg_map = Ok (recs', matched).
Proof.
  intros W S. induction W as [|rec rest (chat_id & EI & Hh) W IH].
  - simpl. eauto.
  - destruct IH as (tl & m & IH). simpl. rewrite EI. cbn [bind]. rewrite Hh. cbn [bind].
    destruct (py_item_dict _ _ _ EI) as (d & -> & Hd).
    destruct (assoc_get py_eqb chat_id corp_map) as [corp_id|];
      [|cbn [bind]; rewrite IH; cbn [bind]; eauto].
    destruct (negb (String.eqb corp_id ""));
      [|cbn [bind]; rewrite IH; cbn [bind]; eauto].
    destruct (dict_get corp_id seg_map) as [seg|] eqn:ES;
      [|cbn [bind]; rewrite IH; cbn [bind]; eauto].
    destruct (dict_get_In _ _ _ ES) as [k' I].
    rewrite Forall_forall in S. pose proof (S _ I) as F. simpl in F.
    destruct (F "detailCategory") as [v1 ->]; [simpl; tauto|].
    destruct (F "stabilityStatus") as [v2 ->]; [simpl; tauto|].
    destruct (F "growthStatus") as [v3 ->]; [simpl; tauto|].
    destruct (F "limitTier") as [v4 ->]; [simpl; tauto|].
    cbn [bind py_setitem]. rewrite IH. cbn [bind]. eauto.
Qed.

Lemma enrich_records_other_fields (recs enriched : list pyval) (matched : nat) :
  Phase2.enrich_records recs corp_map seg_map = Ok (enriched, matched) ->
  Forall2 (fun rec rec' =>
             forall k, ~ In k ENRICHMENT_FIELDS -> py_item rec' k = py_item rec k)
    recs enriched.
Proof.
  intro H. destruct (enrich_records_frame_aux _ _ _ H) as [F _].
  clear H. induction F as [|r r' l l' E F IH]; constructor; [|exact IH].
  intros k N. unfold enriched_from in E.
  destruct (profile_of corp_map seg_map r).
  - destruct E as (d & d' & -> & -> & _ & U). simpl. now rewrite (U k N).
  - now subst.
Qed.

End Enrichment.

(** C10 (enrichment frame).  [enrich_records] returns as many records
    as it was given, in the same order.  A record whose [chatId] maps to
    a non-empty business identifier that the profile mapping holds gets
    the four enrichment fields of that profile; every other record is
    returned as it was; no field other than the four enrichment fields
    changes in any record ([chatId], [date] and [company] among them);
    and [matched] is the number of records that got a profile.  The
    function returns, without raising, whenever every record is an
    object with a hashable [chatId] and every profile has the four
    fields. *)
Theorem enrich_records_frame
  (corp_map : list (pyval * string)) (seg_map : list (string * pyval))
  (new_records : list pyval) :
  (forall enriched matched,
     Phase2.enrich_records new_records corp_map seg_map = Ok (enriched, matched) ->
     List.length enriched = List.length new_records /\
     Forall2 (enriched_from corp_map seg_map) new_records enriched /\
     Forall2 (fun rec rec' =>
                forall k, ~ In k ENRICHMENT_FIELDS -> py_item rec' k = py_item rec k)
       new_records enriched /\
     matched = List.length (filter (has_profile corp_map seg_map) new_records)) /\
  (Forall (fun r => exists v, py_item r "chatId" = Ok v /\ hashable v = true) new_records ->
   Forall (fun kv => forall k, In k ENRICHMENT_FIELDS ->
                     exists v, py_item (snd kv) k = Ok v) seg_map ->
   exists enriched matched,
     Phase2.enrich_records new_records corp_map seg_map = Ok (enriched, matched)).
Proof.
  split; [|apply enrich_records_total].
  intros enriched matched H.
  destruct (enrich_records_frame_aux corp_map seg_map _ _ _ H) as [F M].
  split; [symmetry; exact (Forall2_length F)|].
  split; [exact F|]. split; [|exact M].
  exact (enrich_records_other_fields corp_map seg_map _ _ _ H).
Qed.

(** Enrichment of two records of which the second one has a profile. *)
Lemma enrich_records_frame_witness :
  exists enriched,
    Phase2.enrich_records [fresh_record "A1"; fresh_record "B2"]
      sample_corp_map sample_seg_map = Ok (enriched, 1%nat) /\
    List.length enriched = 2%nat /\
    nth_error enriched 0 = Some (fresh_record "A1").
Proof.
  destruct (enrich_records_frame sample_corp_map sample_seg_map
              [fresh_record "A1"; fresh_record "B2"]) as [H _].
  eexists. split; [vm_compute; reflexivity|].
  split; [|reflexivity].
  eapply H. vm_compute. reflexivity.
Defined.

Section Equality.

Lemma float_eqb_sym (x y : pyfloat) : float_eqb x y = float_eqb y x.
Proof.
  destruct x, y; simpl; try reflexivity.
  destruct (Qeq_bool q q0) eqn:E, (Qeq_bool q0 q) eqn:E'; try reflexivity.
  - apply Qeq_bool_iff in E. symmetry in E. apply Qeq_bool_iff in E. congruence.
  - apply Qeq_bool_iff in E'. symmetry in E'. apply Qeq_bool_iff in E'. congruence.
Qed.

Lemma float_eqb_trans (x y z : pyfloat) :
  float_eqb x y = true -> float_eqb y z = true -> float_eqb x z = true.
Proof.
  destruct x, y, z; simpl; try discriminate; try reflexivity.
  intros A B. apply Qeq_bool_iff in A. apply Qeq_bool_iff in B.
  apply Qeq_bool_iff. now rewrite A.
Qed.

Lemma datetime_eqb_eq (a b : datetime) : datetime_eqb a b = true <-> a = b.
Proof.
  unfold datetime_eqb. destruct a, b; simpl. split.
  - intro H. repeat (apply andb_true_iff in H; destruct H as [H ?]).
    repeat match goal with E : (_ =? _) = true |- _ => apply Z.eqb_eq in E end.
    subst. reflexivity.
  - intro H. inversion H; subst. now rewrite !Z.eqb_refl.
Qed.

Lemma datetime_eqb_sym (a b : datetime) : datetime_eqb a b = datetime_eqb b a.
Proof.
  unfold datetime_eqb.
  now rewrite (Z.eqb_sym (dt_year a)), (Z.eqb_sym (dt_month a)), (Z.eqb_sym (dt_day a)),
    (Z.eqb_sym (dt_hour a)), (Z.eqb_sym (dt_minute a)), (Z.eqb_sym (dt_second a)),
    (Z.eqb_sym (dt_microsecond a)).
Qed.

Lemma py_eqb_sym (a b : pyval) : py_eqb a b = py_eqb b a.
Proof.
  destruct a, b; unfold py_eqb, num_of; try reflexivity;
    try apply float_eqb_sym; try apply String.eqb_sym; apply datetime_eqb_sym.
Qed.

Lemma py_eqb_trans (a b c : pyval) :
  py_eqb a b = true -> py_eqb b c = true -> py_eqb a c = true.
Proof.
  destruct a, b; unfold py_eqb at 1, num_of; try discriminate; intro A;
    destruct c; unfold py_eqb, num_of; try discriminate; intro B;
    try reflexivity;
    try (eapply float_eqb_trans; eassumption).
  - apply String.eqb_eq in A. apply String.eqb_eq in B. apply String.eqb_eq. congruence.
  - apply datetime_eqb_eq in A. apply datetime_eqb_eq in B. apply datetime_eqb_eq. congruence.
Qed.

Lemma py_eqb_cell_refl (c : cell) : py_eqb (of_cell c) (of_cell c) = true.
Proof.
  destruct c; simpl; try reflexivity.
  - destruct b; reflexivity.
  - apply Z.eqb_refl.
  - apply Qeq_bool_iff. reflexivity.
  - apply String.eqb_refl.
  - now apply datetime_eqb_eq.
Qed.

End Equality.

Section AssocFacts.

Context {V : Type}.

Lemma py_eqb_congr (a b c : pyval) : py_eqb a b = true -> py_eqb a c = py_eqb b c.
Proof.
  intro H. destruct (py_eqb b c) eqn:E.
  - eapply py_eqb_trans; eassumption.
  - destruct (py_eqb a c) eqn:E'; [|reflexivity].
    rewrite py_eqb_sym in H. rewrite (py_eqb_trans _ _ _ H E') in E. discriminate.
Qed.

Lemma assoc_get_congr (a b : pyval) (d : list (pyval * V)) :
  py_eqb a b = true -> assoc_get py_eqb a d = assoc_get py_eqb b d.
Proof.
  intro H. induction d as [|[k v] d IH]; simpl; [reflexivity|].
  rewrite (py_eqb_congr a b k H). now rewrite IH.
Qed.

Lemma assoc_get_set (k k' : pyval) (v : V) (d : list (pyval * V)) :
  assoc_get py_eqb k' (assoc_set py_eqb k v d)
  = if py_eqb k' k then Some v else assoc_get py_eqb k' d.
Proof.
  induction d as [|[k0 v0] d IH]; simpl; [reflexivity|].
  destruct (py_eqb k k0) eqn:E; simpl.
  - assert (A : py_eqb k' k0 = py_eqb k' k).
    { rewrite (py_eqb_sym k' k0), (py_eqb_sym k' k). symmetry. now apply py_eqb_congr. }
    rewrite A. destruct (py_eqb k' k); reflexivity.
  - rewrite IH. destruct (py_eqb k' k0) eqn:E0; [|reflexivity].
    destruct (py_eqb k' k) eqn:E1; [|reflexivity].
    rewrite py_eqb_sym in E1. rewrite (py_eqb_trans _ _ _ E1 E0) in E. discriminate.
Qed.

End AssocFacts.

Section IdentifierMapper.

Lemma scan_userdata_lookup (py_repr : pyval -> string) (rows : list (list cell)) :
  forall (acc : list (pyval * string)) (uid : pyval),
    assoc_get py_eqb uid (Phase2.scan_userdata py_repr rows acc)
    = match last_some (row_actor_corp py_repr uid) rows with
      | Some x => Some x
      | None => assoc_get py_eqb uid acc
      end.
Proof.
  induction rows as [|r rest IH]; intros acc uid; simpl; [reflexivity|].
  rewrite IH. destruct (last_some (row_actor_corp py_repr uid) rest); [reflexivity|].
  unfold row_actor_corp.
  destruct (truthy (cell_value r 1) && truthy (cell_value r 6)); simpl; [|reflexivity].
  rewrite assoc_get_set. destruct (py_eqb uid (cell_value r 1)); reflexivity.
Qed.

Lemma scan_userchat_lookup (rows : list (list cell)) :
  forall (a : list (pyval * pyval)) (b : list (pyval * string)) (c : pyval),
    assoc_get py_eqb c (fst (Phase2.scan_userchat rows a b))
    = match last_some (row_actor c) rows with
      | Some x => Some x
      | None => assoc_get py_eqb c a
      end /\
    assoc_get py_eqb c (snd (Phase2.scan_userchat rows a b))
    = match last_some (row_direct c) rows with
      | Some x => Some x
      | None => assoc_get py_eqb c b
      end.
Proof.
  induction rows as [|r rest IH]; intros a b c; simpl; [split; reflexivity|].
  destruct (truthy (cell_value r 1)) eqn:T; simpl.
  - destruct (IH (if truthy (cell_value r 14)
                  then assoc_set py_eqb (cell_value r 1) (cell_value r 14) a else a)
                (match cell_value r 4 with
                 | VStr t =>
                     if truthy (cell_value r 4)
                     then assoc_set py_eqb (cell_value r 1) (strip_non_digits t) b
                     else b
                 | _ => b
                 end) c) as [A B].
    rewrite A, B. split.
    + destruct (last_some (row_actor c) rest); [reflexivity|].
      unfold row_actor. rewrite T. simpl.
      destruct (truthy (cell_value r 14)); rewrite ?assoc_get_set;
        destruct (py_eqb c (cell_value r 1)); reflexivity.
    + destruct (last_some (row_direct c) rest); [reflexivity|].
      unfold row_direct. rewrite T. simpl.
      destruct (cell_value r 4) eqn:E4; try (destruct (py_eqb c (cell_value r 1)); reflexivity).
      simpl. destruct (String.eqb s "") eqn:Es; simpl; rewrite ?assoc_get_set;
        destruct (py_eqb c (cell_value r 1)); reflexivity.
  - destruct (IH a b c) as [A B]. rewrite A, B.
    split; [destruct (last_some (row_actor c) rest)|destruct (last_some (row_direct c) rest)];
      try reflexivity; [unfold row_actor|unfold row_direct]; rewrite T; reflexivity.
Qed.

Lemma keys_unique_set {V : Type} (k : pyval) (v : V) (d : list (pyval * V)) :
  keys_unique d -> keys_unique (assoc_set py_eqb k v d).
Proof.
  induction d as [|[k0 v0] d IH]; simpl; [tauto|].
  intros [N U]. destruct (py_eqb k k0) eqn:E; simpl.
  - split; assumption.
  - split; [|now apply IH].
    rewrite assoc_get_set, (py_eqb_sym k0 k), E. exact N.
Qed.

Lemma scan_userchat_unique (rows : list (list cell)) :
  forall (a : list (pyval * pyval)) (b : list (pyval * string)),
    keys_unique a -> keys_unique (fst (Phase2.scan_userchat rows a b)).
Proof.
  induction rows as [|r rest IH]; intros a b U; simpl; [exact U|].
  destruct (negb (truthy (cell_value r 1))); [now apply IH|].
  apply IH. destruct (truthy (cell_value r 14)); [now apply keys_unique_set|exact U].
Qed.

Lemma resolve_chats_lookup (keys : list (pyval * pyval)) :
  forall (direct u2c acc : list (pyval * string)) (c : pyval),
    keys_unique keys ->
    assoc_get py_eqb c (Phase2.resolve_chats keys direct u2c acc)
    = match assoc_get py_eqb c keys with
      | Some uid =>
          match assoc_get py_eqb c direct with
          | Some x => Some x
          | None =>
              match assoc_get py_eqb uid u2c with
              | Some y => Some y
              | None => assoc_get py_eqb c acc
              end
          end
      | None => assoc_get py_eqb c acc
      end.
Proof.
  induction keys as [|[k uid] keys IH]; intros direct u2c acc c U; simpl; [reflexivity|].
  destruct U as [N U]. rewrite (IH _ _ _ _ U).
  destruct (py_eqb c k) eqn:E.
  - rewrite (assoc_get_congr c k keys E), N.
    rewrite <- (assoc_get_congr c k direct E).
    destruct (assoc_get py_eqb c direct) as [x|].
    + now rewrite assoc_get_set, E.
    + destruct (assoc_get py_eqb uid u2c) as [y|]; [|reflexivity].
      now rewrite assoc_get_set, E.
  - assert (A : forall acc',
               (acc' = acc \/ exists x, acc' = assoc_set py_eqb k x acc) ->
               assoc_get py_eqb c acc' = assoc_get py_eqb c acc).
    { intros acc' [->|[x ->]]; [reflexivity|]. now rewrite assoc_get_set, E. }
    rewrite (A (match assoc_get py_eqb k direct with
                | Some d => assoc_set py_eqb k d acc
                | None => match assoc_get py_eqb uid u2c with
                          | Some corp => assoc_set py_eqb k corp acc
                          | None => acc
                          end
                end)); [reflexivity|].
    destruct (assoc_get py_eqb k direct); [right; eauto|].
    destruct (assoc_get py_eqb uid u2c); [right; eauto|now left].
Qed.

Lemma strip_non_digits_digits_only (s : string) : digits_only (strip_non_digits s) = true.
Proof.
  induction s as [|c s IH]; simpl; [reflexivity|].
  destruct (is_digit c) eqn:E; [simpl; now rewrite E|exact IH].
Qed.

Lemma digit_values_set (k : pyval) (v : string) (d : list (pyval * string)) :
  digits_only v = true -> digit_values d -> digit_values (assoc_set py_eqb k v d).
Proof.
  intros Hv. unfold digit_values. induction d as [|[k0 v0] d IH]; simpl; intro F.
  - constructor; [exact Hv|constructor].
  - inversion F; subst. destruct (py_eqb k k0); constructor; auto.
Qed.

Lemma digit_values_get (k : pyval) (v : string) (d : list (pyval * string)) :
  digit_values d -> assoc_get py_eqb k d = Some v -> digits_only v = true.
Proof.
  unfold digit_values. induction d as [|[k0 v0] d IH]; simpl; intros F G; [discriminate|].
  inversion F; subst. destruct (py_eqb k k0); [inversion G; subst; assumption|auto].
Qed.

Lemma scan_userdata_digits (py_repr : pyval -> string) (rows : list (list cell)) :
  forall acc, digit_values acc -> digit_values (Phase2.scan_userdata py_repr rows acc).
Proof.
  induction rows as [|r rest IH]; intros acc F; simpl; [exact F|].
  apply IH. destruct (truthy (cell_value r 1) && truthy (cell_value r 6)); [|exact F].
  apply digit_values_set; [apply strip_non_digits_digits_only|exact F].
Qed.

Lemma scan_userchat_digits (rows : list (list cell)) :
  forall a b, digit_values b -> digit_values (snd (Phase2.scan_userchat rows a b)).
Proof.
  induction rows as [|r rest IH]; intros a b F; simpl; [exact F|].
  destruct (negb (truthy (cell_value r 1))); [now apply IH|].
  apply IH. destruct (cell_value r 4); try exact F.
  destruct (truthy (VStr s)); [|exact F].
  apply digit_values_set; [apply strip_non_digits_digits_only|exact F].
Qed.

Lemma resolve_chats_digits (keys : list (pyval * pyval)) :
  forall direct u2c acc,
    digit_values direct -> digit_values u2c -> digit_values acc ->
    digit_values (Phase2.resolve_chats keys direct u2c acc).
Proof.
  induction keys as [|[k uid] keys IH]; intros direct u2c acc D U A; simpl; [exact A|].
  apply IH; try assumption.
  destruct (assoc_get py_eqb k direct) as [x|] eqn:E.
  - apply digit_values_set; [exact (digit_values_get _ _ _ D E)|exact A].
  - destruct (assoc_get py_eqb uid u2c) as [y|] eqn:E'; [|exact A].
    apply digit_values_set; [exact (digit_values_get _ _ _ U E')|exact A].
Qed.

End IdentifierMapper.

(** C7, as the claim states it, fails twice.  A row whose embedded value
    has no digit puts the empty text into the mapping, and the actor
    table, which knows the business number, is not consulted; and a row
    with an embedded business number and no actor reference is not
    mapped. *)
Lemma build_corp_number_map_counterexample :
  Phase2.build_corp_number_map repr_unused
    (Some (mkWorkbook [chat_row (CStr "c1") (CStr "n/a") (CStr "u1")]
                      [user_row (CStr "u1") (CStr "123-45-67890")]))
  = [(VStr "c1", EmptyString)] /\
  Phase2.build_corp_number_map repr_unused
    (Some (mkWorkbook [chat_row (CStr "c2") (CStr "123-45-67890") CNone] []))
  = [].
Proof. split; vm_compute; reflexivity. Qed.

(** C7, amended (identifier mapper).  For every identity that a UserChat
    row carries with an actor reference, the mapping holds: the text
    embedded in column 4 of its row when that is a non-empty string, its
    non-digits stripped (the empty text when it has no digit); otherwise
    the business number that the User data sheet holds for the actor,
    when the actor is there with a non-empty value, the non-digits of its
    text stripped; otherwise nothing.  Of several rows with the same key
    the last one counts.  Every value of the mapping is made of digits
    only. *)
Theorem build_corp_number_map_priority
  (py_repr : pyval -> string) (wb : workbook) (c uid : pyval) :
  last_some (row_actor c) (UserChat wb) = Some uid ->
  assoc_get py_eqb c (Phase2.build_corp_number_map py_repr (Some wb))
  = match last_some (row_direct c) (UserChat wb) with
    | Some direct => Some direct
    | None => last_some (row_actor_corp py_repr uid) (UserData wb)
    end /\
  Forall (fun kv => digits_only (snd kv) = true)
    (Phase2.build_corp_number_map py_repr (Some wb)).
Proof.
  intro A. unfold Phase2.build_corp_number_map.
  destruct (Phase2.scan_userchat (UserChat wb) [] []) as [c2u c2d] eqn:S.
  pose proof (scan_userchat_lookup (UserChat wb) [] [] c) as [L1 L2].
  pose proof (scan_userchat_unique (UserChat wb) [] [] I) as U.
  pose proof (scan_userchat_digits (UserChat wb) [] [] (Forall_nil _)) as D.
  rewrite S in L1, L2, U, D. simpl in L1, L2, U, D.
  split.
  - rewrite (resolve_chats_lookup _ _ _ _ _ U), L1, A, L2.
    destruct (last_some (row_direct c) (UserChat wb)); [reflexivity|].
    rewrite scan_userdata_lookup.
    destruct (last_some (row_actor_corp py_repr uid) (UserData wb)); reflexivity.
  - apply resolve_chats_digits; [exact D| |constructor].
    apply scan_userdata_digits. constructor.
Qed.

(** The mapping of one row that embeds its business number. *)
Lemma build_corp_number_map_priority_witness :
  assoc_get py_eqb (VStr "c1")
    (Phase2.build_corp_number_map repr_unused
       (Some (mkWorkbook [chat_row (CStr "c1") (CStr "123-45-67890") (CStr "u1")]
                         [user_row (CStr "u1") (CInt 99)])))
  = Some "1234567890".
Proof.
  destruct (build_corp_number_map_priority repr_unused
              (mkWorkbook [chat_row (CStr "c1") (CStr "123-45-67890") (CStr "u1")]
                          [user_row (CStr "u1") (CInt 99)])
              (VStr "c1") (VStr "u1")) as [H _].
  - vm_compute. reflexivity.
  - rewrite H. vm_compute. reflexivity.
Defined.

Section IdentitySets.

Variable get_id : pyval -> result pyval.

Lemma py_in_app (x : pyval) (a b : list pyval) :
  py_in x (a ++ b) = py_in x a || py_in x b.
Proof. unfold py_in. apply existsb_app. Qed.

Lemma set_add_mono (v x : pyval) (s s' : list pyval) :
  set_add v s = Ok s' -> py_in x s = true -> py_in x s' = true.
Proof.
  unfold set_add. destruct (hashable v); [|discriminate].
  intros H I. inversion H; subst. destruct (py_in v s); [exact I|].
  rewrite py_in_app, I. reflexivity.
Qed.

Lemma set_add_in (v : pyval) (s s' : list pyval) :
  set_add v s = Ok s' -> py_eqb v v = true -> py_in v s' = true.
Proof.
  unfold set_add. destruct (hashable v); [|discriminate].
  intros H R. inversion H; subst. destruct (py_in v s) eqn:E; [exact E|].
  rewrite py_in_app. simpl. rewrite R. now rewrite orb_true_r.
Qed.

Lemma id_set_mono (records : list pyval) :
  forall acc s x, id_set get_id records acc = Ok s -> py_in x acc = true -> py_in x s = true.
Proof.
  induction records as [|r rest IH]; intros acc s x H I; simpl in H.
  - inversion H; subst. exact I.
  - destruct (get_id r) as [v|]; cbn [bind] in H; [|discriminate].
    destruct (set_add v acc) as [acc'|] eqn:E; cbn [bind] in H; [|discriminate].
    eapply IH; [exact H|]. eapply set_add_mono; eassumption.
Qed.

Lemma id_set_in (records : list pyval) :
  forall acc s r v,
    id_set get_id records acc = Ok s -> In r records -> get_id r = Ok v ->
    py_eqb v v = true -> py_in v s = true.
Proof.
  induction records as [|r0 rest IH]; intros acc s r v H I G R; simpl in H; [destruct I|].
  destruct (get_id r0) as [v0|] eqn:G0; cbn [bind] in H; [|discriminate].
  destruct (set_add v0 acc) as [acc'|] eqn:E; cbn [bind] in H; [|discriminate].
  destruct I as [->|I].
  - rewrite G in G0. inversion G0; subst v0.
    eapply id_set_mono; [exact H|]. eapply set_add_in; eassumption.
  - eapply IH; eassumption.
Qed.

Lemma id_set_app (l1 l2 : list pyval) :
  forall acc,
    id_set get_id (l1 ++ l2) acc = (s <- id_set get_id l1 acc ;; id_set get_id l2 s).
Proof.
  induction l1 as [|r rest IH]; intro acc; simpl; [reflexivity|].
  destruct (get_id r) as [v|]; cbn [bind]; [|reflexivity].
  destruct (set_add v acc) as [acc'|]; cbn [bind]; [|reflexivity].
  apply IH.
Qed.

Lemma id_set_total (records : list pyval) :
  forall acc,
    Forall (fun r => exists v, get_id r = Ok v /\ hashable v = true) records ->
    exists s, id_set get_id records acc = Ok s.
Proof.
  induction records as [|r rest IH]; intros acc F; simpl; [eauto|].
  inversion F as [|? ? (v & G & Hh) F']; subst. rewrite G. cbn [bind].
  unfold set_add. rewrite Hh. cbn [bind]. apply IH. exact F'.
Qed.

End IdentitySets.

Lemma id_set_ext (g1 g2 : pyval -> result pyval) (l1 l2 : list pyval) :
  map g1 l1 = map g2 l2 ->
  forall acc, id_set g1 l1 acc = id_set g2 l2 acc.
Proof.
  revert l2. induction l1 as [|r1 l1 IH]; intros [|r2 l2] E acc; simpl in *;
    try discriminate; [reflexivity|].
  inversion E as [[E1 E2]]. rewrite E1.
  destruct (g2 r2) as [v|]; cbn [bind]; [|reflexivity].
  destruct (set_add v acc); cbn [bind]; [|reflexivity].
  now apply IH.
Qed.

Lemma hashable_cell (c : cell) : hashable (of_cell c) = true.
Proof. destruct c; reflexivity. Qed.

Section DatabasePath.

Lemma convert_record_chat_id (row : Phase3.db_row) (seg_map : list (string * pyval))
  (c : pyval) :
  Phase3.convert_record row seg_map = Ok c ->
  chat_id_or_empty c = Ok (of_cell (Phase3.slack_ts row)).
Proof.
  unfold Phase3.convert_record.
  destruct (Phase3.digits_of_value _) as [corp|]; cbn [bind]; [|discriminate].
  destruct (py_get _ "detailCategory" _); cbn [bind]; [|discriminate].
  destruct (py_get _ "stabilityStatus" _); cbn [bind]; [|discriminate].
  destruct (py_get _ "growthStatus" _); cbn [bind]; [|discriminate].
  destruct (py_get _ "limitTier" _); cbn [bind]; [|discriminate].
  intro H. inversion H; subst. reflexivity.
Qed.

Lemma convert_all_chat_ids (rows : list Phase3.db_row) (seg_map : list (string * pyval)) :
  forall converted,
    Phase3.convert_all rows seg_map = Ok converted ->
    Forall2 (fun r c => chat_id_or_empty c = Ok (of_cell (Phase3.slack_ts r)))
      rows converted.
Proof.
  induction rows as [|r rest IH]; intros converted H; simpl in H.
  - inversion H; subst. constructor.
  - destruct (Phase3.convert_record r seg_map) as [c|] eqn:E; cbn [bind] in H; [|discriminate].
    destruct (Phase3.convert_all rest seg_map) as [t|]; cbn [bind] in H; [|discriminate].
    inversion H; subst. constructor; [eapply convert_record_chat_id; eassumption|].
    now apply IH.
Qed.

Lemma Forall2_In_left {A B : Type} (P : A -> B -> Prop) (l : list A) (l' : list B) (a : A) :
  Forall2 P l l' -> In a l -> exists b, In b l' /\ P a b.
Proof.
  induction 1 as [|x y l l' p F IH]; intro I; [destruct I|].
  destruct I as [->|I]; [exists y; split; [now left|exact p]|].
  destruct (IH I) as (b & Ib & Pb). exists b. split; [now right|exact Pb].
Qed.

Lemma filter_nil_all {A : Type} (f : A -> bool) (l : list A) :
  (forall a, In a l -> f a = false) -> filter f l = [].
Proof.
  induction l as [|a l IH]; intro H; simpl; [reflexivity|].
  rewrite (H a) by now left. apply IH. intros b I. apply H. now right.
Qed.

Lemma phase3_second_run_no_new_rows
  (existing converted : list pyval) (db_records : list Phase3.db_row)
  (ids1 : list pyval) (seg_map : list (string * pyval)) :
  id_set chat_id_or_empty existing [] = Ok ids1 ->
  Phase3.convert_all (Phase3.new_rows_of db_records ids1) seg_map = Ok converted ->
  exists ids2,
    id_set chat_id_or_empty (existing ++ converted) [] = Ok ids2 /\
    Phase3.new_rows_of db_records ids2 = [].
Proof.
  intros H1 HC. pose proof (convert_all_chat_ids _ _ _ HC) as F.
  destruct (id_set_total chat_id_or_empty converted ids1) as [ids2 H2].
  { clear HC. induction F as [|r c rows cs E F IH]; constructor; [|exact IH].
    eexists. split; [exact E|apply hashable_cell]. }
  exists ids2. split; [rewrite id_set_app, H1; exact H2|].
  unfold Phase3.new_rows_of in *. apply filter_nil_all. intros r I.
  apply negb_false_iff.
  destruct (py_in (of_cell (Phase3.slack_ts r)) ids1) eqn:E.
  - eapply id_set_mono; eassumption.
  - assert (I' : In r (filter (fun r => negb (py_in (of_cell (Phase3.slack_ts r)) ids1))
                         db_records))
      by (apply filter_In; split; [exact I|now rewrite E]).
    destruct (Forall2_In_left _ _ _ _ F I') as (c & Ic & Ec).
    eapply id_set_in; [exact H2|exact Ic|exact Ec|apply py_eqb_cell_refl].
Qed.

End DatabasePath.

Section DatabasePathRun.

Variable py_repr : pyval -> string.

Lemma phase3_main_inv (remote : list Z -> bq_outcome) (db_records : list Phase3.db_row)
  (w w1 : world) (accepted : list pyval) :
  Phase3.main py_repr remote (Some db_records) w = (Ok accepted, w1) ->
  db_records <> [] /\
  exists existing content ids1,
    Phase3.load_existing_records w = Ok (VList existing, content) /\
    id_set chat_id_or_empty existing [] = Ok ids1 /\
    ((Phase3.new_rows_of db_records ids1 = [] /\ accepted = existing /\ w1 = w) \/
     (exists seg_map converted,
        Phase3.new_rows_of db_records ids1 <> [] /\
        Phase3.convert_all (Phase3.new_rows_of db_records ids1) seg_map = Ok converted /\
        accepted = existing ++ converted)).
Proof.
  unfold Phase3.main. destruct db_records as [|r0 db']; [discriminate|].
  intro H. split; [discriminate|].
  destruct (Phase3.load_existing_records w) as [[recs content]|]; [|discriminate].
  destruct recs as [| | | | | |existing|]; try discriminate.
  fold chat_id_or_empty in H.
  change (fun r : pyval => py_get r "chatId" (VStr "")) with chat_id_or_empty in H.
  destruct (id_set chat_id_or_empty existing []) as [ids1|] eqn:EI; [|discriminate].
  exists existing, content, ids1. split; [reflexivity|]. split; [exact EI|].
  destruct (Phase3.new_rows_of (r0 :: db') ids1) as [|n ns] eqn:EN.
  - left. inversion H; subst. repeat split.
  - right.
    destruct (Phase3.corp_ids_of (n :: ns) []) as [corp_ids|]; [|discriminate].
    destruct (Phase3.fetch_segments_from_bq py_repr remote corp_ids w) as [[seg_map|] w'];
      [|discriminate].
    destruct (Phase3.convert_all (n :: ns) seg_map) as [converted|] eqn:EC; [|discriminate].
    destruct (Phase3.inject_into_html py_repr (existing ++ converted) w') as [[u|] w2];
      [|discriminate].
    inversion H; subst. exists seg_map, converted.
    split; [discriminate|]. split; [exact EC|reflexivity].
Qed.

Lemma phase3_main_second_run (remote remote' : list Z -> bq_outcome)
  (db_records : list Phase3.db_row) (w w1 w2 : world) (accepted : list pyval) :
  Phase3.main py_repr remote (Some db_records) w = (Ok accepted, w1) ->
  document_holds w2 accepted ->
  Phase3.main py_repr remote' (Some db_records) w2 = (Ok accepted, w2).
Proof.
  intros H (content & block & HI & HS & HJ).
  destruct (phase3_main_inv _ _ _ _ _ H) as (NE & existing & c & ids1 & _ & EI & Hcase).
  assert (A : exists ids2, id_set chat_id_or_empty accepted [] = Ok ids2 /\
                           Phase3.new_rows_of db_records ids2 = []).
  { destruct Hcase as [(EN & -> & _)|(seg_map & converted & _ & EC & ->)].
    - exists ids1. split; assumption.
    - eapply phase3_second_run_no_new_rows; eassumption. }
  destruct A as (ids2 & E2 & N2).
  unfold Phase3.main. destruct db_records as [|r0 db']; [congruence|].
  unfold Phase3.load_existing_records. rewrite HI, HS, HJ. cbn [bind].
  change (fun r : pyval => py_get r "chatId" (VStr "")) with chat_id_or_empty.
  rewrite E2, N2. reflexivity.
Qed.

End DatabasePathRun.

Section SpreadsheetPath.

Lemma keep_fields_dict (fields : list string) (rd : list (string * pyval)) :
  forall acc, exists d,
    Phase2.keep_fields fields (VDict rd) acc = Ok d /\
    forall k, dict_get k d
              = if existsb (String.eqb k) fields
                then Some (match dict_get k rd with Some v => v | None => VNone end)
                else dict_get k acc.
Proof.
  induction fields as [|k0 ks IH]; intro acc; simpl.
  - exists acc. split; reflexivity.
  - destruct (IH (dict_set k0 (match dict_get k0 rd with Some v => v | None => VNone end) acc))
      as (d & E & G).
    exists d. split; [exact E|]. intro k. rewrite G.
    destruct (existsb (String.eqb k) ks); [now rewrite orb_true_r|]. rewrite orb_false_r.
    destruct (String.eqb k k0) eqn:Ek.
    + apply String.eqb_eq in Ek. subst. apply dict_get_set_same.
    + apply dict_get_set_other. intro; subst. now rewrite String.eqb_refl in Ek.
Qed.

Lemma keep_fields_is_dict (k0 : string) (ks : list string) (r : pyval)
  (d : list (string * pyval)) :
  Phase2.keep_fields (k0 :: ks) r [] = Ok d -> exists rd, r = VDict rd.
Proof.
  destruct r; simpl; try discriminate. intros _. eauto.
Qed.

Lemma filter_fields_each (fields : list string) (all_records : list pyval) :
  forall filtered,
    Phase2.filter_fields fields all_records = Ok filtered ->
    Forall2 (fun r f => exists d, f = VDict d /\ Phase2.keep_fields fields r [] = Ok d)
      all_records filtered.
Proof.
  induction all_records as [|r rest IH]; intros filtered H; simpl in H.
  - inversion H; subst. constructor.
  - destruct (Phase2.keep_fields fields r []) as [d|] eqn:E; cbn [bind] in H; [|discriminate].
    destruct (Phase2.filter_fields fields rest) as [t|]; cbn [bind] in H; [|discriminate].
    inversion H; subst. constructor; [eauto|now apply IH].
Qed.

Lemma filter_fields_app (fields : list string) (l1 l2 : list pyval) :
  Phase2.filter_fields fields (l1 ++ l2)
  = (f1 <- Phase2.filter_fields fields l1 ;;
     f2 <- Phase2.filter_fields fields l2 ;;
     Ok (f1 ++ f2)).
Proof.
  induction l1 as [|r rest IH]; simpl.
  - destruct (Phase2.filter_fields fields l2); reflexivity.
  - destruct (Phase2.keep_fields fields r []); cbn [bind]; [|reflexivity].
    rewrite IH. destruct (Phase2.filter_fields fields rest); cbn [bind]; [|reflexivity].
    destruct (Phase2.filter_fields fields l2); reflexivity.
Qed.

Lemma filtered_chat_id (r f : pyval) (v : pyval) :
  (exists d, f = VDict d /\ Phase2.keep_fields Phase2.INDEX_FIELDS r [] = Ok d) ->
  chat_id_of r = Ok v -> chat_id_of f = Ok v.
Proof.
  intros (d & -> & K) C.
  destruct (keep_fields_is_dict _ _ _ _ K) as [rd ->].
  destruct (keep_fields_dict Phase2.INDEX_FIELDS rd []) as (d' & K' & G).
  rewrite K in K'. inversion K'; subst d'.
  unfold chat_id_of in *. simpl in *. rewrite (G "chatId"). simpl.
  destruct (dict_get "chatId" rd); [exact C|discriminate].
Qed.

Lemma id_set_success (get_id : pyval -> result pyval) (records : list pyval) :
  forall acc s, id_set get_id records acc = Ok s ->
                Forall (fun r => exists v, get_id r = Ok v /\ hashable v = true) records.
Proof.
  induction records as [|r rest IH]; intros acc s H; simpl in H; [constructor|].
  destruct (get_id r) as [v|] eqn:G; cbn [bind] in H; [|discriminate].
  unfold set_add in H. destruct (hashable v) eqn:Hh; cbn [bind] in H; [|discriminate].
  constructor; [eauto|]. eapply IH. exact H.
Qed.

Variable py_repr : pyval -> string.

Lemma record_of_row_chat_id (r : list cell) (user_map : list (pyval * pyval))
  (chat_id rec : pyval) :
  Phase1.record_of_row py_repr r user_map chat_id = Ok rec -> chat_id_of rec = Ok chat_id.
Proof.
  unfold Phase1.record_of_row.
  match goal with |- (x <- ?c ;; _) = _ -> _ => destruct c; cbn [bind]; [|discriminate] end.
  destruct (Phase1.to_seconds (cell_value r 67)); cbn [bind]; [|discriminate].
  destruct (Phase1.to_seconds (cell_value r 79)); cbn [bind]; [|discriminate].
  intro H. inversion H; subst. reflexivity.
Qed.

Lemma parse_userchat_new (rows : list (list cell)) (user_map : list (pyval * pyval))
  (ids : list pyval) :
  forall recs skipped_empty skipped_dup,
    Phase1.parse_userchat py_repr rows user_map ids = Ok (recs, skipped_empty, skipped_dup) ->
    forall row, In row rows ->
      truthy (cell_value row 1) = true -> py_in (cell_value row 1) ids = false ->
      exists rec, In rec recs /\ chat_id_of rec = Ok (cell_value row 1).
Proof.
  induction rows as [|r rest IH]; intros recs se sd H row I T N; [destruct I|].
  simpl in H.
  destruct (negb (truthy (cell_value r 1))) eqn:ET.
  - destruct (Phase1.parse_userchat py_repr rest user_map ids) as [[[recs' se'] sd']|];
      cbn [bind] in H; [|discriminate].
    inversion H; subst. destruct I as [->|I]; [rewrite T in ET; discriminate|].
    eapply IH; eauto.
  - destruct (py_in (cell_value r 1) ids) eqn:EP.
    + destruct (Phase1.parse_userchat py_repr rest user_map ids) as [[[recs' se'] sd']|];
        cbn [bind] in H; [|discriminate].
      inversion H; subst. destruct I as [->|I]; [congruence|].
      eapply IH; eauto.
    + destruct (Phase1.record_of_row py_repr r user_map (cell_value r 1)) as [rec|] eqn:ER;
        cbn [bind] in H; [|discriminate].
      destruct (Phase1.parse_userchat py_repr rest user_map ids) as [[[recs' se'] sd']|];
        cbn [bind] in H; [|discriminate].
      inversion H; subst. destruct I as [->|I].
      * exists rec. split; [now left|]. eapply record_of_row_chat_id; eassumption.
      * destruct (IH _ _ _ eq_refl row I T N) as (rec' & I' & C).
        exists rec'. split; [now right|exact C].
Qed.

Lemma parse_userchat_ids (rows : list (list cell)) (user_map : list (pyval * pyval))
  (ids : list pyval) :
  forall recs skipped_empty skipped_dup,
    Phase1.parse_userchat py_repr rows user_map ids = Ok (recs, skipped_empty, skipped_dup) ->
    Forall (fun rec => exists c, chat_id_of rec = Ok (of_cell c)) recs.
Proof.
  induction rows as [|r rest IH]; intros recs se sd H; simpl in H.
  - inversion H; subst. constructor.
  - destruct (negb (truthy (cell_value r 1))).
    + destruct (Phase1.parse_userchat py_repr rest user_map ids) as [[[recs' se'] sd']|];
        cbn [bind] in H; [|discriminate].
      inversion H; subst. eapply IH; eauto.
    + destruct (py_in (cell_value r 1) ids).
      * destruct (Phase1.parse_userchat py_repr rest user_map ids) as [[[recs' se'] sd']|];
          cbn [bind] in H; [|discriminate].
        inversion H; subst. eapply IH; eauto.
      * destruct (Phase1.record_of_row py_repr r user_map (cell_value r 1)) as [rec|] eqn:ER;
          cbn [bind] in H; [|discriminate].
        destruct (Phase1.parse_userchat py_repr rest user_map ids) as [[[recs' se'] sd']|];
          cbn [bind] in H; [|discriminate].
        inversion H; subst. constructor; [|eapply IH; eauto].
        exists (nth 0 r CNone). eapply record_of_row_chat_id; eassumption.
Qed.

Lemma parse_userchat_all_known (rows : list (list cell)) (user_map : list (pyval * pyval))
  (ids : list pyval) :
  (forall row, In row rows -> truthy (cell_value row 1) = true ->
               py_in (cell_value row 1) ids = true) ->
  exists skipped_empty skipped_dup,
    Phase1.parse_userchat py_repr rows user_map ids = Ok ([], skipped_empty, skipped_dup).
Proof.
  induction rows as [|r rest IH]; intro A; simpl; [eauto|].
  destruct IH as (se & sd & IH); [intros; apply A; [now right|assumption]|].
  rewrite IH. cbn [bind].
  destruct (truthy (cell_value r 1)) eqn:T; simpl; [|eauto].
  rewrite (A r (or_introl eq_refl) T). eauto.
Qed.

End SpreadsheetPath.

Section SpreadsheetPathRun.

Variable py_repr : pyval -> string.

Lemma enrich_records_chat_ids (corp_map : list (pyval * string))
  (seg_map : list (string * pyval)) (new_records enriched : list pyval) (matched : nat) :
  Phase2.enrich_records new_records corp_map seg_map = Ok (enriched, matched) ->
  Forall2 (fun rec rec' => chat_id_of rec' = chat_id_of rec) new_records enriched.
Proof.
  intro H. pose proof (enrich_records_other_fields _ _ _ _ _ H) as U.
  clear H. induction U as [|r r' l l' E U IH]; constructor; [|exact IH].
  apply E. unfold ENRICHMENT_FIELDS. simpl.
  intros [A|[A|[A|[A|[]]]]]; discriminate.
Qed.

Lemma spreadsheet_ids_after (existing new_records enriched filtered ids1 : list pyval)
  (corp_map : list (pyval * string)) (seg_map : list (string * pyval)) (matched : nat) :
  id_set chat_id_of existing [] = Ok ids1 ->
  Forall (fun rec => exists c, chat_id_of rec = Ok (of_cell c)) new_records ->
  Phase2.enrich_records new_records corp_map seg_map = Ok (enriched, matched) ->
  Phase2.filter_fields Phase2.INDEX_FIELDS (existing ++ enriched) = Ok filtered ->
  exists ids2,
    id_set chat_id_of filtered [] = Ok ids2 /\
    (forall x, py_in x ids1 = true -> py_in x ids2 = true) /\
    (forall rec c, In rec new_records -> chat_id_of rec = Ok (of_cell c) ->
                   py_in (of_cell c) ids2 = true).
Proof.
  intros H1 N HE HF.
  pose proof (enrich_records_chat_ids _ _ _ _ _ HE) as C.
  assert (NE : Forall (fun r => exists v, chat_id_of r = Ok v /\ hashable v = true) enriched).
  { clear HE HF. induction C as [|r r' l l' E C IH]; constructor.
    - inversion N as [|? ? (c & Hc) N']; subst. exists (of_cell c).
      split; [congruence|apply hashable_cell].
    - inversion N; subst. now apply IH. }
  destruct (id_set_total chat_id_of enriched ids1 NE) as [ids2 H2].
  assert (HA : id_set chat_id_of (existing ++ enriched) [] = Ok ids2)
    by (rewrite id_set_app, H1; exact H2).
  assert (M : map chat_id_of filtered = map chat_id_of (existing ++ enriched)).
  { pose proof (filter_fields_each _ _ _ HF) as FF.
    pose proof (id_set_success _ _ _ _ HA) as S.
    clear - FF S. induction FF as [|r f l l' E FF IH]; [reflexivity|].
    inversion S as [|? ? (v & Hv & _) S']; subst. simpl. f_equal; [|now apply IH].
    rewrite Hv. eapply filtered_chat_id; eassumption. }
  exists ids2. split; [|split].
  - rewrite (id_set_ext chat_id_of chat_id_of _ _ M). exact HA.
  - intros x I. exact (id_set_mono _ _ _ _ _ H2 I).
  - intros rec c I Hc.
    destruct (Forall2_In_left _ _ _ _ C I) as (rec' & I' & E').
    eapply (id_set_in chat_id_of enriched ids1 ids2 rec'); try eassumption.
    + congruence.
    + apply py_eqb_cell_refl.
Qed.

Lemma spreadsheet_second_run (wb : workbook) (existing new_records enriched filtered : list pyval)
  (ids1 : list pyval) (skipped_empty skipped_dup matched : nat)
  (corp_map : list (pyval * string)) (seg_map : list (string * pyval)) (w3 : world) :
  id_set chat_id_of existing [] = Ok ids1 ->
  Phase1.parse_userchat py_repr (UserChat wb) (Phase1.build_user_map (UserData wb) []) ids1
  = Ok (new_records, skipped_empty, skipped_dup) ->
  Phase2.enrich_records new_records corp_map seg_map = Ok (enriched, matched) ->
  Phase2.filter_fields Phase2.INDEX_FIELDS (existing ++ enriched) = Ok filtered ->
  document_holds w3 filtered ->
  Phase1.main py_repr wb w3 = (Ok [], w3).
Proof.
  intros H1 HP HE HF (content & block & HI & HS & HJ).
  destruct (spreadsheet_ids_after _ _ _ _ _ _ _ _ H1 (parse_userchat_ids _ _ _ _ _ _ _ HP) HE HF)
    as (ids2 & H2 & Mono & New).
  destruct (parse_userchat_all_known py_repr (UserChat wb)
              (Phase1.build_user_map (UserData wb) []) ids2) as (se & sd & P2).
  { intros row I T. destruct (py_in (cell_value row 1) ids1) eqn:E; [now apply Mono|].
    destruct (parse_userchat_new _ _ _ _ _ _ _ HP row I T E) as (rec & Ir & Cr).
    exact (New rec _ Ir Cr). }
  unfold Phase1.main, Phase1.load_existing_chat_ids. rewrite HI, HS, HJ. cbn [bind py_iter].
  fold chat_id_of. change (fun r : pyval => py_item r "chatId") with chat_id_of.
  rewrite H2, P2. reflexivity.
Qed.

End SpreadsheetPathRun.

Section Distinct.

Lemma py_in_exists (x : pyval) (l : list pyval) :
  py_in x l = true <-> exists y, In y l /\ py_eqb x y = true.
Proof. unfold py_in. apply existsb_exists. Qed.

Lemma py_in_false (x : pyval) (l : list pyval) :
  py_in x l = false <-> forall y, In y l -> py_eqb x y = false.
Proof.
  split.
  - intros H y I. destruct (py_eqb x y) eqn:E; [|reflexivity].
    assert (py_in x l = true) by (apply py_in_exists; eauto). congruence.
  - intro H. destruct (py_in x l) eqn:E; [|reflexivity].
    apply py_in_exists in E. destruct E as (y & I & E). rewrite (H y I) in E. discriminate.
Qed.

Lemma distinct_ids_app (a b : list pyval) :
  distinct_ids a = true -> distinct_ids b = true ->
  (forall y, In y b -> py_in y a = false) ->
  distinct_ids (a ++ b) = true.
Proof.
  intros Da Db N. induction a as [|x a IH]; simpl in *; [exact Db|].
  apply andb_true_iff in Da. destruct Da as [Nx Da].
  apply andb_true_iff. split.
  - apply negb_true_iff. rewrite py_in_app. apply negb_true_iff in Nx. rewrite Nx. simpl.
    apply py_in_false. intros y I. rewrite py_eqb_sym.
    pose proof (N y I) as F. apply orb_false_iff in F. exact (proj1 F).
  - apply IH; [exact Da|]. intros y I. pose proof (N y I) as F.
    apply orb_false_iff in F. exact (proj2 F).
Qed.




End Distinct.

Section Uniqueness.

Variable py_repr : pyval -> string.



Lemma Forall2_unique_ids (get_id : pyval -> result pyval) (l i1 i2 : list pyval) :
  ids_are get_id l i1 -> ids_are get_id l i2 -> i1 = i2.
Proof.
  intro A. revert i2. induction A as [|r v l i1 G A IH]; intros i2 B; inversion B; subst.
  - reflexivity.
  - f_equal; [congruence|now apply IH].
Qed.




End Uniqueness.

Section MergeFrame.

Lemma keep_index_fields (rd : list (string * pyval)) :
  Phase2.keep_fields Phase2.INDEX_FIELDS (VDict rd) [] = Ok
    (map (fun k => (k, match dict_get k rd with Some v => v | None => VNone end))
       Phase2.INDEX_FIELDS).
Proof. reflexivity. Qed.



End MergeFrame.

Section SpreadsheetMerge.

Variable py_repr : pyval -> string.
Variable remote : list Z -> bq_outcome.


Lemma phase2_fetch_index (ids : list Z) (w : world) :
  index_html (snd (Phase2.fetch_segments_from_bq py_repr remote ids w)) = index_html w.
Proof.
  unfold Phase2.fetch_segments_from_bq. destruct ids as [|i ids]; [reflexivity|].
  destruct (remote (i :: ids)) as [| |rc out]; try reflexivity.
  destruct rc; try reflexivity.
  destruct (json_loads out) as [rows|]; [|reflexivity].
  destruct (items <- py_iter rows ;; seg_map_of_rows py_repr items []); reflexivity.
Qed.


End SpreadsheetMerge.

(** A second run accepts nothing.  On the database path, a run that
    finds in the document the accepted set of a first run over the same
    rows returns that set, starts no remote query and writes no file.
    On the spreadsheet path, the ingestion script that finds in the
    document what a first run wrote (the projection of the old records
    and of the enriched new ones) has no new record, and writes no
    hand-off file. *)
Theorem second_run_accepts_nothing (py_repr : pyval -> string) :
  (forall remote remote' db_records w w1 w2 accepted,
     Phase3.main py_repr remote (Some db_records) w = (Ok accepted, w1) ->
     document_holds w2 accepted ->
     Phase3.main py_repr remote' (Some db_records) w2 = (Ok accepted, w2)) /\
  (forall wb existing new_records enriched filtered ids1
          skipped_empty skipped_dup matched corp_map seg_map w3,
     id_set chat_id_of existing [] = Ok ids1 ->
     Phase1.parse_userchat py_repr (UserChat wb) (Phase1.build_user_map (UserData wb) []) ids1
     = Ok (new_records, skipped_empty, skipped_dup) ->
     Phase2.enrich_records new_records corp_map seg_map = Ok (enriched, matched) ->
     Phase2.filter_fields Phase2.INDEX_FIELDS (existing ++ enriched) = Ok filtered ->
     document_holds w3 filtered ->
     Phase1.main py_repr wb w3 = (Ok [], w3)).
Proof.
  split.
  - intros. eapply phase3_main_second_run; eassumption.
  - intros. eapply spreadsheet_second_run; eassumption.
Qed.

(** The database path run twice on the sample: the second run returns
    the accepted set of the first and changes nothing. *)
Lemma second_run_accepts_nothing_example :
  Phase3.main repr_unused no_bq (Some sample_db)
    (snd (Phase3.main repr_unused no_bq (Some sample_db) sample_start))
  = (fst (Phase3.main repr_unused no_bq (Some sample_db) sample_start),
     snd (Phase3.main repr_unused no_bq (Some sample_db) sample_start)).
Proof. vm_compute. reflexivity. Qed.

(** C1 (idempotence), evaluated where it fails.  On the spreadsheet
    path a first run (phase 1, then phase 2) leaves the accepted set A1,
    B2.  On the second run phase 1 finds no new record and returns
    before it writes the hand-off file, which still holds B2; phase 2
    then appends B2 once more. *)
Theorem spreadsheet_rerun_appends_again :
  accepted_set (snd (spreadsheet_run repr_unused no_bq sample_workbook sample_start))
  = Ok (VList [projected_A1; enriched_B2]) /\
  fst (Phase1.main repr_unused sample_workbook
         (snd (spreadsheet_run repr_unused no_bq sample_workbook sample_start)))
  = Ok [] /\
  new_records_json
    (snd (Phase1.main repr_unused sample_workbook
            (snd (spreadsheet_run repr_unused no_bq sample_workbook sample_start))))
  = new_records_json (snd (spreadsheet_run repr_unused no_bq sample_workbook sample_start)) /\
  accepted_set
    (snd (spreadsheet_run repr_unused no_bq sample_workbook
            (snd (spreadsheet_run repr_unused no_bq sample_workbook sample_start))))
  = Ok (VList [projected_A1; enriched_B2; enriched_B2]).
Proof. repeat split; vm_compute; reflexivity. Qed.



(** Without the assumption on the batch the code keeps both rows of a
    repeated identity: it filters against the index of the run's start
    only. *)
Lemma repeated_identity_in_batch :
  fst (Phase3.main repr_unused no_bq
         (Some [sample_db_row "B2" "2026-02-20"; sample_db_row "B2" "2026-02-20"])
         sample_start)
  = r <- Phase3.convert_record (sample_db_row "B2" "2026-02-20") sample_seg_map ;;
    Ok [plain_A1; r; r].
Proof. vm_compute. reflexivity. Qed.




(** * Further properties of the scripts *)

Section RowAccounting.

Variable py_repr : pyval -> string.

Lemma parse_userchat_counts_aux (rows : list (list cell)) (user_map : list (pyval * pyval))
  (ids : list pyval) :
  forall recs skipped_empty skipped_dup,
    Phase1.parse_userchat py_repr rows user_map ids = Ok (recs, skipped_empty, skipped_dup) ->
    skipped_empty = List.length (filter row_empty rows) /\
    skipped_dup = List.length (filter (row_known ids) rows) /\
    List.length recs = List.length (filter (row_new ids) rows) /\
    (List.length recs + skipped_empty + skipped_dup = List.length rows)%nat.
Proof.
  induction rows as [|r rows IH]; intros recs se sd H; simpl in H.
  - inversion H; subst. repeat split.
  - unfold row_empty, row_known, row_new in *. simpl.
    destruct (truthy (cell_value r 1)); simpl in *.
    + destruct (py_in (cell_value r 1) ids); simpl in *.
      * destruct (Phase1.parse_userchat py_repr rows user_map ids) as [[[recs' se'] sd']|e];
          simpl in H; [|discriminate].
        inversion H; subst. destruct (IH _ _ _ eq_refl) as (-> & -> & L & S).
        repeat split; try assumption; lia.
      * destruct (Phase1.record_of_row py_repr r user_map (cell_value r 1)) as [rec|e];
          simpl in H; [|discriminate].
        destruct (Phase1.parse_userchat py_repr rows user_map ids) as [[[recs' se'] sd']|e];
          simpl in H; [|discriminate].
        inversion H; subst. destruct (IH _ _ _ eq_refl) as (-> & -> & L & S).
        repeat split; simpl; try (f_equal; assumption); lia.
    + destruct (Phase1.parse_userchat py_repr rows user_map ids) as [[[recs' se'] sd']|e];
        simpl in H; [|discriminate].
      inversion H; subst. destruct (IH _ _ _ eq_refl) as (-> & -> & L & S).
      repeat split; try assumption; lia.
Qed.

End RowAccounting.

(** Row accounting of phase 1.  When [parse_userchat] returns, every row
    of the sheet is counted exactly once: as a new record, as an empty row
    or as a duplicate; the empty rows are those without identity, the
    duplicates those whose identity is in the index, and the new records
    are as many as the remaining rows. *)
Theorem parse_userchat_counts (py_repr : pyval -> string)
  (rows : list (list cell)) (user_map : list (pyval * pyval)) (ids : list pyval)
  (recs : list pyval) (skipped_empty skipped_dup : nat) :
  Phase1.parse_userchat py_repr rows user_map ids = Ok (recs, skipped_empty, skipped_dup) ->
  skipped_empty = List.length (filter row_empty rows) /\
  skipped_dup = List.length (filter (row_known ids) rows) /\
  List.length recs = List.length (filter (row_new ids) rows) /\
  (List.length recs + skipped_empty + skipped_dup = List.length rows)%nat.
Proof. apply parse_userchat_counts_aux. Qed.

(** The sample sheet against an index that holds A1: one new record, no
    empty row, one duplicate. *)
Lemma parse_userchat_counts_witness :
  exists recs,
    Phase1.parse_userchat repr_unused (UserChat sample_workbook) [] [VStr "A1"]
    = Ok (recs, 0%nat, 1%nat) /\ List.length recs = 1%nat.
Proof.
  destruct (Phase1.parse_userchat repr_unused (UserChat sample_workbook) [] [VStr "A1"])
    as [[[recs se] sd]|e] eqn:E; [|vm_compute in E; discriminate].
  destruct (parse_userchat_counts _ _ _ _ _ _ _ E) as (Hse & Hsd & Hl & _).
  vm_compute in Hse, Hsd, Hl. subst se sd. exists recs. split; [reflexivity|exact Hl].
Defined.

Section IndexRecords.

Lemma dict_set_keys {V : Type} (k : string) (v : V) (d : list (string * V)) :
  In k (map fst d) -> map fst (dict_set k v d) = map fst d.
Proof.
  unfold dict_set. induction d as [|[k' v'] d IH]; simpl; [intros []|].
  intros [E|I].
  - subst k'. rewrite String.eqb_refl. reflexivity.
  - destruct (String.eqb k k'); simpl; [reflexivity|]. f_equal. exact (IH I).
Qed.

Lemma py_setitem_index_record (r r' : pyval) (k : string) (v : pyval) :
  index_record r -> In k Phase2.INDEX_FIELDS -> py_setitem r k v = Ok r' -> index_record r'.
Proof.
  intros (d & -> & K) I H. simpl in H. injection H as <-.
  exists (dict_set k v d). split; [reflexivity|].
  rewrite dict_set_keys; [exact K|]. rewrite K. exact I.
Qed.

Lemma record_of_row_index_record (py_repr : pyval -> string) (r : list cell) (user_map : list (pyval * pyval))
  (chat_id rec : pyval) :
  Phase1.record_of_row py_repr r user_map chat_id = Ok rec -> index_record rec.
Proof.
  unfold Phase1.record_of_row. intro H.
  match type of H with (bind ?c _ = _) => destruct c as [company|e] end;
    simpl in H; [|discriminate].
  destruct (Phase1.to_seconds (cell_value r 67)) as [fa|e]; simpl in H; [|discriminate].
  destruct (Phase1.to_seconds (cell_value r 79)) as [cs|e]; simpl in H; [|discriminate].
  injection H as <-. eexists. split; reflexivity.
Qed.

Lemma parse_userchat_index_records (py_repr : pyval -> string) (rows : list (list cell))
  (user_map : list (pyval * pyval)) (ids : list pyval) :
  forall recs skipped_empty skipped_dup,
    Phase1.parse_userchat py_repr rows user_map ids = Ok (recs, skipped_empty, skipped_dup) ->
    Forall index_record recs.
Proof.
  induction rows as [|r rows IH]; intros recs se sd H; simpl in H.
  - inversion H; subst. constructor.
  - destruct (negb (truthy (cell_value r 1))).
    + destruct (Phase1.parse_userchat py_repr rows user_map ids) as [[[recs' se'] sd']|e];
        simpl in H; [|discriminate].
      inversion H; subst. exact (IH _ _ _ eq_refl).
    + destruct (py_in (cell_value r 1) ids).
      * destruct (Phase1.parse_userchat py_repr rows user_map ids) as [[[recs' se'] sd']|e];
          simpl in H; [|discriminate].
        inversion H; subst. exact (IH _ _ _ eq_refl).
      * destruct (Phase1.record_of_row py_repr r user_map (cell_value r 1)) as [rec|e] eqn:R;
          simpl in H; [|discriminate].
        destruct (Phase1.parse_userchat py_repr rows user_map ids) as [[[recs' se'] sd']|e];
          simpl in H; [|discriminate].
        inversion H; subst. constructor; [|exact (IH _ _ _ eq_refl)].
        exact (record_of_row_index_record _ _ _ _ _ R).
Qed.

Lemma enrich_records_index_records (corp_map : list (pyval * string))
  (seg_map : list (string * pyval)) (recs : list pyval) :
  forall enriched matched,
    Phase2.enrich_records recs corp_map seg_map = Ok (enriched, matched) ->
    Forall index_record recs -> Forall index_record enriched.
Proof.
  induction recs as [|rec rest IH]; intros enriched matched H F; simpl in H.
  - inversion H; subst. constructor.
  - inversion F as [|? ? Frec Frest]; subst.
    destruct (py_item rec "chatId") as [chat_id|e]; simpl in H; [|discriminate].
    destruct (hashable chat_id); simpl in H; [|discriminate].
    match type of H with (bind ?c _ = _) => destruct c as [[rec' n]|e] eqn:E end;
      simpl in H; [|discriminate].
    destruct (Phase2.enrich_records rest corp_map seg_map) as [[tl m]|e] eqn:T;
      simpl in H; [|discriminate].
    inversion H; subst. constructor; [|exact (IH _ _ eq_refl Frest)].
    destruct (assoc_get py_eqb chat_id corp_map) as [corp_id|];
      [|inversion E; subst; exact Frec].
    destruct (negb (String.eqb corp_id "")); [|inversion E; subst; exact Frec].
    destruct (dict_get corp_id seg_map) as [seg|]; [|inversion E; subst; exact Frec].
    destruct (py_item seg "detailCategory") as [v1|e]; simpl in E; [|discriminate].
    destruct (py_setitem rec "detailCategory" v1) as [r1|e] eqn:S1; simpl in E; [|discriminate].
    destruct (py_item seg "stabilityStatus") as [v2|e]; simpl in E; [|discriminate].
    destruct (py_setitem r1 "stabilityStatus" v2) as [r2|e] eqn:S2; simpl in E; [|discriminate].
    destruct (py_item seg "growthStatus") as [v3|e]; simpl in E; [|discriminate].
    destruct (py_setitem r2 "growthStatus" v3) as [r3|e] eqn:S3; simpl in E; [|discriminate].
    destruct (py_item seg "limitTier") as [v4|e]; simpl in E; [|discriminate].
    destruct (py_setitem r3 "limitTier" v4) as [r4|e] eqn:S4; simpl in E; [|discriminate].
    inversion E; subst.
    assert (I1 : index_record r1)
      by (eapply py_setitem_index_record; [exact Frec| |exact S1]; simpl; tauto).
    assert (I2 : index_record r2)
      by (eapply py_setitem_index_record; [exact I1| |exact S2]; simpl; tauto).
    assert (I3 : index_record r3)
      by (eapply py_setitem_index_record; [exact I2| |exact S3]; simpl; tauto).
    eapply py_setitem_index_record; [exact I3| |exact S4]; simpl; tauto.
Qed.

Lemma keep_fields_index_record (d : list (string * pyval)) :
  map fst d = Phase2.INDEX_FIELDS ->
  Phase2.keep_fields Phase2.INDEX_FIELDS (VDict d) [] = Ok d.
Proof.
  intro K. rewrite keep_index_fields. f_equal. unfold Phase2.INDEX_FIELDS in *.
  do 13 (destruct d as [|[? ?] d]; [discriminate|]).
  destruct d; [|discriminate].
  simpl in K. injection K as -> -> -> -> -> -> -> -> -> -> -> -> ->.
  reflexivity.
Qed.

Lemma filter_fields_index_records (recs : list pyval) :
  Forall index_record recs -> Phase2.filter_fields Phase2.INDEX_FIELDS recs = Ok recs.
Proof.
  induction 1 as [|r recs (d & -> & K) _ IH]; [reflexivity|].
  cbn [Phase2.filter_fields]. rewrite (keep_fields_index_record _ K). cbn [bind].
  rewrite IH. reflexivity.
Qed.

End IndexRecords.

(** Phase 1 hands over index records, and the projection of phase 2 is
    the identity on them.  Every record that [parse_userchat] builds has
    the thirteen index fields as its keys, in their order; enrichment
    keeps that; and the field filter of [inject_into_html], taken with the
    index fields, returns such records as they are. *)
Theorem phase1_records_survive_projection (py_repr : pyval -> string)
  (rows : list (list cell)) (user_map : list (pyval * pyval)) (ids : list pyval)
  (recs enriched : list pyval) (skipped_empty skipped_dup matched : nat)
  (corp_map : list (pyval * string)) (seg_map : list (string * pyval)) :
  Phase1.parse_userchat py_repr rows user_map ids = Ok (recs, skipped_empty, skipped_dup) ->
  Phase2.enrich_records recs corp_map seg_map = Ok (enriched, matched) ->
  Forall index_record recs /\
  Forall index_record enriched /\
  Phase2.filter_fields Phase2.INDEX_FIELDS enriched = Ok enriched.
Proof.
  intros P E.
  assert (F : Forall index_record recs) by exact (parse_userchat_index_records _ _ _ _ _ _ _ P).
  assert (G : Forall index_record enriched)
    by exact (enrich_records_index_records _ _ _ _ _ E F).
  repeat split; try assumption. now apply filter_fields_index_records.
Qed.

(** The new record of the sample sheet, enriched with the sample
    profile, passes the field filter unchanged. *)
Lemma phase1_records_survive_projection_witness :
  Phase2.filter_fields Phase2.INDEX_FIELDS [enriched_B2] = Ok [enriched_B2].
Proof.
  refine (proj2 (proj2 (phase1_records_survive_projection repr_unused
            (UserChat sample_workbook) [] [VStr "A1"] [fresh_record "B2"] [enriched_B2]
            0%nat 1%nat 1%nat sample_corp_map sample_seg_map _ _)));
    vm_compute; reflexivity.
Defined.

Section Profiles.

Variable py_repr : pyval -> string.

Lemma to_limit_tier_label (g : pyval) (t : string) :
  to_limit_tier g = Ok t -> In t TIER_LABELS.
Proof.
  unfold to_limit_tier, TIER_LABELS. intro H.
  destruct g; try (injection H as <-; simpl; tauto);
    (destruct (py_float _) as [v|[]]; try discriminate;
     [repeat (match type of H with (if ?c then _ else _) = _ => destruct c end);
      injection H as <-; simpl; tauto
     |injection H as <-; simpl; tauto ..]).
Qed.

Lemma py_or_unmatched_truthy (a : pyval) : truthy (py_or a (VStr UNMATCHED)) = true.
Proof. unfold py_or. destruct (truthy a) eqn:T; [exact T|reflexivity]. Qed.

Lemma dict_set_Forall {V : Type} (P : V -> Prop) (k : string) (v : V) (d : list (string * V)) :
  P v -> Forall (fun kv => P (snd kv)) d -> Forall (fun kv => P (snd kv)) (dict_set k v d).
Proof.
  intros Pv. unfold dict_set. induction 1 as [|[k' v'] d Pk F IH]; simpl.
  - constructor; [exact Pv|constructor].
  - destruct (String.eqb k k'); constructor; try assumption.
Qed.

Lemma seg_map_of_rows_profiles (rows : list pyval) :
  forall acc seg_map,
    Forall (fun kv => profile_ok (snd kv)) acc ->
    seg_map_of_rows py_repr rows acc = Ok seg_map ->
    Forall (fun kv => profile_ok (snd kv)) seg_map.
Proof.
  induction rows as [|row rows IH]; intros acc seg_map F H; simpl in H.
  - injection H as <-. exact F.
  - destruct (py_get row "corp_id" (VStr "")) as [c|e]; simpl in H; [|discriminate].
    destruct (py_get row "detail_category" VNone) as [dc|e]; simpl in H; [|discriminate].
    destruct (py_get row "stability_status" VNone) as [ss|e]; simpl in H; [|discriminate].
    destruct (py_get row "growth_status" VNone) as [gs|e]; simpl in H; [|discriminate].
    destruct (py_get row "grant_limit" VNone) as [gl|e]; simpl in H; [|discriminate].
    destruct (to_limit_tier gl) as [tier|e] eqn:T; simpl in H; [|discriminate].
    refine (IH _ _ _ H). apply dict_set_Forall; [|exact F].
    exists (py_or dc (VStr UNMATCHED)), (py_or ss (VStr UNMATCHED)),
      (py_or gs (VStr UNMATCHED)), tier.
    repeat split; try apply py_or_unmatched_truthy. exact (to_limit_tier_label _ _ T).
Qed.

Lemma load_segment_cache_profiles (w : world) (seg_map : list (string * pyval)) :
  load_segment_cache py_repr w = Ok seg_map ->
  Forall (fun kv => profile_ok (snd kv)) seg_map.
Proof.
  unfold load_segment_cache. destruct (segment_cache w) as [text|].
  - destruct (json_loads text) as [rows|e]; simpl; [|discriminate].
    destruct (py_iter rows) as [items|e]; simpl; [|discriminate].
    apply seg_map_of_rows_profiles. constructor.
  - intro H. injection H as <-. constructor.
Qed.

Lemma phase2_fetch_profiles (remote : list Z -> bq_outcome) (ids : list Z) (w : world)
  (seg_map : list (string * pyval)) :
  fst (Phase2.fetch_segments_from_bq py_repr remote ids w) = Ok seg_map ->
  Forall (fun kv => profile_ok (snd kv)) seg_map.
Proof.
  unfold Phase2.fetch_segments_from_bq. destruct ids as [|i ids].
  - simpl. intro H. injection H as <-. constructor.
  - destruct (remote (i :: ids)) as [| |rc out]; simpl;
      try apply load_segment_cache_profiles.
    destruct rc; simpl; try apply load_segment_cache_profiles.
    destruct (json_loads out) as [rows|e]; simpl; [|apply load_segment_cache_profiles].
    destruct (py_iter rows) as [items|e]; simpl; [|discriminate].
    destruct (seg_map_of_rows py_repr items []) as [m|e] eqn:S; simpl; [|discriminate].
    intro H. injection H as <-. exact (seg_map_of_rows_profiles _ _ _ (Forall_nil _) S).
Qed.

Lemma phase3_fetch_profiles (remote : list Z -> bq_outcome) (ids : list Z) (w : world)
  (seg_map : list (string * pyval)) :
  fst (Phase3.fetch_segments_from_bq py_repr remote ids w) = Ok seg_map ->
  Forall (fun kv => profile_ok (snd kv)) seg_map.
Proof.
  unfold Phase3.fetch_segments_from_bq. destruct ids as [|i ids].
  - simpl. apply load_segment_cache_profiles.
  - destruct (remote (i :: ids)) as [| |rc out]; simpl;
      try apply load_segment_cache_profiles.
    destruct rc; simpl; try apply load_segment_cache_profiles.
    destruct (json_loads out) as [rows|e]; simpl; [|apply load_segment_cache_profiles].
    destruct (py_iter rows) as [items|e]; simpl; [|discriminate].
    destruct (seg_map_of_rows py_repr items []) as [m|e] eqn:S; simpl; [|discriminate].
    intro H. injection H as <-. exact (seg_map_of_rows_profiles _ _ _ (Forall_nil _) S).
Qed.

End Profiles.

Lemma profile_ok_fields (seg : pyval) :
  profile_ok seg -> forall k, In k ENRICHMENT_FIELDS -> exists v, py_item seg k = Ok v.
Proof.
  intros (dc & ss & gs & lt & -> & _) k I. simpl in I.
  destruct I as [<-|[<-|[<-|[<-|[]]]]]; eexists; reflexivity.
Qed.

(** The profiles of a resolver are well formed.  Whatever the cache
    loader or a resolver of either path returns, each of its profiles
    holds exactly the four enrichment fields; the category and the two
    statuses are never empty (an empty or missing value has become the
    unmatched label) and the tier is one of the six tier labels. *)
Theorem resolver_profiles_well_formed (py_repr : pyval -> string)
  (remote : list Z -> bq_outcome) (ids : list Z) (w : world) :
  (forall seg_map, load_segment_cache py_repr w = Ok seg_map ->
                   Forall (fun kv => profile_ok (snd kv)) seg_map) /\
  (forall seg_map, fst (Phase2.fetch_segments_from_bq py_repr remote ids w) = Ok seg_map ->
                   Forall (fun kv => profile_ok (snd kv)) seg_map) /\
  (forall seg_map, fst (Phase3.fetch_segments_from_bq py_repr remote ids w) = Ok seg_map ->
                   Forall (fun kv => profile_ok (snd kv)) seg_map).
Proof.
  split; [|split]; intros seg_map H.
  - exact (load_segment_cache_profiles _ _ _ H).
  - exact (phase2_fetch_profiles _ _ _ _ _ H).
  - exact (phase3_fetch_profiles _ _ _ _ _ H).
Qed.

(** The profile of the sample cache is well formed. *)
Lemma resolver_profiles_well_formed_witness :
  Forall (fun kv => profile_ok (snd kv)) sample_seg_map.
Proof.
  refine (proj1 (resolver_profiles_well_formed repr_unused no_bq [] sample_world) _ _).
  vm_compute. reflexivity.
Defined.

(** Enrichment cannot fail on what the pipeline feeds it.  On the
    records that [parse_userchat] builds and with the profiles that the
    resolver of phase 2 returns, whatever the identifier mapping is,
    [enrich_records] returns: no record lacks its identity and no profile
    lacks a field. *)
Theorem enrich_records_never_fails (py_repr : pyval -> string)
  (remote : list Z -> bq_outcome) (ids : list Z) (w : world)
  (rows : list (list cell)) (user_map : list (pyval * pyval)) (existing_ids : list pyval)
  (recs : list pyval) (skipped_empty skipped_dup : nat)
  (corp_map : list (pyval * string)) (seg_map : list (string * pyval)) :
  Phase1.parse_userchat py_repr rows user_map existing_ids
  = Ok (recs, skipped_empty, skipped_dup) ->
  fst (Phase2.fetch_segments_from_bq py_repr remote ids w) = Ok seg_map ->
  exists enriched matched,
    Phase2.enrich_records recs corp_map seg_map = Ok (enriched, matched).
Proof.
  intros P F. apply enrich_records_total.
  - pose proof (parse_userchat_ids _ _ _ _ _ _ _ P) as I.
    eapply Forall_impl; [|exact I]. intros r (c & E).
    exists (of_cell c). split; [exact E|apply hashable_cell].
  - pose proof (phase2_fetch_profiles _ _ _ _ _ F) as G.
    eapply Forall_impl; [|exact G]. intros kv K. now apply profile_ok_fields.
Qed.

(** The new record of the sample sheet with the profiles of the sample
    cache, which the resolver returns when the remote query times out. *)
Lemma enrich_records_never_fails_witness :
  exists enriched matched,
    Phase2.enrich_records [fresh_record "B2"] sample_corp_map sample_seg_map
    = Ok (enriched, matched).
Proof.
  refine (enrich_records_never_fails repr_unused no_bq [123] sample_world
            (UserChat sample_workbook) [] [VStr "A1"] [fresh_record "B2"]
            0%nat 1%nat sample_corp_map sample_seg_map _ _);
    vm_compute; reflexivity.
Defined.

Section Frames.

Variable py_repr : pyval -> string.
Variable remote : list Z -> bq_outcome.

Lemma phase2_fetch_world (ids : list Z) (w : world) :
  let w' := snd (Phase2.fetch_segments_from_bq py_repr remote ids w) in
  (ids = [] /\ w' = w) \/
  (ids <> [] /\
   (w' = count_bq_attempt w \/ exists c, w' = set_segment_cache c (count_bq_attempt w))).
Proof.
  unfold Phase2.fetch_segments_from_bq. destruct ids as [|i ids]; [left; split; reflexivity|].
  right. split; [discriminate|].
  destruct (remote (i :: ids)) as [| |rc out]; simpl; try (left; reflexivity).
  destruct rc; simpl; try (left; reflexivity).
  destruct (json_loads out) as [rows|e]; simpl; [|left; reflexivity].
  destruct (py_iter rows) as [items|e]; simpl; [|left; reflexivity].
  destruct (seg_map_of_rows py_repr items []); simpl; [|left; reflexivity].
  right. eexists. reflexivity.
Qed.

Lemma phase3_fetch_world (ids : list Z) (w : world) :
  let w' := snd (Phase3.fetch_segments_from_bq py_repr remote ids w) in
  (ids = [] /\ w' = w) \/
  (ids <> [] /\
   (w' = count_bq_attempt w \/ exists c, w' = set_segment_cache c (count_bq_attempt w))).
Proof.
  unfold Phase3.fetch_segments_from_bq. destruct ids as [|i ids]; [left; split; reflexivity|].
  right. split; [discriminate|].
  destruct (remote (i :: ids)) as [| |rc out]; simpl; try (left; reflexivity).
  destruct rc; simpl; try (left; reflexivity).
  destruct (json_loads out) as [rows|e]; simpl; [|left; reflexivity].
  destruct (py_iter rows) as [items|e]; simpl; [|left; reflexivity].
  destruct (seg_map_of_rows py_repr items []); simpl; [|left; reflexivity].
  right. eexists. reflexivity.
Qed.

Lemma phase2_inject_world (all_records : list pyval) (fields : list string) (w : world) :
  let r := Phase2.inject_into_html py_repr all_records fields w in
  (snd r = w /\ exists e, fst r = Raise e) \/
  (fst r = Ok tt /\ exists c0 c, index_html w = Some c0 /\ snd r = set_index_html c w).
Proof.
  unfold Phase2.inject_into_html. destruct (index_html w) as [content|];
    [|left; split; [reflexivity|eexists; reflexivity]].
  destruct (Phase2.filter_fields fields all_records) as [filtered|e];
    [|left; split; [reflexivity|eexists; reflexivity]].
  destruct (serializable (VList filtered));
    [|left; split; [reflexivity|eexists; reflexivity]].
  destruct (sub_all_records _ content) as [c|e];
    [|left; split; [reflexivity|eexists; reflexivity]].
  right. split; [reflexivity|]. exists content, c. split; reflexivity.
Qed.

Lemma phase3_inject_world (all_records : list pyval) (w : world) :
  let r := Phase3.inject_into_html py_repr all_records w in
  (snd r = w /\ exists e, fst r = Raise e) \/
  (fst r = Ok tt /\ exists c0 c, index_html w = Some c0 /\ snd r = set_index_html c w).
Proof.
  unfold Phase3.inject_into_html. destruct (index_html w) as [content|];
    [|left; split; [reflexivity|eexists; reflexivity]].
  destruct (serializable (VList all_records));
    [|left; split; [reflexivity|eexists; reflexivity]].
  match goal with |- context [match ?x with Ok _ => _ | Raise _ => _ end] =>
    destruct x as [c|e] end;
    [|left; split; [reflexivity|eexists; reflexivity]].
  right. split; [reflexivity|]. exists content, c. split; reflexivity.
Qed.

Lemma update_last_date_world (all_index : list pyval) (w : world) :
  let r := Phase2.update_last_date all_index w in
  snd r = w \/
  (fst r = Ok tt /\ exists c0 c, index_html w = Some c0 /\ snd r = set_index_html c w).
Proof.
  unfold Phase2.update_last_date.
  destruct (dates_of all_index) as [[|d ds]|e]; try (left; reflexivity).
  destruct (max_date_of (d :: ds)) as [ymd|e]; [|left; reflexivity].
  destruct (index_html w) as [content|]; [|left; reflexivity].
  right. split; [reflexivity|]. eexists _, _. split; reflexivity.
Qed.

Lemma phase2_main_world (wb : option workbook) (w : world) :
  let r := Phase2.main py_repr remote wb w in
  new_records_json (snd r) = new_records_json w /\
  (index_html (snd r) = None <-> index_html w = None) /\
  ((bq_attempts (snd r) = bq_attempts w /\ segment_cache (snd r) = segment_cache w) \/
   bq_attempts (snd r) = S (bq_attempts w)) /\
  (fst r = Ok ([], O) -> snd r = w).
Proof.
  unfold Phase2.main.
  destruct (Phase2.load_new_records w) as [nr|e]; [|simpl; repeat split; auto].
  destruct nr as [| | | |s| |l|d]; try (simpl; repeat split; auto; fail).
  - destruct s; simpl; repeat split; auto; discriminate.
  - destruct l as [|rec l]; [simpl; repeat split; auto|].
    destruct (Phase2.chat_ids_of (rec :: l)) as [chat_ids|e];
      [|simpl; repeat split; auto; discriminate].
    match goal with |- context [Phase2.fetch_segments_from_bq py_repr remote ?i w] =>
      pose proof (phase2_fetch_world i w) as F;
      destruct (Phase2.fetch_segments_from_bq py_repr remote i w) as [seg w1] end.
    simpl in F.
    assert (W1 : new_records_json w1 = new_records_json w /\
                 index_html w1 = index_html w /\
                 ((bq_attempts w1 = bq_attempts w /\ segment_cache w1 = segment_cache w) \/
                  bq_attempts w1 = S (bq_attempts w))).
    { destruct F as [[_ ->]|[_ [->|[c ->]]]]; simpl; repeat split; auto. }
    clear F. destruct W1 as (N1 & I1 & B1).
    destruct seg as [seg_map|e];
      [|simpl; rewrite N1, I1; repeat split; auto; discriminate].
    destruct (Phase2.enrich_records (rec :: l) _ seg_map) as [[enriched matched]|e] eqn:EN;
      [|simpl; rewrite N1, I1; repeat split; auto; discriminate].
    assert (NE : enriched <> []).
    { simpl in EN.
      destruct (py_item rec "chatId"); simpl in EN; [|discriminate].
      destruct (hashable a); simpl in EN; [|discriminate].
      match type of EN with (bind ?c _ = _) => destruct c end; simpl in EN; [|discriminate].
      destruct (Phase2.enrich_records l _ seg_map) as [[? ?]|]; simpl in EN; [|discriminate].
      injection EN as <- _. discriminate. }
    destruct (Phase2.load_existing_records w1) as [[ex content]|e];
      [|simpl; rewrite N1, I1; repeat split; auto; discriminate].
    destruct ex as [| | | | | |existing|];
      try (simpl; rewrite N1, I1; repeat split; auto; discriminate).
    pose proof (phase2_inject_world (existing ++ enriched) Phase2.INDEX_FIELDS w1) as J.
    destruct (Phase2.inject_into_html py_repr (existing ++ enriched) Phase2.INDEX_FIELDS w1)
      as [[[]|e] w2]; simpl in J.
    + destruct J as [[_ [e E]]|[_ (c0 & c & I & ->)]]; [discriminate|].
      pose proof (update_last_date_world (existing ++ enriched) (set_index_html c w1)) as U.
      destruct (Phase2.update_last_date (existing ++ enriched) (set_index_html c w1))
        as [[[]|e] w3]; simpl in U.
      * assert (W3 : w3 = set_index_html c w1 \/ exists c', w3 = set_index_html c' w1).
        { destruct U as [->|[_ (c1 & c2 & _ & ->)]]; [left; reflexivity|].
          right. eexists. reflexivity. }
        simpl. split; [|split; [|split]].
        -- destruct W3 as [->|[c' ->]]; simpl; exact N1.
        -- destruct W3 as [->|[c' ->]]; simpl; rewrite <- I1, I; split; discriminate.
        -- destruct W3 as [->|[c' ->]]; simpl; exact B1.
        -- intro H. injection H as H _. apply app_eq_nil in H. destruct H as [_ H].
           contradiction.
      * assert (W3 : w3 = set_index_html c w1 \/ exists c', w3 = set_index_html c' w1).
        { destruct U as [->|[_ (c1 & c2 & _ & ->)]]; [left; reflexivity|].
          right. eexists. reflexivity. }
        simpl. split; [|split; [|split]].
        -- destruct W3 as [->|[c' ->]]; simpl; exact N1.
        -- destruct W3 as [->|[c' ->]]; simpl; rewrite <- I1, I; split; discriminate.
        -- destruct W3 as [->|[c' ->]]; simpl; exact B1.
        -- discriminate.
    + destruct J as [[-> _]|[E _]]; [|discriminate].
      simpl. rewrite N1, I1. repeat split; auto; discriminate.
  - destruct d; simpl; repeat split; auto; discriminate.
Qed.

Lemma phase3_main_world (db : option (list Phase3.db_row)) (w : world) :
  let r := Phase3.main py_repr remote db w in
  new_records_json (snd r) = new_records_json w /\
  (index_html (snd r) = None <-> index_html w = None) /\
  ((bq_attempts (snd r) = bq_attempts w /\ segment_cache (snd r) = segment_cache w) \/
   bq_attempts (snd r) = S (bq_attempts w)) /\
  (forall e, fst r = Raise e -> index_html (snd r) = index_html w).
Proof.
  unfold Phase3.main.
  destruct db as [[|row db]|]; try (simpl; repeat split; auto; fail).
  destruct (Phase3.load_existing_records w) as [[ex content]|e];
    [|simpl; repeat split; auto].
  destruct ex as [| | | | | |existing|]; try (simpl; repeat split; auto; fail).
  destruct (id_set _ existing []) as [existing_ids|e]; [|simpl; repeat split; auto].
  destruct (Phase3.new_rows_of (row :: db) existing_ids) as [|nr new_rows];
    [simpl; repeat split; auto|].
  destruct (Phase3.corp_ids_of (nr :: new_rows) []) as [corp_ids|e];
    [|simpl; repeat split; auto].
  pose proof (phase3_fetch_world corp_ids w) as F.
  destruct (Phase3.fetch_segments_from_bq py_repr remote corp_ids w) as [seg w1].
  simpl in F.
  assert (W1 : new_records_json w1 = new_records_json w /\
               index_html w1 = index_html w /\
               ((bq_attempts w1 = bq_attempts w /\ segment_cache w1 = segment_cache w) \/
                bq_attempts w1 = S (bq_attempts w))).
  { destruct F as [[_ ->]|[_ [->|[c ->]]]]; simpl; repeat split; auto. }
  clear F. destruct W1 as (N1 & I1 & B1).
  destruct seg as [seg_map|e]; [|simpl; rewrite N1, I1; repeat split; auto].
  destruct (Phase3.convert_all (nr :: new_rows) seg_map) as [converted|e];
    [|simpl; rewrite N1, I1; repeat split; auto].
  pose proof (phase3_inject_world (existing ++ converted) w1) as J.
  destruct (Phase3.inject_into_html py_repr (existing ++ converted) w1)
    as [[[]|e] w2]; simpl in J.
  - destruct J as [[_ [e E]]|[_ (c0 & c & I & ->)]]; [discriminate|].
    simpl. split; [exact N1|]. split; [rewrite <- I1, I; split; discriminate|].
    split; [exact B1|]. discriminate.
  - destruct J as [[-> _]|[E _]]; [|discriminate].
    simpl. rewrite N1, I1. repeat split; auto.
Qed.


End Frames.


(** The scripts of phases 2 and 3 never write the hand-off file, and no
    script creates or removes the destination document: after a run of
    phase 2 or of phase 3, failed or not, the hand-off file is what it
    was, and the document exists exactly if it existed before. *)
Theorem handoff_and_document_frame (py_repr : pyval -> string)
  (remote : list Z -> bq_outcome) (w : world) :
  (forall wb,
     new_records_json (snd (Phase2.main py_repr remote wb w)) = new_records_json w /\
     (index_html (snd (Phase2.main py_repr remote wb w)) = None <-> index_html w = None)) /\
  (forall db,
     new_records_json (snd (Phase3.main py_repr remote db w)) = new_records_json w /\
     (index_html (snd (Phase3.main py_repr remote db w)) = None <-> index_html w = None)).
Proof.
  split.
  - intro wb. destruct (phase2_main_world py_repr remote wb w) as (A & B & _).
    split; assumption.
  - intro db. destruct (phase3_main_world py_repr remote db w) as (A & B & _).
    split; assumption.
Qed.

(** A run queries the remote tool at most once, and only a run that
    queried it can have rewritten the segment cache: after the script of
    phase 2 or of phase 3, either no query was started and the cache is
    what it was, or exactly one query was started. *)
Theorem remote_queried_at_most_once (py_repr : pyval -> string)
  (remote : list Z -> bq_outcome) (w : world) :
  (forall wb,
     (bq_attempts (snd (Phase2.main py_repr remote wb w)) = bq_attempts w /\
      segment_cache (snd (Phase2.main py_repr remote wb w)) = segment_cache w) \/
     bq_attempts (snd (Phase2.main py_repr remote wb w)) = S (bq_attempts w)) /\
  (forall db,
     (bq_attempts (snd (Phase3.main py_repr remote db w)) = bq_attempts w /\
      segment_cache (snd (Phase3.main py_repr remote db w)) = segment_cache w) \/
     bq_attempts (snd (Phase3.main py_repr remote db w)) = S (bq_attempts w)).
Proof.
  split.
  - intro wb. destruct (phase2_main_world py_repr remote wb w) as (_ & _ & C & _). exact C.
  - intro db. destruct (phase3_main_world py_repr remote db w) as (_ & _ & C & _). exact C.
Qed.


Section MissingDocument.

Variable py_repr : pyval -> string.
Variable remote : list Z -> bq_outcome.

Lemma phase3_main_no_document (row : Phase3.db_row) (db : list Phase3.db_row) (w : world) :
  index_html w = None ->
  exists e, fst (Phase3.main py_repr remote (Some (row :: db)) w) = Raise e.
Proof.
  intro N. unfold Phase3.main, Phase3.load_existing_records. rewrite N.
  cbn [id_set]. rewrite new_rows_of_no_index.
  destruct (Phase3.corp_ids_of (row :: db) []) as [corp_ids|e]; [|eexists; reflexivity].
  pose proof (phase3_fetch_world py_repr remote corp_ids w) as F.
  destruct (Phase3.fetch_segments_from_bq py_repr remote corp_ids w) as [seg w1].
  simpl in F.
  assert (I1 : index_html w1 = None)
    by (destruct F as [[_ ->]|[_ [->|[c ->]]]]; simpl; exact N).
  destruct seg as [seg_map|e]; [|eexists; reflexivity].
  destruct (Phase3.convert_all (row :: db) seg_map) as [converted|e];
    [|eexists; reflexivity].
  unfold Phase3.inject_into_html. rewrite I1. eexists. reflexivity.
Qed.

Lemma phase2_main_no_document (wb : option workbook) (rec : pyval) (l : list pyval)
  (w : world) :
  index_html w = None ->
  Phase2.load_new_records w = Ok (VList (rec :: l)) ->
  exists e, fst (Phase2.main py_repr remote wb w) = Raise e.
Proof.
  intros N L. unfold Phase2.main. rewrite L.
  destruct (Phase2.chat_ids_of (rec :: l)) as [chat_ids|e]; [|eexists; reflexivity].
  match goal with |- context [Phase2.fetch_segments_from_bq py_repr remote ?i w] =>
    pose proof (phase2_fetch_world py_repr remote i w) as F;
    destruct (Phase2.fetch_segments_from_bq py_repr remote i w) as [seg w1] end.
  simpl in F.
  assert (I1 : index_html w1 = None)
    by (destruct F as [[_ ->]|[_ [->|[c ->]]]]; simpl; exact N).
  destruct seg as [seg_map|e]; [|eexists; reflexivity].
  destruct (Phase2.enrich_records (rec :: l) _ seg_map) as [[enriched matched]|e];
    [|eexists; reflexivity].
  unfold Phase2.load_existing_records. rewrite I1. eexists. reflexivity.
Qed.

End MissingDocument.

(** Without destination document a run with something to add fails.
    The identity index of an absent document is empty, so every row is
    new; the script of phase 3 on a database with a row, and the script
    of phase 2 on a hand-off file with a record, then stop with an
    exception, and the document is still absent. *)
Theorem missing_document_stops_the_run (py_repr : pyval -> string)
  (remote : list Z -> bq_outcome) (w : world) :
  index_html w = None ->
  (forall row db,
     (exists e, fst (Phase3.main py_repr remote (Some (row :: db)) w) = Raise e) /\
     index_html (snd (Phase3.main py_repr remote (Some (row :: db)) w)) = None) /\
  (forall wb rec l,
     Phase2.load_new_records w = Ok (VList (rec :: l)) ->
     (exists e, fst (Phase2.main py_repr remote wb w) = Raise e) /\
     index_html (snd (Phase2.main py_repr remote wb w)) = None).
Proof.
  intro N. split.
  - intros row db. split; [now apply phase3_main_no_document|].
    destruct (phase3_main_world py_repr remote (Some (row :: db)) w) as (_ & B & _).
    now apply B.
  - intros wb rec l L. split; [now apply (phase2_main_no_document _ _ _ rec l)|].
    destruct (phase2_main_world py_repr remote wb w) as (_ & B & _). now apply B.
Qed.

(** Both scripts on a world without document: the sample database, and
    a hand-off file of one record. *)
Lemma missing_document_stops_the_run_witness :
  (exists e, fst (Phase3.main repr_unused no_bq (Some sample_db) no_document_world) = Raise e) /\
  (exists e, fst (Phase2.main repr_unused no_bq None no_document_world) = Raise e).
Proof.
  destruct (missing_document_stops_the_run repr_unused no_bq no_document_world eq_refl)
    as [H3 H2].
  split.
  - exact (proj1 (H3 (sample_db_row "A1" "2026-01-01") [sample_db_row "B2" "2026-02-20"])).
  - refine (proj1 (H2 None (VDict [("chatId", VStr "B2"); ("date", VStr "2026-02-20")]) [] _)).
    vm_compute. reflexivity.
Defined.

Section IndexAgreement.

Lemma id_set_weaken (g1 g2 : pyval -> result pyval) (records : list pyval) :
  (forall r v, g1 r = Ok v -> g2 r = Ok v) ->
  forall acc s, id_set g1 records acc = Ok s -> id_set g2 records acc = Ok s.
Proof.
  intro G. induction records as [|r rest IH]; intros acc s H; simpl in *; [exact H|].
  destruct (g1 r) as [v|e] eqn:E; simpl in H; [|discriminate].
  rewrite (G _ _ E). simpl.
  destruct (set_add v acc) as [acc'|e]; simpl in *; [|discriminate].
  exact (IH _ _ H).
Qed.

Lemma chat_id_of_or_empty (r v : pyval) :
  chat_id_of r = Ok v -> chat_id_or_empty r = Ok v.
Proof.
  unfold chat_id_of, chat_id_or_empty, py_item, py_get.
  destruct r; try discriminate. destruct (dict_get "chatId" d); [|discriminate].
  intro H. exact H.
Qed.

Lemma scan_value_bracket (fuel : nat) (t : string) (v : pyval) (r : string) :
  scan_value fuel (String "[" t) = Some (v, r) -> exists l, v = VList l.
Proof.
  destruct fuel; [discriminate|]. cbn -[skip_ws String.length].
  destruct (skip_ws t) as [|c t'].
  - match goal with |- context [match ?x with Some _ => _ | None => _ end] =>
      destruct x as [[vs r']|] end;
      intro H; inversion H; eauto.
  - destruct c as [[] [] [] [] [] [] [] []];
      match goal with
      | |- Some _ = Some _ -> _ => intro H; inversion H; eauto
      | |- context [match ?x with Some _ => _ | None => _ end] =>
          destruct x as [[vs r']|]; intro H; inversion H; eauto
      end.
Qed.

Lemma json_loads_bracket (t : string) (v : pyval) :
  json_loads (String "[" t) = Ok v -> exists l, v = VList l.
Proof.
  unfold json_loads. change (skip_ws (String "[" t)) with (String "[" t).
  destruct (scan_value _ (String "[" t)) as [[v' r]|] eqn:E; [|discriminate].
  destruct (skip_ws r); [|discriminate]. intro H. injection H as <-.
  exact (scan_value_bracket _ _ _ _ E).
Qed.

Lemma search_all_records_bracket (content block : string) :
  search_all_records content = Some block -> exists t, block = String "[" t.
Proof.
  unfold search_all_records.
  destruct (find_sub SEARCH_MARKER content) as [[b a]|]; [|discriminate].
  destruct (find_sub BLOCK_END a) as [[body r]|]; [|discriminate].
  intro H. injection H as <-. eexists. reflexivity.
Qed.

End IndexAgreement.

(** The two identity indexes agree.  Whenever the loader of phase 1,
    which reads [r["chatId"]], builds an index, the loader of phase 3,
    which reads [r.get("chatId", "")], builds the same index from the same
    document, and so does [main] of phase 3 from the records it loads. *)
Theorem identity_index_agrees (w : world) (ids : list pyval) :
  Phase1.load_existing_chat_ids w = Ok ids ->
  Phase3.load_existing_chat_ids w = Ok ids /\
  exists existing content,
    Phase3.load_existing_records w = Ok (VList existing, content) /\
    id_set chat_id_or_empty existing [] = Ok ids.
Proof.
  unfold Phase1.load_existing_chat_ids, Phase3.load_existing_chat_ids,
    Phase3.load_existing_records.
  destruct (index_html w) as [content|].
  - destruct (search_all_records content) as [block|] eqn:S.
    + destruct (search_all_records_bracket _ _ S) as [t ->].
      destruct (json_loads (String "[" t)) as [records|e] eqn:J; simpl; [|discriminate].
      destruct (json_loads_bracket _ _ J) as [l ->]. simpl.
      intro H. split; [exact (id_set_weaken _ _ _ chat_id_of_or_empty _ _ H)|].
      exists l, content. split; [reflexivity|].
      exact (id_set_weaken _ _ _ chat_id_of_or_empty _ _ H).
    + intro H. injection H as <-. split; [reflexivity|].
      exists [], content. split; reflexivity.
  - intro H. injection H as <-. split; [reflexivity|].
    exists [], EmptyString. split; reflexivity.
Qed.

(** The index of the sample document, on both paths. *)
Lemma identity_index_agrees_witness :
  Phase3.load_existing_chat_ids sample_start = Ok [VStr "A1"].
Proof.
  refine (proj1 (identity_index_agrees sample_start [VStr "A1"] _)).
  vm_compute. reflexivity.
Defined.

Section ExactIndex.

Variable get_id : pyval -> result pyval.

Lemma set_add_sound (v x : pyval) (s s' : list pyval) :
  set_add v s = Ok s' -> py_in x s' = true -> py_in x s = true \/ py_eqb x v = true.
Proof.
  unfold set_add. destruct (hashable v); [|discriminate].
  intro H. injection H as <-. destruct (py_in v s); [now left|].
  rewrite py_in_app. simpl. rewrite orb_false_r. intro I.
  apply orb_true_iff in I. exact I.
Qed.

Lemma set_add_distinct (v : pyval) (s s' : list pyval) :
  set_add v s = Ok s' -> distinct_ids s = true -> distinct_ids s' = true.
Proof.
  unfold set_add. destruct (hashable v); [|discriminate].
  intro H. injection H as <-. destruct (py_in v s) eqn:E; [trivial|].
  intro D. apply distinct_ids_app; [exact D|reflexivity|].
  intros y [<-|[]]. exact E.
Qed.

Lemma id_set_sound (records : list pyval) :
  forall acc s x,
    id_set get_id records acc = Ok s -> py_in x s = true ->
    py_in x acc = true \/
    exists r v, In r records /\ get_id r = Ok v /\ py_eqb x v = true.
Proof.
  induction records as [|r rest IH]; intros acc s x H I; simpl in H.
  - injection H as <-. now left.
  - destruct (get_id r) as [v|] eqn:G; cbn [bind] in H; [|discriminate].
    destruct (set_add v acc) as [acc'|] eqn:E; cbn [bind] in H; [|discriminate].
    destruct (IH _ _ _ H I) as [A|(r' & v' & I' & G' & E')].
    + destruct (set_add_sound _ _ _ _ E A) as [B|B]; [now left|].
      right. exists r, v. repeat split; [now left|exact G|exact B].
    + right. exists r', v'. repeat split; [now right|exact G'|exact E'].
Qed.

Lemma id_set_distinct (records : list pyval) :
  forall acc s,
    id_set get_id records acc = Ok s -> distinct_ids acc = true -> distinct_ids s = true.
Proof.
  induction records as [|r rest IH]; intros acc s H D; simpl in H.
  - injection H as <-. exact D.
  - destruct (get_id r) as [v|]; cbn [bind] in H; [|discriminate].
    destruct (set_add v acc) as [acc'|] eqn:E; cbn [bind] in H; [|discriminate].
    exact (IH _ _ H (set_add_distinct _ _ _ E D)).
Qed.

Lemma id_set_exact (records s : list pyval) (x : pyval) :
  id_set get_id records [] = Ok s ->
  py_in x s = true <-> exists r v, In r records /\ get_id r = Ok v /\ py_eqb x v = true.
Proof.
  intro H. split.
  - intro I. destruct (id_set_sound _ _ _ _ H I) as [A|A]; [discriminate|exact A].
  - intros (r & v & I & G & E).
    assert (R : py_eqb v v = true)
      by (eapply py_eqb_trans; [rewrite py_eqb_sym; exact E|exact E]).
    pose proof (id_set_in get_id records [] s r v H I G R) as P.
    apply py_in_exists in P. destruct P as (u & Iu & Eu).
    apply py_in_exists. exists u. split; [exact Iu|]. eapply py_eqb_trans; eassumption.
Qed.

End ExactIndex.

(** The identity index is exact.  When the document holds the records
    [existing], the index that a loader builds has no two equal members,
    and a value is in the index exactly if it equals the identity of one
    of the records: the [chatId] that phase 1 reads with [r["chatId"]],
    and the one that phase 3 reads with [r.get("chatId", "")]. *)
Theorem identity_index_exact (w : world) (existing : list pyval) :
  document_holds w existing ->
  (forall ids, Phase1.load_existing_chat_ids w = Ok ids ->
     distinct_ids ids = true /\
     forall x, py_in x ids = true <->
               exists r v, In r existing /\ chat_id_of r = Ok v /\ py_eqb x v = true) /\
  (forall ids, Phase3.load_existing_chat_ids w = Ok ids ->
     distinct_ids ids = true /\
     forall x, py_in x ids = true <->
               exists r v, In r existing /\ chat_id_or_empty r = Ok v /\ py_eqb x v = true).
Proof.
  intros (content & block & I & S & J).
  unfold Phase1.load_existing_chat_ids, Phase3.load_existing_chat_ids.
  rewrite I, S, J. cbn [bind py_iter]. split; intros ids H.
  - split; [exact (id_set_distinct _ _ _ _ H eq_refl)|].
    intro x. exact (id_set_exact _ _ _ _ H).
  - split; [exact (id_set_distinct _ _ _ _ H eq_refl)|].
    intro x. exact (id_set_exact _ _ _ _ H).
Qed.

(** The index of the sample document holds A1 and does not hold B2. *)
Lemma identity_index_exact_witness :
  exists ids,
    Phase1.load_existing_chat_ids sample_start = Ok ids /\
    distinct_ids ids = true /\
    py_in (VStr "A1") ids = true.
Proof.
  assert (D : document_holds sample_start [plain_A1]).
  { exists sample_document. eexists. repeat split; vm_compute; reflexivity. }
  destruct (identity_index_exact sample_start [plain_A1] D) as [H1 _].
  destruct (Phase1.load_existing_chat_ids sample_start) as [ids|e] eqn:E;
    [|vm_compute in E; discriminate].
  destruct (H1 ids eq_refl) as [Dd X]. exists ids. repeat split; [exact Dd|].
  apply X. exists plain_A1, (VStr "A1"). repeat split. now left.
Defined.

Section EnrichTwice.

Variable corp_map : list (pyval * string).
Variable seg_map : list (string * pyval).

Lemma dict_set_same_value {V : Type} (k : string) (v : V) (d : list (string * V)) :
  dict_get k d = Some v -> dict_set k v d = d.
Proof.
  unfold dict_get, dict_set. induction d as [|[k' v'] d IH]; simpl; [discriminate|].
  destruct (String.eqb k k').
  - intro H. injection H as ->. reflexivity.
  - intro H. rewrite (IH H). reflexivity.
Qed.

Lemma enrich_records_again (recs : list pyval) :
  forall enriched matched,
    Phase2.enrich_records recs corp_map seg_map = Ok (enriched, matched) ->
    Phase2.enrich_records enriched corp_map seg_map = Ok (enriched, matched).
Proof.
  induction recs as [|rec rest IH]; intros enriched matched H; simpl in H.
  - injection H as <- <-. reflexivity.
  - destruct (py_item rec "chatId") as [chat_id|e] eqn:C; simpl in H; [|discriminate].
    destruct (hashable chat_id) eqn:Hh; simpl in H; [|discriminate].
    match type of H with (bind ?c _ = _) => destruct c as [[rec' n]|e] eqn:E end;
      simpl in H; [|discriminate].
    destruct (Phase2.enrich_records rest corp_map seg_map) as [[tl m]|e] eqn:T;
      simpl in H; [|discriminate].
    injection H as <- <-. specialize (IH _ _ eq_refl).
    assert (Same : rec' = rec ->
                   (match assoc_get py_eqb chat_id corp_map with
                    | Some corp_id =>
                        if negb (String.eqb corp_id "") then
                          match dict_get corp_id seg_map with
                          | Some _ => False
                          | None => True
                          end
                        else True
                    | None => True
                    end) -> n = O ->
                   Phase2.enrich_records (rec' :: tl) corp_map seg_map
                   = Ok (rec' :: tl, (n + m)%nat)).
    { intros -> X ->. simpl. rewrite C. simpl. rewrite Hh. simpl.
      destruct (assoc_get py_eqb chat_id corp_map) as [corp_id|].
      - destruct (negb (String.eqb corp_id "")).
        + destruct (dict_get corp_id seg_map); [destruct X|]. simpl. rewrite IH. reflexivity.
        + simpl. rewrite IH. reflexivity.
      - simpl. rewrite IH. reflexivity. }
    destruct (assoc_get py_eqb chat_id corp_map) as [corp_id|] eqn:A;
      [|injection E as <- <-; now apply Same].
    destruct (negb (String.eqb corp_id "")) eqn:N;
      [|injection E as <- <-; now apply Same].
    destruct (dict_get corp_id seg_map) as [seg|] eqn:G;
      [|injection E as <- <-; now apply Same].
    clear Same.
    destruct (py_item seg "detailCategory") as [v1|e] eqn:V1; simpl in E; [|discriminate].
    destruct rec as [| | | | | | |d]; try discriminate. simpl in E.
    destruct (py_item seg "stabilityStatus") as [v2|e] eqn:V2; simpl in E; [|discriminate].
    destruct (py_item seg "growthStatus") as [v3|e] eqn:V3; simpl in E; [|discriminate].
    destruct (py_item seg "limitTier") as [v4|e] eqn:V4; simpl in E; [|discriminate].
    injection E as <- <-.
    set (d4 := dict_set "limitTier" v4
                 (dict_set "growthStatus" v3
                    (dict_set "stabilityStatus" v2 (dict_set "detailCategory" v1 d)))).
    assert (K : dict_get "chatId" d4 = dict_get "chatId" d)
      by (unfold d4; repeat (rewrite dict_get_set_other by discriminate); reflexivity).
    assert (K1 : dict_get "detailCategory" d4 = Some v1)
      by (unfold d4; repeat (rewrite dict_get_set_other by discriminate);
          apply dict_get_set_same).
    assert (K2 : dict_get "stabilityStatus" d4 = Some v2)
      by (unfold d4; repeat (rewrite dict_get_set_other by discriminate);
          apply dict_get_set_same).
    assert (K3 : dict_get "growthStatus" d4 = Some v3)
      by (unfold d4; repeat (rewrite dict_get_set_other by discriminate);
          apply dict_get_set_same).
    assert (K4 : dict_get "limitTier" d4 = Some v4) by (unfold d4; apply dict_get_set_same).
    cbn [Phase2.enrich_records]. unfold py_item at 1. rewrite K.
    unfold py_item in C. destruct (dict_get "chatId" d) as [c|]; [|discriminate].
    injection C as ->. cbn [bind]. rewrite Hh. cbn [bind]. rewrite A, N, G.
    rewrite V1. cbn [bind py_setitem]. rewrite (dict_set_same_value _ _ _ K1).
    rewrite V2. cbn [bind py_setitem]. rewrite (dict_set_same_value _ _ _ K2).
    rewrite V3. cbn [bind py_setitem]. rewrite (dict_set_same_value _ _ _ K3).
    rewrite V4. cbn [bind py_setitem]. rewrite (dict_set_same_value _ _ _ K4).
    rewrite IH. reflexivity.
Qed.

End EnrichTwice.

(** Enrichment is idempotent: enriching again the records that
    [enrich_records] returned, with the same identifier mapping and the
    same profiles, changes no record and finds the same number of
    matches. *)
Theorem enrich_records_idempotent (corp_map : list (pyval * string))
  (seg_map : list (string * pyval)) (new_records enriched : list pyval) (matched : nat) :
  Phase2.enrich_records new_records corp_map seg_map = Ok (enriched, matched) ->
  Phase2.enrich_records enriched corp_map seg_map = Ok (enriched, matched).
Proof. apply enrich_records_again. Qed.

(** The enriched sample record, enriched again. *)
Lemma enrich_records_idempotent_witness :
  Phase2.enrich_records [enriched_B2] sample_corp_map sample_seg_map
  = Ok ([enriched_B2], 1%nat).
Proof.
  apply (enrich_records_idempotent sample_corp_map sample_seg_map [fresh_record "B2"]).
  vm_compute. reflexivity.
Defined.

Section LatestDate.

Lemma str_ltb_irrefl (a : string) : str_ltb a a = false.
Proof.
  induction a as [|x a IH]; simpl; [reflexivity|].
  rewrite Nat.ltb_irrefl. exact IH.
Qed.

Lemma str_ltb_asym (a : string) : forall b, str_ltb a b = true -> str_ltb b a = false.
Proof.
  induction a as [|x a IH]; intros [|y b]; simpl; try reflexivity; try discriminate.
  destruct (Nat.ltb_spec (nat_of_ascii x) (nat_of_ascii y)) as [L|L].
  - intros _. destruct (Nat.ltb_spec (nat_of_ascii y) (nat_of_ascii x)); [lia|].
    destruct (Nat.ltb_spec (nat_of_ascii x) (nat_of_ascii y)); [reflexivity|lia].
  - destruct (Nat.ltb_spec (nat_of_ascii y) (nat_of_ascii x)) as [L'|L']; [discriminate|].
    apply IH.
Qed.

(** [str_ltb a b = false] reads [b <= a]; that order is transitive. *)
Lemma str_ltb_false_trans (a : string) :
  forall b c, str_ltb a b = false -> str_ltb b c = false -> str_ltb a c = false.
Proof.
  induction a as [|x a IH]; intros [|y b] [|z c]; simpl; try reflexivity; try discriminate.
  destruct (Nat.ltb_spec (nat_of_ascii x) (nat_of_ascii y)) as [L1|L1]; [discriminate|].
  destruct (Nat.ltb_spec (nat_of_ascii y) (nat_of_ascii x)) as [L2|L2];
    destruct (Nat.ltb_spec (nat_of_ascii y) (nat_of_ascii z)) as [L3|L3];
    try discriminate;
    destruct (Nat.ltb_spec (nat_of_ascii z) (nat_of_ascii y)) as [L4|L4];
    destruct (Nat.ltb_spec (nat_of_ascii x) (nat_of_ascii z)) as [L5|L5];
    destruct (Nat.ltb_spec (nat_of_ascii z) (nat_of_ascii x)) as [L6|L6];
    try lia; try reflexivity; try discriminate.
  apply IH.
Qed.

Lemma max_date_of_greatest (all_dates : list pyval) (ymd : Z * Z * Z) :
  max_date_of all_dates = Ok ymd ->
  exists mx,
    In (VStr mx) all_dates /\ strptime_ymd mx = Some ymd /\
    forall v, In v all_dates -> exists t, v = VStr t /\ str_ltb mx t = false.
Proof.
  unfold max_date_of. destruct all_dates as [|[| | | |m| | |] l]; try discriminate.
  match goal with |- context [bind (?go m l)] => set (go_ := go) end.
  assert (G : forall l m mx, go_ m l = Ok mx ->
                (mx = m \/ In (VStr mx) l) /\ str_ltb mx m = false /\
                forall v, In v l -> exists t, v = VStr t /\ str_ltb mx t = false).
  { clear. induction l as [|[| | | |t| | |] l IH]; intros m mx H; simpl in H;
      try discriminate.
    - injection H as <-. repeat split; [now left|apply str_ltb_irrefl|intros v []].
    - destruct (IH _ _ H) as (I & L & A).
      assert (Lm : str_ltb mx m = false /\ str_ltb mx t = false).
      { destruct (str_ltb m t) eqn:E.
        - split; [|exact L]. eapply str_ltb_false_trans; [exact L|].
          now apply str_ltb_asym.
        - split; [exact L|]. eapply str_ltb_false_trans; [exact L|exact E]. }
      destruct Lm as [Lm Lt]. repeat split; [|exact Lm|].
      + destruct I as [->|I]; [|right; now right].
        destruct (str_ltb m t); [right; now left|now left].
      + intros v [<-|Iv]; [exists t; split; [reflexivity|exact Lt]|exact (A v Iv)]. }
  destruct (go_ m l) as [mx|e] eqn:E; simpl; [|discriminate].
  destruct (strptime_ymd mx) as [r|] eqn:P; [|discriminate].
  intro H. injection H as <-. destruct (G _ _ _ E) as (I & L & A).
  exists mx. repeat split; [|exact P|].
  - destruct I as [->|I]; [now left|now right].
  - intros v [<-|Iv]; [exists m; split; [reflexivity|exact L]|exact (A v Iv)].
Qed.

Lemma dates_of_spec (all_records : list pyval) :
  forall ds, dates_of all_records = Ok ds ->
    (forall d, In d ds <->
               truthy d = true /\ exists r, In r all_records /\ py_get r "date" VNone = Ok d).
Proof.
  induction all_records as [|r rest IH]; intros ds H; simpl in H.
  - injection H as <-. intro d. split; [intros []|intros (_ & r & [] & _)].
  - destruct (py_get r "date" VNone) as [d0|e] eqn:G; simpl in H; [|discriminate].
    destruct (dates_of rest) as [ds'|e]; simpl in H; [|discriminate].
    injection H as <-. specialize (IH _ eq_refl). intro d. split.
    + intro I. destruct (truthy d0) eqn:T.
      * destruct I as [<-|I]; [split; [exact T|exists r; split; [now left|exact G]]|].
        destruct (proj1 (IH d) I) as (Td & r' & Ir & Gr).
        split; [exact Td|exists r'; split; [now right|exact Gr]].
      * destruct (proj1 (IH d) I) as (Td & r' & Ir & Gr).
        split; [exact Td|exists r'; split; [now right|exact Gr]].
    + intros (Td & r' & [<-|Ir] & Gr).
      * rewrite G in Gr. injection Gr as ->. rewrite Td. now left.
      * assert (I : In d ds') by (apply IH; split; [exact Td|exists r'; split; assumption]).
        destruct (truthy d0); [now right|exact I].
Qed.

End LatestDate.

(** The display date is the date of the greatest date text.  When the
    date step finds a date to show for the records [all_records], it is
    what [strptime] reads in the [date] of one of the records, every
    non-empty [date] of a record is a text, and none of them is greater,
    in the order of strings, than the one shown. *)
Theorem display_date_is_greatest (all_records all_dates : list pyval) (ymd : Z * Z * Z) :
  dates_of all_records = Ok all_dates ->
  max_date_of all_dates = Ok ymd ->
  exists r mx,
    In r all_records /\ py_get r "date" VNone = Ok (VStr mx) /\
    strptime_ymd mx = Some ymd /\
    forall r' d, In r' all_records -> py_get r' "date" VNone = Ok d -> truthy d = true ->
                 exists t, d = VStr t /\ str_ltb mx t = false.
Proof.
  intros D M. destruct (max_date_of_greatest _ _ M) as (mx & I & P & A).
  destruct (proj1 (dates_of_spec _ _ D _) I) as (_ & r & Ir & G).
  exists r, mx. repeat split; try assumption.
  intros r' d Ir' G' T. apply A. apply (dates_of_spec _ _ D). split; [exact T|].
  exists r'. split; assumption.
Qed.

(** The two records of the sample: the later date is shown. *)
Lemma display_date_is_greatest_witness :
  exists r mx,
    In r [plain_A1; fresh_record "B2"] /\ py_get r "date" VNone = Ok (VStr mx) /\
    strptime_ymd mx = Some (2026, 2, 20).
Proof.
  destruct (display_date_is_greatest [plain_A1; fresh_record "B2"]
              [VStr "2026-01-01"; VStr "2026-02-20"] (2026, 2, 20) eq_refl eq_refl)
    as (r & mx & I & G & P & _).
  exists r, mx. repeat split; assumption.
Defined.

Section DateRoundTrip.

Lemma four_digit_years_checked :
  forallb (fun y =>
             match str_of_Z y with
             | String a (String b (String c (String e EmptyString))) =>
                 is_digit a && is_digit b && is_digit c && is_digit e
                 && (((digit_val a * 10 + digit_val b) * 10 + digit_val c) * 10
                     + digit_val e =? y)
             | _ => false
             end)
    (map (fun n => 1000 + Z.of_nat n) (seq 0 (90 * 100))) = true.
Proof. vm_compute. reflexivity. Qed.

Lemma four_digit_year (y : Z) :
  1000 <= y <= 9999 ->
  exists a b c e,
    str_of_Z y = String a (String b (String c (String e EmptyString))) /\
    is_digit a = true /\ is_digit b = true /\ is_digit c = true /\ is_digit e = true /\
    ((digit_val a * 10 + digit_val b) * 10 + digit_val c) * 10 + digit_val e = y.
Proof.
  intro R. pose proof four_digit_years_checked as F.
  rewrite forallb_forall in F. specialize (F y).
  assert (I : In y (map (fun n => 1000 + Z.of_nat n) (seq 0 (90 * 100)))).
  { apply in_map_iff. exists (Z.to_nat (y - 1000)). split; [lia|].
    apply in_seq. lia. }
  specialize (F I). destruct (str_of_Z y) as [|a [|b [|c [|e [|]]]]]; try discriminate.
  apply andb_true_iff in F. destruct F as [F E].
  apply andb_true_iff in F. destruct F as [F He].
  apply andb_true_iff in F. destruct F as [F Hc].
  apply andb_true_iff in F. destruct F as [Ha Hb].
  apply Z.eqb_eq in E. exists a, b, c, e. repeat split; assumption.
Qed.

Lemma strptime_of_digits (a b c e : ascii) (m d : Z) :
  is_digit a = true -> is_digit b = true -> is_digit c = true -> is_digit e = true ->
  1 <= m <= 12 -> 1 <= d <= 31 ->
  strptime_ymd (String a (String b (String c (String e
                  (String "-" (append (two_digits m) (String "-" (two_digits d))))))))
  = let y := ((digit_val a * 10 + digit_val b) * 10 + digit_val c) * 10 + digit_val e in
    if (1 <=? y) && (d <=? days_in_month y m) then Some (y, m, d) else None.
Proof.
  intros Ha Hb Hc He Rm Rd.
  assert (Em : m = 1 \/ m = 2 \/ m = 3 \/ m = 4 \/ m = 5 \/ m = 6 \/ m = 7 \/ m = 8
               \/ m = 9 \/ m = 10 \/ m = 11 \/ m = 12) by lia.
  assert (Ed : d = 1 \/ d = 2 \/ d = 3 \/ d = 4 \/ d = 5 \/ d = 6 \/ d = 7 \/ d = 8
               \/ d = 9 \/ d = 10 \/ d = 11 \/ d = 12 \/ d = 13 \/ d = 14 \/ d = 15
               \/ d = 16 \/ d = 17 \/ d = 18 \/ d = 19 \/ d = 20 \/ d = 21 \/ d = 22
               \/ d = 23 \/ d = 24 \/ d = 25 \/ d = 26 \/ d = 27 \/ d = 28 \/ d = 29
               \/ d = 30 \/ d = 31) by lia.
  clear Rm Rd. unfold strptime_ymd.
  repeat (destruct Em as [Em|Em]); subst m;
    repeat (destruct Ed as [Ed|Ed]); subst d;
    cbv [two_digits append]; rewrite Ha, Hb, Hc, He; reflexivity.
Qed.

End DateRoundTrip.

(** A date that phase 1 formats is a date that the display-date step
    parses.  For a date cell with a year of four digits, the text that
    [strftime("%Y-%m-%d")] writes into the record is read by
    [strptime(..., "%Y-%m-%d")] as the same year, month and day; a record
    list with that one date gets it as its display date. *)
Theorem strftime_strptime_round_trip (d : datetime) :
  four_digit_date d ->
  strptime_ymd (strftime_ymd d) = Some (dt_year d, dt_month d, dt_day d) /\
  max_date_of [VStr (strftime_ymd d)] = Ok (dt_year d, dt_month d, dt_day d).
Proof.
  intros (Ry & Rm & Rd).
  assert (P : strptime_ymd (strftime_ymd d) = Some (dt_year d, dt_month d, dt_day d)).
  { destruct (four_digit_year _ Ry) as (a & b & c & e & S & Ha & Hb & Hc & He & Ey).
    unfold strftime_ymd. rewrite S. cbn [append].
    assert (D31 : days_in_month (dt_year d) (dt_month d) <= 31).
    { unfold days_in_month.
      repeat match goal with |- context [if ?x then _ else _] => destruct x end; lia. }
    rewrite strptime_of_digits by (try assumption; lia).
    cbv zeta. rewrite Ey.
    replace (1 <=? dt_year d) with true by (symmetry; apply Z.leb_le; lia).
    replace (dt_day d <=? days_in_month (dt_year d) (dt_month d)) with true
      by (symmetry; apply Z.leb_le; lia).
    reflexivity. }
  split; [exact P|]. cbn [max_date_of bind]. rewrite P. reflexivity.
Qed.

(** The twentieth of February 2026. *)
Lemma strftime_strptime_round_trip_witness :
  strptime_ymd (strftime_ymd (mkDateTime 2026 2 20 9 30 0 0)) = Some (2026, 2, 20).
Proof.
  refine (proj1 (strftime_strptime_round_trip (mkDateTime 2026 2 20 9 30 0 0) _)).
  unfold four_digit_date. simpl. repeat split; vm_compute; discriminate.
Defined.

Section CompanyFallback.

Lemma build_user_map_company (uid : pyval) (rows : list (list cell)) :
  forall acc,
    match assoc_get py_eqb uid (Phase1.build_user_map rows acc) with
    | Some u => Some (py_get u "company" VNone)
    | None => None
    end
    = match last_some (row_company uid) rows with
      | Some c => Some (Ok c)
      | None =>
          match assoc_get py_eqb uid acc with
          | Some u => Some (py_get u "company" VNone)
          | None => None
          end
      end.
Proof.
  induction rows as [|r rows IH]; intro acc; simpl; [reflexivity|].
  destruct (truthy (cell_value r 1)) eqn:T; simpl.
  - rewrite IH. destruct (last_some (row_company uid) rows); [reflexivity|].
    rewrite assoc_get_set. unfold row_company. rewrite T. simpl.
    destruct (py_eqb uid (cell_value r 1)); reflexivity.
  - rewrite IH. destruct (last_some (row_company uid) rows); [reflexivity|].
    unfold row_company. rewrite T. reflexivity.
Qed.

End CompanyFallback.

(** The company of a new record.  A non-empty text in column 3 of the
    row is the company; a value there that is not a text counts as
    absent; without a company in the row, a row with an actor reference
    (column 14) takes the company (column 5) of the last row of the User
    data sheet that carries this actor, be it empty; and a row without
    actor, or whose actor has no row in the sheet, keeps its empty
    company. *)
Theorem company_resolution (py_repr : pyval -> string)
  (r : list cell) (users : list (list cell)) (chat_id rec : pyval) :
  Phase1.record_of_row py_repr r (Phase1.build_user_map users []) chat_id = Ok rec ->
  py_item rec "company"
  = Ok (let c3 := cell_value r 3 in
        let own := if truthy c3 && negb (is_str c3) then VNone else c3 in
        if truthy own then own
        else if truthy (cell_value r 14) then
               match last_some (row_company (cell_value r 14)) users with
               | Some c => c
               | None => own
               end
             else own).
Proof.
  unfold Phase1.record_of_row. intro H.
  match type of H with (bind ?c _ = _) => destruct c as [company|e] eqn:C end;
    simpl in H; [|discriminate].
  destruct (Phase1.to_seconds (cell_value r 67)) as [fa|e]; simpl in H; [|discriminate].
  destruct (Phase1.to_seconds (cell_value r 79)) as [cs|e]; simpl in H; [|discriminate].
  injection H as <-. cbv zeta. cbn [py_item dict_get assoc_get String.eqb Ascii.eqb Bool.eqb].
  f_equal. 
  set (own := if truthy (cell_value r 3) && negb (is_str (cell_value r 3))
              then VNone else cell_value r 3) in *.
  destruct (truthy own); simpl in C; [congruence|].
  destruct (truthy (cell_value r 14)); [|congruence].
  pose proof (build_user_map_company (cell_value r 14) users []) as L. simpl in L.
  destruct (assoc_get py_eqb (cell_value r 14) (Phase1.build_user_map users [])) as [u|].
  - destruct (last_some (row_company (cell_value r 14)) users); [|discriminate].
    injection L as L. congruence.
  - destruct (last_some (row_company (cell_value r 14)) users); [discriminate|].
    congruence.
Qed.

(** A row without company whose actor u1 has two rows in the User data
    sheet: the company of the second one is taken. *)
Lemma company_resolution_witness :
  exists rec,
    Phase1.record_of_row repr_unused (chat_row (CStr "c1") CNone (CStr "u1"))
      (Phase1.build_user_map
         [[CStr "u1"; CNone; CNone; CNone; CStr "Old Co."; CNone];
          [CStr "u1"; CNone; CNone; CNone; CStr "New Co."; CNone]] [])
      (VStr "c1") = Ok rec /\
    py_item rec "company" = Ok (VStr "New Co.").
Proof.
  destruct (Phase1.record_of_row repr_unused (chat_row (CStr "c1") CNone (CStr "u1"))
              (Phase1.build_user_map
                 [[CStr "u1"; CNone; CNone; CNone; CStr "Old Co."; CNone];
                  [CStr "u1"; CNone; CNone; CNone; CStr "New Co."; CNone]] [])
              (VStr "c1")) as [rec|e] eqn:E; [|vm_compute in E; discriminate].
  exists rec. split; [reflexivity|].
  rewrite (company_resolution _ _ _ _ _ E). vm_compute. reflexivity.
Defined.

Section CorpNumberColumn.






End CorpNumberColumn.



Section DecoderLoops.

Lemma elements_tail_ext (e1 e2 : string -> option (list pyval * string))
  (v : pyval) (r : string) :
  (forall s, e1 s = e2 s) ->
  match skip_ws r with
  | String "]" r' => Some ([v], r')
  | String "," r' =>
      match e1 (skip_ws r') with
      | Some (vs, r2) => Some (v :: vs, r2)
      | None => None
      end
  | _ => None
  end
  = match skip_ws r with
    | String "]" r' => Some ([v], r')
    | String "," r' =>
        match e2 (skip_ws r') with
        | Some (vs, r2) => Some (v :: vs, r2)
        | None => None
        end
    | _ => None
    end.
Proof.
  intro H. destruct (skip_ws r) as [|c r']; [reflexivity|].
  destruct c as [[] [] [] [] [] [] [] []]; try reflexivity. rewrite H. reflexivity.
Qed.

Lemma members_tail_ext (e1 e2 : string -> option (list (string * pyval) * string))
  (k : string) (v : pyval) (r : string) :
  (forall s, e1 s = e2 s) ->
  match skip_ws r with
  | String "}" r' => Some ([(k, v)], r')
  | String "," r' =>
      match e1 (skip_ws r') with
      | Some (kvs, r2) => Some ((k, v) :: kvs, r2)
      | None => None
      end
  | _ => None
  end
  = match skip_ws r with
    | String "}" r' => Some ([(k, v)], r')
    | String "," r' =>
        match e2 (skip_ws r') with
        | Some (kvs, r2) => Some ((k, v) :: kvs, r2)
        | None => None
        end
    | _ => None
    end.
Proof.
  intro H. destruct (skip_ws r) as [|c r']; [reflexivity|].
  destruct c as [[] [] [] [] [] [] [] []]; try reflexivity. rewrite H. reflexivity.
Qed.

Lemma members_value_ext (scan : string -> option (pyval * string))
  (e1 e2 : string -> option (list (string * pyval) * string)) (k : string) (r : string) :
  (forall s, e1 s = e2 s) ->
  match skip_ws r with
  | String ":" r1 =>
      match scan (skip_ws r1) with
      | None => None
      | Some (v, r2) =>
          match skip_ws r2 with
          | String "}" r3 => Some ([(k, v)], r3)
          | String "," r3 =>
              match e1 (skip_ws r3) with
              | Some (kvs, r4) => Some ((k, v) :: kvs, r4)
              | None => None
              end
          | _ => None
          end
      end
  | _ => None
  end
  = match skip_ws r with
    | String ":" r1 =>
        match scan (skip_ws r1) with
        | None => None
        | Some (v, r2) =>
            match skip_ws r2 with
            | String "}" r3 => Some ([(k, v)], r3)
            | String "," r3 =>
                match e2 (skip_ws r3) with
                | Some (kvs, r4) => Some ((k, v) :: kvs, r4)
                | None => None
                end
            | _ => None
            end
        end
    | _ => None
    end.
Proof.
  intro H. destruct (skip_ws r) as [|c r1]; [reflexivity|].
  destruct c as [[] [] [] [] [] [] [] []]; try reflexivity.
  destruct (scan (skip_ws r1)) as [[v r2]|]; [|reflexivity].
  now apply members_tail_ext.
Qed.

(** An array, decoded by the loop over its elements. *)
Lemma scan_value_list (fuel : nat) (s' : string) :
  scan_value (S fuel) (String "[" s')
  = match skip_ws s' with
    | String "]" r => Some (VList [], r)
    | t =>
        match scan_elements (scan_value fuel) (S (String.length t)) t with
        | Some (vs, r) => Some (VList vs, r)
        | None => None
        end
    end.
Proof.
  cbn [scan_value scan_elements].
  match goal with
  | |- context [?e] =>
      is_fix e;
      match type of e with
      | nat -> string -> option (list pyval * string) => set (elements := e)
      end
  end.
  assert (E : forall n s, elements n s = scan_elements (scan_value fuel) n s).
  { induction n as [|n IH]; intro s; [reflexivity|]. simpl.
    destruct (scan_value fuel s) as [[v r]|]; [|reflexivity].
    apply elements_tail_ext. exact IH. }
  destruct (skip_ws s') as [|c t].
  - destruct (scan_value fuel "") as [[v r]|]; [|reflexivity].
    rewrite (elements_tail_ext _ _ v r (E _)). reflexivity.
  - destruct c as [[] [] [] [] [] [] [] []]; try reflexivity;
      (match goal with |- context [scan_value fuel ?x] =>
         destruct (scan_value fuel x) as [[v r]|]; [|reflexivity] end;
       rewrite (elements_tail_ext _ _ v r (E _)); reflexivity).
Qed.

(** An object, decoded by the loop over its members. *)
Lemma scan_value_dict (fuel : nat) (s' : string) :
  scan_value (S fuel) (String "{" s')
  = match skip_ws s' with
    | String "}" r => Some (VDict [], r)
    | t =>
        match scan_members (scan_value fuel) (S (String.length t)) t with
        | Some (kvs, r) => Some (VDict (dict_of_pairs kvs), r)
        | None => None
        end
    end.
Proof.
  cbn [scan_value scan_members].
  match goal with
  | |- context [?e] =>
      is_fix e;
      match type of e with
      | nat -> string -> option (list (string * pyval) * string) => set (members := e)
      end
  end.
  assert (E : forall n s, members n s = scan_members (scan_value fuel) n s).
  { induction n as [|n IH]; intro s; [reflexivity|].
    cbn -[scan_string skip_ws scan_value String.length].
    destruct s as [|c s1]; [reflexivity|].
    destruct c as [[] [] [] [] [] [] [] []]; try reflexivity.
    match goal with |- context [scan_string ?m s1] =>
      destruct (scan_string m s1) as [[k r]|]; [|reflexivity] end.
    apply members_value_ext. exact IH. }
  destruct (skip_ws s') as [|c t]; [reflexivity|].
  destruct c as [[] [] [] [] [] [] [] []]; try reflexivity.
  match goal with |- context [scan_string ?m t] =>
    destruct (scan_string m t) as [[k r]|]; [|reflexivity] end.
  rewrite (members_value_ext _ _ _ k r (E _)). reflexivity.
Qed.

Lemma scan_value_string (fuel : nat) (s' : string) :
  scan_value (S fuel) (String "034" s')
  = match scan_string (S (String.length s')) s' with
    | Some (t, r) => Some (VStr t, r)
    | None => None
    end.
Proof. reflexivity. Qed.

End DecoderLoops.

Section StringRoundTrip.

(** One character of a string, escaped by the encoder, is decoded by one
    step of the string scanner. *)
Lemma scan_string_escaped_char (c : ascii) (s tail : string) (n : nat) :
  scan_string (S n) (append (json_escape (String c s)) tail)
  = match scan_string n (append (json_escape s) tail) with
    | Some (t, r) => Some (String c t, r)
    | None => None
    end.
Proof. destruct c as [[] [] [] [] [] [] [] []]; reflexivity. Qed.

Lemma scan_string_escape (s : string) :
  forall n rest, (String.length s < n)%nat ->
    scan_string n (append (json_escape s) (String "034" rest)) = Some (s, rest).
Proof.
  induction s as [|c s IH]; intros n rest L; (destruct n as [|n]; [simpl in L; lia|]).
  - reflexivity.
  - rewrite scan_string_escaped_char. rewrite IH by (simpl in L; lia). reflexivity.
Qed.

Lemma str_append_assoc (a b c : string) :
  append (append a b) c = append a (append b c).
Proof. induction a as [|x a IH]; simpl; [reflexivity|]. now rewrite IH. Qed.

Lemma str_append_nil_r (a : string) : append a EmptyString = a.
Proof. induction a as [|x a IH]; simpl; [reflexivity|]. now rewrite IH. Qed.

Lemma length_append (a b : string) :
  String.length (append a b) = (String.length a + String.length b)%nat.
Proof. induction a as [|c a IH]; simpl; [reflexivity|]. now rewrite IH. Qed.

Lemma json_escape_length (s : string) :
  (String.length s <= String.length (json_escape s))%nat.
Proof.
  induction s as [|c s IH]; [apply Nat.le_refl|].
  cbn [json_escape].
  repeat match goal with |- context [if ?b then _ else _] => destruct b end;
    cbn [append String.length]; lia.
Qed.

(** A quoted string is decoded to the string. *)
Lemma scan_value_quote (fuel : nat) (s rest : string) :
  scan_value (S fuel) (append (json_quote s) rest) = Some (VStr s, rest).
Proof.
  unfold json_quote. cbn [append]. rewrite scan_value_string.
  rewrite str_append_assoc. cbn [append].
  rewrite scan_string_escape; [reflexivity|].
  rewrite length_append. pose proof (json_escape_length s). lia.
Qed.

End StringRoundTrip.

Section NumberRoundTrip.

Lemma delimited_cases (c : ascii) (r : string) :
  delimited (String c r) = true ->
  c = ","%char \/ c = "]"%char \/ c = "}"%char \/ c = " "%char
  \/ c = "009"%char \/ c = "010"%char \/ c = "013"%char.
Proof.
  destruct c as [[] [] [] [] [] [] [] []]; cbv; intro H; try discriminate; tauto.
Qed.

Lemma is_digit_cases (c : ascii) :
  is_digit c = true ->
  c = "0"%char \/ c = "1"%char \/ c = "2"%char \/ c = "3"%char \/ c = "4"%char
  \/ c = "5"%char \/ c = "6"%char \/ c = "7"%char \/ c = "8"%char \/ c = "9"%char.
Proof.
  destruct c as [[] [] [] [] [] [] [] []]; cbv; intro H; try discriminate; tauto.
Qed.

Ltac unfold_scan_number :=
  unfold scan_number;
  cbv beta iota zeta delta
    [is_digit nat_of_ascii N_of_ascii N_of_digits N.to_nat Pos.to_nat Pos.iter_op
       Nat.add Nat.leb andb N.add N.mul Pos.add Pos.mul Pos.succ].

Lemma scan_number_nonneg (c : ascii) (t : string) (ip : Z) (n : nat) (s1 : string) :
  is_digit c = true -> c <> "0"%char ->
  json_digits 0 0 (String c t) = (ip, n, s1) ->
  delimited s1 = true ->
  scan_number (String c t) = Some (VInt ip, s1).
Proof.
  intros D NZ J L.
  destruct (is_digit_cases _ D) as [->|[->|[->|[->|[->|[->|[->|[->|[->| ->]]]]]]]]];
    try congruence;
    (unfold_scan_number; rewrite J;
     destruct s1 as [|d r];
     [reflexivity
     |destruct (delimited_cases _ _ L) as [->|[->|[->|[->|[->|[->| ->]]]]]]; reflexivity]).
Qed.

Lemma scan_number_neg (c : ascii) (t : string) (ip : Z) (n : nat) (s1 : string) :
  is_digit c = true -> c <> "0"%char ->
  json_digits 0 0 (String c t) = (ip, n, s1) ->
  delimited s1 = true ->
  scan_number (String "-" (String c t)) = Some (VInt (- ip), s1).
Proof.
  intros D NZ J L.
  destruct (is_digit_cases _ D) as [->|[->|[->|[->|[->|[->|[->|[->|[->| ->]]]]]]]]];
    try congruence;
    (unfold_scan_number; rewrite J;
     destruct s1 as [|d r];
     [reflexivity
     |destruct (delimited_cases _ _ L) as [->|[->|[->|[->|[->|[->| ->]]]]]]; reflexivity]).
Qed.

Lemma scan_number_zero (s1 : string) :
  delimited s1 = true -> scan_number (String "0" s1) = Some (VInt 0, s1).
Proof.
  intro L. destruct s1 as [|d r]; [reflexivity|].
  destruct (delimited_cases _ _ L) as [->|[->|[->|[->|[->|[->| ->]]]]]]; reflexivity.
Qed.

Lemma delimited_no_digit (s1 : string) :
  delimited s1 = true ->
  match s1 with String c _ => is_digit c = false | EmptyString => True end.
Proof.
  destruct s1 as [|c r]; [trivial|]. intro L.
  destruct (delimited_cases _ _ L) as [->|[->|[->|[->|[->|[->| ->]]]]]]; reflexivity.
Qed.

(** The digits that print a positive number, read back with an
    accumulator. *)
Lemma json_digits_uint (u : Decimal.uint) :
  forall (a : positive) (cnt : nat) (rest : string),
    match rest with String c _ => is_digit c = false | EmptyString => True end ->
    json_digits (Zpos a) cnt (append (NilEmpty.string_of_uint u) rest)
    = (Zpos (Pos.of_uint_acc u a), (cnt + Decimal.nb_digits u)%nat, rest).
Proof.
  induction u; intros a cnt rest R; cbn [NilEmpty.string_of_uint append Pos.of_uint_acc
                                          Decimal.nb_digits];
    try (cbn [json_digits];
         match goal with
         | |- context [is_digit ?c] => change (is_digit c) with true
         end; cbv iota;
         match goal with
         | |- json_digits (?x * 10 + digit_val ?c) _ _
              = (Zpos (Pos.of_uint_acc _ ?p), _, _) =>
             let v := eval vm_compute in (digit_val c) in
             change (digit_val c) with v;
             replace (x * 10 + v) with (Zpos p) by lia
         end;
         rewrite IHu by exact R; f_equal; f_equal; lia).
  destruct rest as [|c r]; cbn [json_digits]; [|rewrite R]; f_equal; f_equal; lia.
Qed.

Lemma nzhead_not_D0 (u u' : Decimal.uint) : Decimal.nzhead u <> Decimal.D0 u'.
Proof. induction u; simpl; try discriminate. exact IHu. Qed.

Lemma to_uint_normal (p : positive) : Decimal.unorm (Pos.to_uint p) = Pos.to_uint p.
Proof.
  rewrite <- (DecimalPos.Unsigned.to_of (Pos.to_uint p)).
  rewrite DecimalPos.Unsigned.of_to. reflexivity.
Qed.

Lemma to_uint_head (p : positive) :
  match Pos.to_uint p with
  | Decimal.Nil | Decimal.D0 _ => False
  | _ => True
  end.
Proof.
  pose proof (to_uint_normal p) as N.
  pose proof (DecimalPos.Unsigned.to_uint_nonzero p) as Z0.
  pose proof (DecimalPos.Unsigned.to_uint_nonnil p) as Z1.
  destruct (Pos.to_uint p) as [|u|u|u|u|u|u|u|u|u|u]; try exact I; [congruence|].
  unfold Decimal.unorm in N. cbn [Decimal.nzhead] in N.
  destruct (Decimal.nzhead u) eqn:E; try discriminate.
  - apply Z0. exact (eq_sym N).
  - exact (nzhead_not_D0 _ _ E).
Qed.

(** The digits of a positive number are read back as the number. *)
Lemma json_digits_pos (p : positive) (rest : string) :
  match rest with String c _ => is_digit c = false | EmptyString => True end ->
  exists c t n,
    append (NilEmpty.string_of_uint (Pos.to_uint p)) rest = String c t /\
    is_digit c = true /\ c <> "0"%char /\
    json_digits 0 0 (String c t) = (Zpos p, n, rest).
Proof.
  intro R. pose proof (to_uint_head p) as H.
  pose proof (DecimalPos.Unsigned.of_to p) as O.
  destruct (Pos.to_uint p) as [|u|u|u|u|u|u|u|u|u|u]; try destruct H;
    cbn [NilEmpty.string_of_uint append];
    (eexists _, _, _; split; [reflexivity|]; split; [reflexivity|];
     split; [discriminate|];
     cbn [json_digits];
     match goal with
     | |- context [is_digit ?c] => change (is_digit c) with true
     end; cbv iota;
     match goal with
     | |- json_digits (?x * 10 + digit_val ?c) _ _ = _ =>
         let v := eval vm_compute in (digit_val c) in
         change (digit_val c) with v;
         change (x * 10 + v) with (Zpos (Z.to_pos v))
     end;
     rewrite json_digits_uint by exact R;
     cbn [Pos.of_uint] in O; injection O as O; rewrite <- O; reflexivity).
Qed.

(** An integer, printed and read back. *)
Lemma scan_number_int (z : Z) (rest : string) :
  delimited rest = true ->
  scan_number (append (str_of_Z z) rest) = Some (VInt z, rest).
Proof.
  intro L. pose proof (delimited_no_digit _ L) as R.
  unfold str_of_Z. destruct z as [|p|p].
  - cbn. now apply scan_number_zero.
  - cbn [Z.to_int NilZero.string_of_int].
    pose proof (DecimalPos.Unsigned.to_uint_nonnil p) as NN.
    replace (NilZero.string_of_uint (Pos.to_uint p))
      with (NilEmpty.string_of_uint (Pos.to_uint p))
      by (destruct (Pos.to_uint p); [congruence|reflexivity ..]).
    destruct (json_digits_pos p rest R) as (c & t & n & E & D & NZ & J).
    rewrite E. exact (scan_number_nonneg _ _ _ _ _ D NZ J L).
  - cbn [Z.to_int NilZero.string_of_int].
    pose proof (DecimalPos.Unsigned.to_uint_nonnil p) as NN.
    replace (NilZero.string_of_uint (Pos.to_uint p))
      with (NilEmpty.string_of_uint (Pos.to_uint p))
      by (destruct (Pos.to_uint p); [congruence|reflexivity ..]).
    destruct (json_digits_pos p rest R) as (c & t & n & E & D & NZ & J).
    cbn [append]. rewrite E. exact (scan_number_neg _ _ _ _ _ D NZ J L).
Qed.

End NumberRoundTrip.

Section ValueRoundTrip.

Variable py_repr : pyval -> string.

(** Induction on a value and on the values inside it. *)
Lemma pyval_nested_ind (P : pyval -> Prop) :
  P VNone -> (forall b, P (VBool b)) -> (forall z, P (VInt z)) ->
  (forall f, P (VFloat f)) -> (forall s, P (VStr s)) -> (forall d, P (VDateTime d)) ->
  (forall l, Forall P l -> P (VList l)) ->
  (forall d, Forall (fun kv => P (snd kv)) d -> P (VDict d)) ->
  forall v, P v.
Proof.
  intros HN HB HI HF HS HD HL HDict.
  fix IH 1. intro v. destruct v as [|b|z|f|s|d|l|d].
  - exact HN.
  - apply HB.
  - apply HI.
  - apply HF.
  - apply HS.
  - apply HD.
  - apply HL.
    exact ((fix go (l : list pyval) : Forall P l :=
              match l with
              | [] => Forall_nil P
              | x :: r => Forall_cons x (IH x) (go r)
              end) l).
  - apply HDict.
    exact ((fix go (d : list (string * pyval)) : Forall (fun kv => P (snd kv)) d :=
              match d with
              | [] => Forall_nil _
              | kv :: r => Forall_cons kv (IH (snd kv)) (go r)
              end) d).
Qed.

Lemma scan_elements_step (scan : string -> option (pyval * string)) (n : nat) (s : string) :
  scan_elements scan (S n) s
  = match scan s with
    | None => None
    | Some (v, r) =>
        match skip_ws r with
        | EmptyString => None
        | String c r' =>
            if Ascii.eqb c "]" then Some ([v], r')
            else if Ascii.eqb c "," then
                   match scan_elements scan n (skip_ws r') with
                   | Some (vs, r2) => Some (v :: vs, r2)
                   | None => None
                   end
                 else None
        end
    end.
Proof.
  cbn [scan_elements]. destruct (scan s) as [[v r]|]; [|reflexivity].
  destruct (skip_ws r) as [|c r']; [reflexivity|].
  destruct c as [[] [] [] [] [] [] [] []]; reflexivity.
Qed.

Lemma scan_members_step (scan : string -> option (pyval * string)) (n : nat) (s1 : string) :
  scan_members scan (S n) (String "034" s1)
  = match scan_string (S (String.length s1)) s1 with
    | None => None
    | Some (k, r) =>
        match skip_ws r with
        | EmptyString => None
        | String c r1 =>
            if Ascii.eqb c ":" then
              match scan (skip_ws r1) with
              | None => None
              | Some (v, r2) =>
                  match skip_ws r2 with
                  | EmptyString => None
                  | String c2 r3 =>
                      if Ascii.eqb c2 "}" then Some ([(k, v)], r3)
                      else if Ascii.eqb c2 "," then
                             match scan_members scan n (skip_ws r3) with
                             | Some (kvs, r4) => Some ((k, v) :: kvs, r4)
                             | None => None
                             end
                           else None
                  end
              end
            else None
        end
    end.
Proof.
  cbn [scan_members].
  match goal with |- context [scan_string ?m s1] =>
    destruct (scan_string m s1) as [[k r]|]; [|reflexivity] end.
  destruct (skip_ws r) as [|c r1]; [reflexivity|].
  destruct c as [[] [] [] [] [] [] [] []]; try reflexivity.
  destruct (scan (skip_ws r1)) as [[v r2]|]; [|reflexivity].
  destruct (skip_ws r2) as [|c2 r3]; [reflexivity|].
  destruct c2 as [[] [] [] [] [] [] [] []]; reflexivity.
Qed.

Lemma scan_value_list_step (fuel : nat) (s' : string) :
  scan_value (S fuel) (String "[" s')
  = match skip_ws s' with
    | EmptyString =>
        match scan_elements (scan_value fuel) 1 EmptyString with
        | Some (vs, r) => Some (VList vs, r)
        | None => None
        end
    | String c r =>
        if Ascii.eqb c "]" then Some (VList [], r)
        else match scan_elements (scan_value fuel) (S (String.length (String c r)))
                     (String c r) with
             | Some (vs, r0) => Some (VList vs, r0)
             | None => None
             end
    end.
Proof.
  rewrite scan_value_list. destruct (skip_ws s') as [|c r]; [reflexivity|].
  destruct c as [[] [] [] [] [] [] [] []]; reflexivity.
Qed.

Lemma scan_value_dict_step (fuel : nat) (s' : string) :
  scan_value (S fuel) (String "{" s')
  = match skip_ws s' with
    | EmptyString =>
        match scan_members (scan_value fuel) 1 EmptyString with
        | Some (kvs, r) => Some (VDict (dict_of_pairs kvs), r)
        | None => None
        end
    | String c r =>
        if Ascii.eqb c "}" then Some (VDict [], r)
        else match scan_members (scan_value fuel) (S (String.length (String c r)))
                     (String c r) with
             | Some (kvs, r0) => Some (VDict (dict_of_pairs kvs), r0)
             | None => None
             end
    end.
Proof.
  rewrite scan_value_dict. destruct (skip_ws s') as [|c r]; [reflexivity|].
  destruct c as [[] [] [] [] [] [] [] []]; reflexivity.
Qed.

Lemma skip_ws_head (c : ascii) (t : string) :
  is_json_ws c = false -> skip_ws (String c t) = String c t.
Proof. intro H. cbn [skip_ws]. rewrite H. reflexivity. Qed.

Lemma str_of_Z_head (z : Z) :
  exists c t, str_of_Z z = String c t /\ (is_digit c = true \/ c = "-"%char).
Proof.
  unfold str_of_Z. destruct z as [|p|p]; cbn [Z.to_int NilZero.string_of_int].
  - eexists _, _. split; [reflexivity|]. left. reflexivity.
  - pose proof (to_uint_head p) as H.
    destruct (Pos.to_uint p); try destruct H;
      (eexists _, _; split; [reflexivity|]; left; reflexivity).
  - eexists _, _. split; [reflexivity|]. right. reflexivity.
Qed.

(** A number at the head of the input is what the number scanner
    reads. *)
Lemma scan_value_number (fuel : nat) (c : ascii) (t : string) (res : pyval * string) :
  is_digit c = true \/ c = "-"%char ->
  scan_number (String c t) = Some res ->
  scan_value (S fuel) (String c t) = Some res.
Proof.
  intros [D| ->] H.
  - destruct (is_digit_cases _ D) as [->|[->|[->|[->|[->|[->|[->|[->|[->| ->]]]]]]]]];
      match goal with
      | |- scan_value _ ?s = _ =>
          change (scan_value (S fuel) s)
            with (match scan_number s with Some r => Some r | None => None end)
      end; rewrite H; reflexivity.
  - change (scan_value (S fuel) (String "-" t))
      with (match scan_number (String "-" t) with
            | Some r => Some r
            | None =>
                match strip_prefix "Infinity" t with
                | Some r => Some (VFloat NInf, r)
                | None => None
                end
            end).
    rewrite H. reflexivity.
Qed.

(** What the encoder writes for a value starts with a character that is
    neither white space nor a closing bracket or brace. *)
Lemma json_dumps_head (v : pyval) (x : string) :
  json_plain v = true ->
  exists c t,
    append (json_dumps py_repr v) x = String c t /\
    is_json_ws c = false /\ Ascii.eqb c "]" = false /\ Ascii.eqb c "}" = false.
Proof.
  destruct v as [|[]|z|[q| | |]|s|d|l|d]; cbn [json_plain json_dumps]; intro H;
    try discriminate;
    try (eexists _, _; split; [reflexivity|]; repeat split; reflexivity).
  destruct (str_of_Z_head z) as (c & t & E & [D| ->]); rewrite E; cbn [append].
  - eexists _, _. split; [reflexivity|].
    destruct (is_digit_cases _ D) as [->|[->|[->|[->|[->|[->|[->|[->|[->| ->]]]]]]]]];
      repeat split; reflexivity.
  - eexists _, _. split; [reflexivity|]. repeat split; reflexivity.
Qed.

Lemma join_cons2 (sep a b : string) (m : list string) :
  join sep (a :: b :: m) = append a (append sep (join sep (b :: m))).
Proof. reflexivity. Qed.

Lemma join_head (sep a : string) (m : list string) :
  join sep (a :: m)
  = append a (match m with [] => EmptyString | _ => append sep (join sep m) end).
Proof. destruct m; [symmetry; apply str_append_nil_r|reflexivity]. Qed.

Lemma join_length_elem (sep x : string) (l : list string) :
  In x l -> (String.length x <= String.length (join sep l))%nat.
Proof.
  induction l as [|a l IH]; [intros []|]. intro I. rewrite join_head, length_append.
  destruct I as [->|I]; [lia|]. specialize (IH I).
  destruct l as [|b m]; [destruct I|]. rewrite length_append. lia.
Qed.

Lemma join_length_count (sep : string) (l : list string) :
  (forall x, In x l -> x <> EmptyString) ->
  (List.length l <= String.length (join sep l))%nat.
Proof.
  induction l as [|a l IH]; intro N; [apply Nat.le_0_l|].
  rewrite join_head, length_append.
  assert (La : (1 <= String.length a)%nat).
  { destruct a; [exfalso; apply (N EmptyString); [now left|reflexivity]|simpl; lia]. }
  assert (IH' : (List.length l <= String.length (join sep l))%nat)
    by (apply IH; intros x I; apply N; now right).
  destruct l as [|b m]; [simpl; lia|]. rewrite length_append. simpl List.length in *. lia.
Qed.

Lemma dict_set_fresh {V : Type} (k : string) (v : V) (d : list (string * V)) :
  existsb (String.eqb k) (map fst d) = false -> dict_set k v d = d ++ [(k, v)].
Proof.
  unfold dict_set. induction d as [|[k' v'] d IH]; simpl; [reflexivity|].
  intro H. apply orb_false_iff in H. destruct H as [E H].
  rewrite E. now rewrite IH.
Qed.

Lemma dict_of_pairs_distinct (d : list (string * pyval)) :
  distinct_keys (map fst d) = true -> dict_of_pairs d = d.
Proof.
  unfold dict_of_pairs.
  assert (G : forall acc,
             distinct_keys (map fst d) = true ->
             (forall k, In k (map fst d) -> existsb (String.eqb k) (map fst acc) = false) ->
             fold_left (fun a kv => dict_set (fst kv) (snd kv) a) d acc = acc ++ d).
  { induction d as [|[k v] d IH]; intros acc Dk Fr; simpl;
      [symmetry; apply List.app_nil_r|].
    simpl in Dk. apply andb_true_iff in Dk. destruct Dk as [Nk Dk].
    apply negb_true_iff in Nk.
    rewrite dict_set_fresh by (apply Fr; now left).
    rewrite IH; [now rewrite <- app_assoc|exact Dk|].
    intros k' I. rewrite map_app, existsb_app. simpl.
    rewrite (Fr k') by (now right). simpl. rewrite orb_false_r.
    destruct (String.eqb k' k) eqn:E; [|reflexivity].
    apply String.eqb_eq in E. subst k'.
    assert (X : existsb (String.eqb k) (map fst d) = true)
      by (apply existsb_exists; exists k; split; [exact I|apply String.eqb_refl]).
    congruence. }
  intro Dk. apply (G [] Dk). intros. reflexivity.
Qed.

Lemma json_dumps_nonempty (v : pyval) :
  json_plain v = true -> json_dumps py_repr v <> EmptyString.
Proof.
  intros PL E. destruct (json_dumps_head v EmptyString PL) as (c & t & H & _).
  rewrite E in H. discriminate.
Qed.

Lemma skip_ws_join (f : nat) (v : pyval) (l : list pyval) (x : string) :
  json_plain v = true ->
  exists c t,
    append (join "," (map (json_dumps py_repr) (v :: l))) x = String c t /\
    is_json_ws c = false /\ Ascii.eqb c "]" = false.
Proof.
  intro PL. cbn [map]. rewrite join_head, str_append_assoc.
  destruct (json_dumps_head v (append
              (match map (json_dumps py_repr) l with
               | [] => EmptyString
               | _ => append "," (join "," (map (json_dumps py_repr) l))
               end) x) PL) as (c & t & E & W & B & _).
  exists c, t. repeat split; assumption.
Qed.

Lemma scan_elements_dumps (f : nat) (l : list pyval) (rest : string) :
  Forall (decodes py_repr f) l -> l <> [] ->
  forall n, (List.length l <= n)%nat ->
    scan_elements (scan_value f) n
      (append (join "," (map (json_dumps py_repr) l)) (String "]" rest))
    = Some (l, rest).
Proof.
  induction l as [|v l IH]; [congruence|]. intros F _ n Ln.
  inversion F as [|? ? (PLv & Lv & Sv) Fl]; subst.
  destruct n as [|n]; [simpl in Ln; lia|]. rewrite scan_elements_step.
  destruct l as [|v2 l'].
  - cbn [map join]. rewrite Sv by reflexivity.
    change (skip_ws (String "]" rest)) with (String "]" rest). reflexivity.
  - cbn [map]. rewrite join_cons2, str_append_assoc.
    change (append (append "," (join "," (json_dumps py_repr v2 :: map (json_dumps py_repr) l')))
              (String "]" rest))
      with (String "," (append (join "," (map (json_dumps py_repr) (v2 :: l')))
                          (String "]" rest))).
    rewrite Sv by reflexivity.
    match goal with
    | |- context [skip_ws (String "," ?x)] =>
        change (skip_ws (String "," x)) with (String "," x)
    end.
    change (Ascii.eqb "," "]") with false. change (Ascii.eqb "," ",") with true. cbv iota.
    inversion Fl as [|? ? (PL2 & _) _]; subst.
    destruct (skip_ws_join f v2 l' (String "]" rest) PL2) as (c & t & E & W & _).
    assert (SW : skip_ws (append (join "," (map (json_dumps py_repr) (v2 :: l')))
                            (String "]" rest))
                 = append (join "," (map (json_dumps py_repr) (v2 :: l'))) (String "]" rest))
      by (rewrite E; now apply skip_ws_head).
    rewrite SW. rewrite IH; [reflexivity|exact Fl|discriminate|simpl in *; lia].
Qed.

Lemma member_text (k : string) (v : pyval) (x : string) :
  append (append (json_quote k) (append ":" (json_dumps py_repr v))) x
  = String "034" (append (json_escape k)
                    (String "034" (String ":" (append (json_dumps py_repr v) x)))).
Proof.
  unfold json_quote. cbn [append]. rewrite !str_append_assoc. reflexivity.
Qed.

Lemma scan_members_dumps (f : nat) (d : list (string * pyval)) (rest : string) :
  Forall (fun kv => decodes py_repr f (snd kv)) d -> d <> [] ->
  forall n, (List.length d <= n)%nat ->
    scan_members (scan_value f) n
      (append (join ","
                 (map (fun kv => append (json_quote (fst kv))
                                   (append ":" (json_dumps py_repr (snd kv)))) d))
         (String "}" rest))
    = Some (d, rest).
Proof.
  induction d as [|[k v] d IH]; [congruence|]. intros F _ n Ln.
  inversion F as [|? ? (PLv & Lv & Sv) Fl]; subst. cbn [snd] in *.
  destruct n as [|n]; [simpl in Ln; lia|].
  assert (KL : forall x, (String.length k
                          < S (String.length (append (json_escape k) x)))%nat).
  { intro x. rewrite length_append. pose proof (json_escape_length k). lia. }
  destruct d as [|[k2 v2] d'].
  - cbn [map join fst snd]. rewrite member_text, scan_members_step.
    rewrite scan_string_escape by apply KL.
    match goal with
    | |- context [skip_ws (String ":" ?x)] =>
        change (skip_ws (String ":" x)) with (String ":" x)
    end.
    change (Ascii.eqb ":" ":") with true. cbv iota.
    destruct (json_dumps_head v (String "}" rest) PLv) as (c & t & E & W & _).
    assert (SW : skip_ws (append (json_dumps py_repr v) (String "}" rest))
                 = append (json_dumps py_repr v) (String "}" rest))
      by (rewrite E; now apply skip_ws_head).
    rewrite SW, Sv by reflexivity.
    change (skip_ws (String "}" rest)) with (String "}" rest). reflexivity.
  - set (enc := fun kv : string * pyval =>
                  append (json_quote (fst kv)) (append ":" (json_dumps py_repr (snd kv)))) in *.
    change (map enc ((k, v) :: (k2, v2) :: d'))
      with (enc (k, v) :: enc (k2, v2) :: map enc d').
    rewrite join_cons2, str_append_assoc.
    change (enc (k2, v2) :: map enc d') with (map enc ((k2, v2) :: d')).
    change (append (append "," (join "," (map enc ((k2, v2) :: d')))) (String "}" rest))
      with (String "," (append (join "," (map enc ((k2, v2) :: d'))) (String "}" rest))).
    change (enc (k, v)) with (append (json_quote k) (append ":" (json_dumps py_repr v))).
    rewrite member_text, scan_members_step.
    rewrite scan_string_escape by apply KL.
    match goal with
    | |- context [skip_ws (String ":" ?x)] =>
        change (skip_ws (String ":" x)) with (String ":" x)
    end.
    change (Ascii.eqb ":" ":") with true. cbv iota.
    match goal with
    | |- context [skip_ws (append (json_dumps py_repr v) ?x)] =>
        destruct (json_dumps_head v x PLv) as (c & t & E & W & _);
        assert (SW : skip_ws (append (json_dumps py_repr v) x)
                     = append (json_dumps py_repr v) x)
          by (rewrite E; now apply skip_ws_head)
    end.
    rewrite SW, Sv by reflexivity.
    match goal with
    | |- context [skip_ws (String "," ?x)] =>
        change (skip_ws (String "," x)) with (String "," x)
    end.
    change (Ascii.eqb "," "}") with false. change (Ascii.eqb "," ",") with true. cbv iota.
    assert (SW2 : skip_ws (append (join "," (map enc ((k2, v2) :: d'))) (String "}" rest))
                  = append (join "," (map enc ((k2, v2) :: d'))) (String "}" rest)).
    { cbn [map]. rewrite join_head. unfold enc at 1. unfold json_quote.
      cbn [append fst]. reflexivity. }
    rewrite SW2. rewrite IH; [reflexivity|exact Fl|discriminate|simpl in *; lia].
Qed.

(** What the encoder writes for a plain value, followed by a delimiter,
    is decoded to the value, with any fuel that covers the text. *)
Lemma scan_value_dumps (v : pyval) :
  json_plain v = true ->
  forall fuel rest,
    (String.length (json_dumps py_repr v) <= fuel)%nat -> delimited rest = true ->
    scan_value fuel (append (json_dumps py_repr v) rest) = Some (v, rest).
Proof.
  induction v as [|b|z|fl|s|dt|l IH|d IH] using pyval_nested_ind;
    intros PL fuel rest LF DL.
  - destruct fuel as [|f]; [simpl in LF; lia|]. reflexivity.
  - destruct fuel as [|f]; [destruct b; simpl in LF; lia|]. destruct b; reflexivity.
  - destruct (str_of_Z_head z) as (c & t & E & Hc).
    pose proof (scan_number_int z rest DL) as N.
    cbn [json_dumps] in *. rewrite E in *. cbn [append] in *.
    destruct fuel as [|f]; [simpl in LF; lia|]. now apply scan_value_number.
  - destruct fl as [q| | |]; [discriminate| | |];
      (destruct fuel as [|f]; [simpl in LF; lia|]); reflexivity.
  - destruct fuel as [|f]; [unfold json_dumps, json_quote in LF; simpl in LF; lia|].
    cbn [json_dumps]. apply scan_value_quote.
  - discriminate.
  - cbn [json_plain] in PL. cbn [json_dumps] in *.
    destruct fuel as [|f]; [simpl in LF; lia|].
    destruct l as [|v1 l']; [reflexivity|].
    set (J := join "," (map (json_dumps py_repr) (v1 :: l'))) in *.
    assert (T : append (append "[" (append J "]")) rest
                = String "[" (append J (String "]" rest)))
      by (cbn [append]; rewrite str_append_assoc; reflexivity).
    rewrite T, scan_value_list_step.
    assert (PL1 : json_plain v1 = true)
      by (cbn [forallb] in PL; apply andb_true_iff in PL; tauto).
    destruct (skip_ws_join f v1 l' (String "]" rest) PL1) as (c & t & E & W & B).
    fold J in E. rewrite E, (skip_ws_head _ _ W), B. rewrite <- E.
    assert (LJ : (String.length J <= f)%nat).
    { cbn [append String.length] in LF. rewrite length_append in LF.
      simpl String.length in LF. lia. }
    unfold J. rewrite scan_elements_dumps; [reflexivity| |discriminate|].
    + rewrite Forall_forall in IH. apply Forall_forall. intros v I.
      assert (PLv : json_plain v = true)
        by (rewrite forallb_forall in PL; exact (PL v I)).
      assert (Lv : (String.length (json_dumps py_repr v) <= f)%nat).
      { pose proof (join_length_elem "," (json_dumps py_repr v)
                      (map (json_dumps py_repr) (v1 :: l')) (in_map _ _ _ I)) as X.
        fold J in X. lia. }
      repeat split; try assumption. intros r Dr. exact (IH v I PLv f r Lv Dr).
    + fold J. rewrite length_append.
      pose proof (join_length_count "," (map (json_dumps py_repr) (v1 :: l'))) as X.
      fold J in X. rewrite length_map in X.
      assert (Y : (List.length (v1 :: l') <= String.length J)%nat).
      { apply X. intros x Ix. apply in_map_iff in Ix. destruct Ix as (v & <- & I).
        apply json_dumps_nonempty. rewrite forallb_forall in PL. exact (PL v I). }
      lia.
  - cbn [json_plain] in PL. apply andb_true_iff in PL. destruct PL as [PL DK].
    cbn [json_dumps] in *.
    destruct fuel as [|f]; [simpl in LF; lia|].
    destruct d as [|[k1 v1] d']; [reflexivity|].
    set (enc := fun kv : string * pyval =>
                  append (json_quote (fst kv)) (append ":" (json_dumps py_repr (snd kv)))) in *.
    set (J := join "," (map enc ((k1, v1) :: d'))) in *.
    assert (T : append (append "{" (append J "}")) rest
                = String "{" (append J (String "}" rest)))
      by (cbn [append]; rewrite str_append_assoc; reflexivity).
    rewrite T, scan_value_dict_step.
    assert (E : exists t, append J (String "}" rest) = String "034" t).
    { unfold J. cbn [map]. rewrite join_head. unfold enc at 1. unfold json_quote.
      cbn [append fst]. eexists. reflexivity. }
    destruct E as [t E]. rewrite E.
    change (skip_ws (String "034" t)) with (String "034" t).
    change (Ascii.eqb "034" "}") with false. cbv iota. rewrite <- E.
    assert (LJ : (String.length J <= f)%nat).
    { cbn [append String.length] in LF. rewrite length_append in LF.
      simpl String.length in LF. lia. }
    unfold J, enc. rewrite scan_members_dumps;
      [rewrite (dict_of_pairs_distinct _ DK); reflexivity| |discriminate|].
    + rewrite Forall_forall in IH. apply Forall_forall. intros kv I.
      assert (PLv : json_plain (snd kv) = true)
        by (rewrite forallb_forall in PL; exact (PL kv I)).
      assert (Lv : (String.length (json_dumps py_repr (snd kv)) <= f)%nat).
      { pose proof (join_length_elem "," (enc kv) (map enc ((k1, v1) :: d'))
                      (in_map _ _ _ I)) as X.
        fold J in X. unfold enc in X at 1. rewrite !length_append in X. lia. }
      repeat split; try assumption. intros r Dr. exact (IH kv I PLv f r Lv Dr).
    + fold enc. fold J. rewrite length_append.
      pose proof (join_length_count "," (map enc ((k1, v1) :: d'))) as X.
      fold J in X. rewrite length_map in X.
      assert (Y : (List.length ((k1, v1) :: d') <= String.length J)%nat).
      { apply X. intros x Ix. apply in_map_iff in Ix. destruct Ix as (kv & <- & I).
        unfold enc, json_quote. discriminate. }
      lia.
Qed.

(** [json.loads(json.dumps(v))] is [v], for a plain value. *)
Lemma json_loads_dumps (v : pyval) :
  json_plain v = true -> json_loads (json_dumps py_repr v) = Ok v.
Proof.
  intro PL. unfold json_loads.
  destruct (json_dumps_head v EmptyString PL) as (c & t & E & W & _).
  rewrite str_append_nil_r in E.
  assert (SW : skip_ws (json_dumps py_repr v) = json_dumps py_repr v)
    by (rewrite E; now apply skip_ws_head).
  rewrite SW.
  pose proof (scan_value_dumps v PL (S (String.length (json_dumps py_repr v))) EmptyString
                (Nat.le_succ_diag_r _) eq_refl) as H.
  rewrite str_append_nil_r in H. rewrite H. reflexivity.
Qed.

End ValueRoundTrip.

Section TextSearch.

Lemma strip_prefix_spec (p : string) :
  forall s r, strip_prefix p s = Some r -> s = append p r.
Proof.
  induction p as [|a p IH]; intros s r H; simpl in H.
  - injection H as ->. reflexivity.
  - destruct s as [|b s]; [discriminate|].
    destruct (Ascii.eqb a b) eqn:E; [|discriminate].
    apply Ascii.eqb_eq in E. subst b. simpl. f_equal. exact (IH _ _ H).
Qed.

Lemma strip_prefix_app (p r : string) : strip_prefix p (append p r) = Some r.
Proof.
  induction p as [|a p IH]; simpl; [reflexivity|]. now rewrite Ascii.eqb_refl.
Qed.

(** A match of [find_sub] cuts the text at an occurrence of the needle. *)
Lemma find_sub_spec (needle : string) :
  forall hay before after,
    find_sub needle hay = Some (before, after) ->
    hay = append before (append needle after).
Proof.
  induction hay as [|c hay IH]; intros before after H; simpl in H.
  - destruct (strip_prefix needle EmptyString) as [r|] eqn:E; [|discriminate].
    injection H as <- <-. exact (strip_prefix_spec _ _ _ E).
  - destruct (strip_prefix needle (String c hay)) as [r|] eqn:E.
    + injection H as <- <-. exact (strip_prefix_spec _ _ _ E).
    + destruct (find_sub needle hay) as [[b a]|] eqn:F; [|discriminate].
      injection H as <- <-. simpl. f_equal. exact (IH _ _ eq_refl).
Qed.

(** The match depends on the text up to the end of the occurrence
    only. *)
Lemma strip_prefix_None_app (p : string) :
  forall u x y,
    (String.length p <= String.length u)%nat ->
    strip_prefix p (append u x) = None -> strip_prefix p (append u y) = None.
Proof.
  induction p as [|a p IH]; intros u x y L H; simpl in *; [discriminate|].
  destruct u as [|b u]; [simpl in L; lia|]. simpl in *.
  destruct (Ascii.eqb a b); [|reflexivity].
  apply (IH u x y); [lia|exact H].
Qed.

Lemma find_sub_first (needle : string) :
  forall hay before after,
    find_sub needle hay = Some (before, after) ->
    forall after',
      find_sub needle (append before (append needle after')) = Some (before, after').
Proof.
  induction hay as [|c hay IH]; intros before after H after'; simpl in H.
  - destruct (strip_prefix needle EmptyString) as [r|]; [|discriminate].
    injection H as <- <-. cbn [append].
    destruct (append needle after') eqn:E; simpl; rewrite <- E;
      rewrite strip_prefix_app; reflexivity.
  - destruct (strip_prefix needle (String c hay)) as [r|] eqn:E.
    + injection H as <- <-. cbn [append].
      destruct (append needle after') eqn:E'; simpl; rewrite <- E';
        rewrite strip_prefix_app; reflexivity.
    + destruct (find_sub needle hay) as [[b a]|] eqn:F; [|discriminate].
      injection H as <- <-. pose proof (find_sub_spec _ _ _ _ F) as S. subst hay.
      cbn [append find_sub].
      assert (N : strip_prefix needle
                    (String c (append b (append needle after'))) = None).
      { change (String c (append b (append needle after')))
          with (append (String c EmptyString) (append b (append needle after'))).
        rewrite <- !str_append_assoc.
        apply (strip_prefix_None_app needle _ a).
        - rewrite !length_append. simpl. lia.
        - rewrite !str_append_assoc. exact E. }
      rewrite N. rewrite (IH _ _ eq_refl after'). reflexivity.
Qed.

(** The first occurrence in a suffix. *)
Lemma find_sub_suffix (needle : string) (u : string) :
  forall v x y,
    find_sub needle (append u v) = Some (append u x, y) ->
    find_sub needle v = Some (x, y).
Proof.
  induction u as [|c u IH]; intros v x y H; [exact H|].
  cbn [append find_sub] in H.
  destruct (strip_prefix needle (String c (append u v))); [discriminate|].
  destruct (find_sub needle (append u v)) as [[b a]|] eqn:F; [|discriminate].
  injection H as -> ->. exact (IH _ _ _ F).
Qed.

Lemma lacks_app (c : ascii) (a b : string) :
  lacks c (append a b) = lacks c a && lacks c b.
Proof.
  induction a as [|x a IH]; simpl; [reflexivity|]. rewrite IH. now rewrite andb_assoc.
Qed.

(** A needle that holds a character is not found in a text that lacks
    it. *)
Lemma strip_prefix_lacks (c : ascii) (needle : string) :
  lacks c needle = false ->
  forall hay, lacks c hay = true -> strip_prefix needle hay = None.
Proof.
  induction needle as [|a n IH]; intros Ln hay Lh; simpl in *; [discriminate|].
  destruct hay as [|b hay]; [reflexivity|]. simpl in Lh.
  apply andb_true_iff in Lh. destruct Lh as [Hb Lh].
  destruct (Ascii.eqb a b) eqn:E; [|reflexivity].
  apply Ascii.eqb_eq in E. subst b. rewrite Hb in Ln. simpl in Ln.
  exact (IH Ln _ Lh).
Qed.

Lemma find_sub_lacks (c : ascii) (needle : string) :
  lacks c needle = false ->
  forall hay, lacks c hay = true -> find_sub needle hay = None.
Proof.
  intros Ln. induction hay as [|b hay IH]; intro Lh; simpl.
  - now rewrite (strip_prefix_lacks c needle Ln EmptyString).
  - rewrite (strip_prefix_lacks c needle Ln _ Lh). simpl in Lh.
    apply andb_true_iff in Lh. now rewrite (IH (proj2 Lh)).
Qed.

(** A character that the needle lacks separates the search: an
    occurrence lies before it or after it. *)
Lemma strip_prefix_sep (c : ascii) (needle : string) :
  lacks c needle = true ->
  forall a b,
    strip_prefix needle (append a (String c b))
    = match needle with
      | EmptyString => Some (append a (String c b))
      | _ =>
          match strip_prefix needle a with
          | Some r => Some (append r (String c b))
          | None => None
          end
      end.
Proof.
  induction needle as [|x n IH]; intros L a b; [reflexivity|].
  simpl in L. apply andb_true_iff in L. destruct L as [Hx L].
  apply negb_true_iff in Hx.
  destruct a as [|y a]; simpl.
  - now rewrite Hx.
  - destruct (Ascii.eqb x y); [|reflexivity].
    rewrite (IH L a b). destruct n; reflexivity.
Qed.

Lemma find_sub_sep (c : ascii) (needle : string) :
  lacks c needle = true -> needle <> EmptyString ->
  forall a b,
    find_sub needle (append a (String c b))
    = match find_sub needle a with
      | Some (x, y) => Some (x, append y (String c b))
      | None =>
          match find_sub needle b with
          | Some (x, y) => Some (append a (String c x), y)
          | None => None
          end
      end.
Proof.
  intros L N. induction a as [|y a IH]; intro b.
  - cbn [append find_sub].
    assert (H0 : strip_prefix needle EmptyString = None)
      by (destruct needle; [congruence|reflexivity]).
    rewrite H0.
    pose proof (strip_prefix_sep c needle L EmptyString b) as S. cbn [append] in S.
    rewrite S, H0. destruct needle; [congruence|].
    destruct (find_sub (String a needle) b) as [[x y0]|]; reflexivity.
  - cbn [append find_sub].
    pose proof (strip_prefix_sep c needle L (String y a) b) as S. cbn [append] in S.
    rewrite S. destruct needle as [|n0 needle]; [congruence|].
    destruct (strip_prefix (String n0 needle) (String y a)) as [r|]; [reflexivity|].
    rewrite IH. destruct (find_sub (String n0 needle) a) as [[x y0]|]; [reflexivity|].
    destruct (find_sub (String n0 needle) b) as [[x y0]|]; reflexivity.
Qed.

(** The end of the data block: the first [];] after a text without
    semicolon is the one that follows it. *)
Lemma find_block_end (x y : string) :
  lacks ";" x = true ->
  find_sub BLOCK_END (append x (append BLOCK_END y)) = Some (x, y).
Proof.
  induction x as [|c x IH]; intro L; [reflexivity|].
  simpl in L. apply andb_true_iff in L. destruct L as [Hc L].
  cbn [append find_sub]. rewrite (IH L).
  assert (N : strip_prefix BLOCK_END (String c (append x (append BLOCK_END y))) = None).
  { unfold BLOCK_END. cbn [strip_prefix].
    destruct (Ascii.eqb "]" c); [|reflexivity].
    destruct x as [|d x]; [reflexivity|]. cbn [append].
    simpl in L. apply andb_true_iff in L. destruct L as [Hd _].
    apply negb_true_iff in Hd. rewrite Ascii.eqb_sym, Hd. reflexivity. }
  rewrite N. reflexivity.
Qed.

Lemma until_lt_app (a : string) :
  forall old r x, until_lt a = Some (old, r) -> until_lt (append a x) = Some (old, append r x).
Proof.
  induction a as [|c a IH]; intros old r x H; simpl in H; [discriminate|].
  cbn [append until_lt]. destruct (Ascii.eqb c "<").
  - injection H as <- <-. reflexivity.
  - destruct (until_lt a) as [[o r0]|]; [|discriminate].
    injection H as <- <-. rewrite (IH _ _ x eq_refl). reflexivity.
Qed.

Lemma until_lt_sep (a b : string) :
  exists old r, until_lt (append a (String "<" b)) = Some (old, r) /\
                ((until_lt a = None /\ old = a /\ r = b) \/
                 exists r0, until_lt a = Some (old, r0) /\ r = append r0 (String "<" b)).
Proof.
  induction a as [|c a IH]; cbn [append until_lt].
  - exists EmptyString, b. split; [reflexivity|]. left. repeat split.
  - destruct (Ascii.eqb c "<").
    + eexists _, _. split; [reflexivity|]. right. eexists. split; reflexivity.
    + destruct IH as (old & r & E & [(N & -> & ->)|(r0 & S & ->)]); rewrite E.
      * eexists _, _. split; [reflexivity|]. left. rewrite N. repeat split.
      * eexists _, _. split; [reflexivity|]. right. rewrite S. eexists.
        split; reflexivity.
Qed.

Lemma until_lt_spec (a : string) :
  forall old r, until_lt a = Some (old, r) -> a = append old (String "<" r).
Proof.
  induction a as [|c a IH]; intros old r H; simpl in H; [discriminate|].
  destruct (Ascii.eqb c "<") eqn:E.
  - injection H as <- <-. apply Ascii.eqb_eq in E. subst c. reflexivity.
  - destruct (until_lt a) as [[o r0]|]; [|discriminate].
    injection H as <- <-. simpl. f_equal. exact (IH _ _ eq_refl).
Qed.

(** [find_sub] returns the first occurrence. *)
Lemma find_sub_min (needle : string) :
  forall hay b a b' a',
    find_sub needle hay = Some (b, a) ->
    hay = append b' (append needle a') ->
    (String.length b <= String.length b')%nat.
Proof.
  induction hay as [|c hay IH]; intros b a b' a' H E; simpl in H.
  - destruct (strip_prefix needle EmptyString); [|discriminate].
    injection H as <- <-. apply Nat.le_0_l.
  - destruct (strip_prefix needle (String c hay)) as [r|] eqn:P.
    + injection H as <- <-. apply Nat.le_0_l.
    + destruct (find_sub needle hay) as [[b0 a0]|] eqn:F; [|discriminate].
      injection H as <- <-. destruct b' as [|c' b'].
      * cbn [append] in E. rewrite E, strip_prefix_app in P. discriminate.
      * cbn [append] in E. injection E as -> E. simpl.
        apply le_n_S. exact (IH _ _ _ _ eq_refl E).
Qed.

(** When the first occurrence of a needle follows the text [pre], the
    first occurrence of [pre] and the needle together is there. *)
Lemma find_sub_with_prefix (needle pre : string) (u : string) :
  forall hay v,
    find_sub needle hay = Some (append u pre, v) ->
    find_sub (append pre needle) hay = Some (u, v).
Proof.
  induction u as [|c u IH]; intros hay v H.
  - pose proof (find_sub_spec _ _ _ _ H) as E. cbn [append] in E.
    assert (P : strip_prefix (append pre needle) hay = Some v)
      by (rewrite E, <- str_append_assoc; apply strip_prefix_app).
    destruct hay; simpl; rewrite P; reflexivity.
  - destruct hay as [|c' hay]; simpl in H.
    + destruct (strip_prefix needle EmptyString); [|discriminate]. discriminate.
    + destruct (strip_prefix needle (String c' hay)) as [r|] eqn:P; [discriminate|].
      destruct (find_sub needle hay) as [[b0 a0]|] eqn:F; [|discriminate].
      cbn [append] in H. injection H as -> -> ->.
      cbn [find_sub].
      destruct (strip_prefix (append pre needle) (String c hay)) as [r|] eqn:Q.
      * exfalso. pose proof (strip_prefix_spec _ _ _ Q) as E.
        rewrite str_append_assoc in E.
        assert (F' : find_sub needle (String c hay) = Some (String c (append u pre), v))
          by (simpl; rewrite P, F; reflexivity).
        pose proof (find_sub_min _ _ _ _ _ _ F' E) as L.
        simpl in L. rewrite length_append in L. lia.
      * rewrite (IH _ _ F). reflexivity.
Qed.

End TextSearch.

Section InertText.

Variable py_repr : pyval -> string.

Lemma template_literal_nil : template_literal EmptyString.
Proof. intro x. cbn [append]. destruct (expand_template x); reflexivity. Qed.

Lemma template_literal_app (a b : string) :
  template_literal a -> template_literal b -> template_literal (append a b).
Proof.
  intros A B x. rewrite str_append_assoc, A, B.
  destruct (expand_template x); [now rewrite str_append_assoc|reflexivity].
Qed.

Lemma template_literal_cons (c : ascii) (t : string) :
  Ascii.eqb c "\" = false -> template_literal t -> template_literal (String c t).
Proof.
  intros N T x. cbn [append expand_template]. rewrite N, T.
  destruct (expand_template x); reflexivity.
Qed.

Lemma template_literal_quote (t : string) :
  template_literal t -> template_literal (String "\" (String "034" t)).
Proof.
  intros T x.
  change (expand_template (append (String "\" (String "034" t)) x))
    with (match expand_template (append t x) with
          | Some r => Some (String "\" (String "034" r))
          | None => None
          end).
  rewrite T. destruct (expand_template x); reflexivity.
Qed.

Lemma inert_nil : inert EmptyString.
Proof. repeat split. apply template_literal_nil. Qed.

Lemma inert_app (a b : string) : inert a -> inert b -> inert (append a b).
Proof.
  intros (A1 & A2 & A3) (B1 & B2 & B3). repeat split.
  - now rewrite lacks_app, A1, B1.
  - now rewrite lacks_app, A2, B2.
  - now apply template_literal_app.
Qed.

Lemma inert_cons (c : ascii) (t : string) :
  Ascii.eqb c "\" = false -> Ascii.eqb c ";" = false -> Ascii.eqb c ">" = false ->
  inert t -> inert (String c t).
Proof.
  intros N1 N2 N3 (T1 & T2 & T3). repeat split.
  - cbn [lacks]. now rewrite N2, T1.
  - cbn [lacks]. now rewrite N3, T2.
  - now apply template_literal_cons.
Qed.

Ltac inert_literal :=
  repeat (apply inert_cons; [reflexivity|reflexivity|reflexivity|]); try apply inert_nil.

Lemma json_escape_safe_char (c : ascii) (s : string) :
  safe_char c = true ->
  json_escape (String c s)
  = if Ascii.eqb c "034" then String "\" (String "034" (json_escape s))
    else String c (json_escape s).
Proof.
  destruct c as [[] [] [] [] [] [] [] []]; intro H;
    first [reflexivity | exfalso; vm_compute in H; discriminate H].
Qed.

Lemma safe_char_spec (c : ascii) :
  safe_char c = true ->
  Ascii.eqb c "\" = false /\ Ascii.eqb c ";" = false /\ Ascii.eqb c ">" = false.
Proof.
  unfold safe_char. intro H.
  apply andb_true_iff in H. destruct H as [H H3].
  apply andb_true_iff in H. destruct H as [H H2].
  apply andb_true_iff in H. destruct H as [_ H1].
  apply negb_true_iff in H1, H2, H3. repeat split; assumption.
Qed.

Lemma inert_json_escape (s : string) : safe_text s = true -> inert (json_escape s).
Proof.
  induction s as [|c s IH]; intro H; [apply inert_nil|].
  simpl in H. apply andb_true_iff in H. destruct H as [Hc Hs].
  rewrite (json_escape_safe_char _ _ Hc). specialize (IH Hs).
  destruct (safe_char_spec _ Hc) as (N1 & N2 & N3).
  destruct (Ascii.eqb c "034").
  - destruct IH as (T1 & T2 & T3). repeat split.
    + cbn [lacks]. exact T1.
    + cbn [lacks]. exact T2.
    + now apply template_literal_quote.
  - now apply inert_cons.
Qed.

Lemma inert_json_quote (s : string) : safe_text s = true -> inert (json_quote s).
Proof.
  intro H. unfold json_quote. apply inert_cons; try reflexivity.
  apply inert_app; [now apply inert_json_escape|]. inert_literal.
Qed.

Lemma inert_uint (u : Decimal.uint) : inert (NilEmpty.string_of_uint u).
Proof.
  induction u; cbn [NilEmpty.string_of_uint];
    [apply inert_nil|apply inert_cons; [reflexivity|reflexivity|reflexivity|assumption] ..].
Qed.

Lemma inert_str_of_Z (z : Z) : inert (str_of_Z z).
Proof.
  unfold str_of_Z.
  assert (U : forall u, inert (NilZero.string_of_uint u)).
  { intro u. destruct u; try apply inert_uint. cbn. inert_literal. }
  destruct z as [|p|p]; cbn [Z.to_int NilZero.string_of_int]; try apply U.
  apply inert_cons; try reflexivity. apply U.
Qed.

Lemma inert_join (l : list string) :
  Forall inert l -> inert (join "," l).
Proof.
  induction 1 as [|a l A _ IH]; [apply inert_nil|].
  rewrite join_head. apply inert_app; [exact A|].
  destruct l; [apply inert_nil|].
  apply inert_app; [inert_literal|exact IH].
Qed.

Lemma doc_safe_plain (v : pyval) : doc_safe v = true -> json_plain v = true.
Proof.
  induction v as [|b|z|fl|s|dt|l IH|d IH] using pyval_nested_ind;
    cbn [doc_safe json_plain]; intro H; try reflexivity; try exact H.
  - apply forallb_forall. intros v I. rewrite Forall_forall in IH.
    rewrite forallb_forall in H. exact (IH v I (H v I)).
  - apply andb_true_iff in H. destruct H as [H K]. rewrite K, andb_true_r.
    apply forallb_forall. intros kv I. rewrite Forall_forall in IH.
    rewrite forallb_forall in H. specialize (H kv I).
    apply andb_true_iff in H. exact (IH kv I (proj2 H)).
Qed.

(** The text that the encoder writes for a safe value is inert. *)
Lemma inert_json_dumps (v : pyval) : doc_safe v = true -> inert (json_dumps py_repr v).
Proof.
  induction v as [|b|z|fl|s|dt|l IH|d IH] using pyval_nested_ind;
    cbn [doc_safe json_dumps]; intro H.
  - inert_literal.
  - destruct b; inert_literal.
  - apply inert_str_of_Z.
  - destruct fl; [discriminate|inert_literal ..].
  - now apply inert_json_quote.
  - discriminate.
  - apply inert_app; [inert_literal|]. apply inert_app; [|inert_literal].
    apply inert_join. apply Forall_forall. intros t I. apply in_map_iff in I.
    destruct I as (v & <- & I). rewrite Forall_forall in IH.
    rewrite forallb_forall in H. exact (IH v I (H v I)).
  - apply andb_true_iff in H. destruct H as [H _].
    apply inert_app; [inert_literal|]. apply inert_app; [|inert_literal].
    apply inert_join. apply Forall_forall. intros t I. apply in_map_iff in I.
    destruct I as (kv & <- & I). rewrite Forall_forall in IH.
    rewrite forallb_forall in H. specialize (H kv I).
    apply andb_true_iff in H. destruct H as [Hk Hv].
    apply inert_app; [now apply inert_json_quote|].
    apply inert_app; [inert_literal|exact (IH kv I Hv)].
Qed.

End InertText.

Section DataBlockRoundTrip.

Variable py_repr : pyval -> string.

Lemma doc_safe_serializable (v : pyval) : doc_safe v = true -> serializable v = true.
Proof.
  induction v as [|b|z|fl|s|dt|l IH|d IH] using pyval_nested_ind;
    cbn [doc_safe serializable]; intro H; try reflexivity; try discriminate.
  - apply forallb_forall. intros v I. rewrite Forall_forall in IH.
    rewrite forallb_forall in H. exact (IH v I (H v I)).
  - apply andb_true_iff in H. destruct H as [H _].
    apply forallb_forall. intros kv I. rewrite Forall_forall in IH.
    rewrite forallb_forall in H. specialize (H kv I).
    apply andb_true_iff in H. exact (IH kv I (proj2 H)).
Qed.

(** The writer replaces the block that the reader finds, when the
    declaration that the reader finds first is indented as the writer
    expects it. *)
Lemma sub_all_records_block (content head after old tail json : string) :
  find_sub SEARCH_MARKER content = Some (append head "    ", after) ->
  find_sub BLOCK_END after = Some (old, tail) ->
  template_literal json ->
  sub_all_records (append Phase2.ALL_RECORDS_DECL (append json ";")) content
  = Ok (append head (append Phase2.ALL_RECORDS_DECL (append json (append ";" tail)))).
Proof.
  intros F B T. unfold sub_all_records.
  assert (L : template_literal (append Phase2.ALL_RECORDS_DECL (append json ";"))).
  { apply template_literal_app; [|apply template_literal_app; [exact T|]];
      repeat (apply template_literal_cons; [reflexivity|]); apply template_literal_nil. }
  specialize (L EmptyString). rewrite str_append_nil_r in L. rewrite L.
  cbn [expand_template]. rewrite str_append_nil_r.
  change SUB_MARKER with (append "    " SEARCH_MARKER).
  rewrite (find_sub_with_prefix _ _ _ _ _ F), B.
  now rewrite !str_append_assoc.
Qed.

(** The reader finds the block that the writer has put in its place. *)
Lemma search_all_records_written (content head after body tail : string) :
  find_sub SEARCH_MARKER content = Some (append head "    ", after) ->
  lacks ";" body = true ->
  search_all_records
    (append head (append Phase2.ALL_RECORDS_DECL
                    (append (String "[" (append body "]")) (append ";" tail))))
  = Some (String "[" (append body "]")).
Proof.
  intros F L. unfold search_all_records.
  pose proof (find_sub_first _ _ _ _ F (append body (append BLOCK_END tail))) as F1.
  replace (append head (append Phase2.ALL_RECORDS_DECL
             (append (String "[" (append body "]")) (append ";" tail))))
    with (append (append head "    ")
            (append SEARCH_MARKER (append body (append BLOCK_END tail)))).
  - rewrite F1, (find_block_end _ _ L). reflexivity.
  - rewrite !str_append_assoc. cbn [append Phase2.ALL_RECORDS_DECL SEARCH_MARKER BLOCK_END].
    rewrite !str_append_assoc. reflexivity.
Qed.

Lemma inert_records (l : list pyval) :
  forallb doc_safe l = true ->
  inert (json_dumps py_repr (VList l)) /\
  lacks ";" (join "," (map (json_dumps py_repr) l)) = true /\
  lacks ">" (join "," (map (json_dumps py_repr) l)) = true.
Proof.
  intro H. pose proof (inert_json_dumps py_repr (VList l) H) as I.
  split; [exact I|]. destruct I as (I1 & I2 & _).
  change (json_dumps py_repr (VList l))
    with (append "[" (append (join "," (map (json_dumps py_repr) l)) "]")) in I1, I2.
  rewrite !lacks_app in I1, I2.
  apply andb_true_iff in I1, I2. destruct I1 as [_ I1], I2 as [_ I2].
  apply andb_true_iff in I1, I2. destruct I1 as [I1 _], I2 as [I2 _].
  split; assumption.
Qed.

Lemma phase2_inject_then_load (all_records filtered : list pyval) (fields : list string)
  (w : world) (content head after old tail : string) :
  index_html w = Some content ->
  find_sub SEARCH_MARKER content = Some (append head "    ", after) ->
  find_sub BLOCK_END after = Some (old, tail) ->
  Phase2.filter_fields fields all_records = Ok filtered ->
  forallb doc_safe filtered = true ->
  let content' :=
    append head (append Phase2.ALL_RECORDS_DECL
                   (append (json_dumps py_repr (VList filtered)) (append ";" tail))) in
  Phase2.inject_into_html py_repr all_records fields w = (Ok tt, set_index_html content' w) /\
  Phase2.load_existing_records (set_index_html content' w) = Ok (VList filtered, content').
Proof.
  intros HI F B FF S content'.
  destruct (inert_records _ S) as (I & L & _).
  split.
  - unfold Phase2.inject_into_html. rewrite HI, FF.
    rewrite (doc_safe_serializable (VList filtered) S).
    cbv zeta. rewrite (sub_all_records_block _ _ _ _ _ _ F B (proj2 (proj2 I))).
    reflexivity.
  - unfold Phase2.load_existing_records. cbn [index_html set_index_html].
    unfold content'.
    change (json_dumps py_repr (VList filtered))
      with (String "[" (append (join "," (map (json_dumps py_repr) filtered)) "]")).
    rewrite (search_all_records_written _ _ _ _ tail F L).
    change (String "[" (append (join "," (map (json_dumps py_repr) filtered)) "]"))
      with (json_dumps py_repr (VList filtered)).
    rewrite (json_loads_dumps py_repr (VList filtered)
               (doc_safe_plain (VList filtered) S)).
    reflexivity.
Qed.

End DataBlockRoundTrip.

Section DateStep.

Lemma after_last_lt_spec (s : string) :
  (lacks "<" s = true /\ after_last_lt s = s) \/
  exists h, s = append h (String "<" (after_last_lt s)).
Proof.
  induction s as [|c s IH]; [left; split; reflexivity|].
  cbn [after_last_lt]. destruct (lacks "<" s) eqn:L.
  - destruct (Ascii.eqb c "<") eqn:E.
    + right. exists EmptyString. apply Ascii.eqb_eq in E. subst c. reflexivity.
    + left. cbn [lacks]. rewrite E, L. split; reflexivity.
  - destruct IH as [[L' _]|[h H]]; [congruence|].
    right. exists (String c h). cbn [append]. now rewrite <- H.
Qed.

Lemma first_at_found (needle content p after : string) :
  find_sub needle content = Some (p, after) -> first_at needle p.
Proof.
  intro F. pose proof (find_sub_first _ _ _ _ F EmptyString) as H.
  unfold first_at. now rewrite str_append_nil_r in H.
Qed.

Lemma first_at_rest (needle p rest : string) :
  first_at needle p -> find_sub needle (append p (append needle rest)) = Some (p, rest).
Proof.
  intro F. pose proof (find_sub_first _ _ _ _ F rest) as H.
  unfold first_at in F. exact H.
Qed.

Lemma first_at_suffix (needle u v : string) :
  first_at needle (append u v) -> first_at needle v.
Proof.
  unfold first_at. intro F. rewrite str_append_assoc in F.
  exact (find_sub_suffix _ _ _ _ _ F).
Qed.

Lemma first_at_before (needle u v : string) (c : ascii) :
  lacks c needle = true -> needle <> EmptyString ->
  first_at needle (append u (String c v)) -> find_sub needle u = None.
Proof.
  intros L N F. unfold first_at in F.
  rewrite str_append_assoc in F. cbn [append] in F.
  rewrite (find_sub_sep _ _ L N) in F.
  destruct (find_sub needle u) as [[x y]|] eqn:E; [|reflexivity].
  exfalso. apply find_sub_spec in E. inversion F as [[H1 H2]].
  apply (f_equal String.length) in E, H1.
  rewrite !length_append in *. cbn [String.length] in *. lia.
Qed.

Lemma first_at_sep (needle u v : string) (c : ascii) :
  lacks c needle = true -> needle <> EmptyString ->
  find_sub needle u = None -> first_at needle v ->
  first_at needle (append u (String c v)).
Proof.
  intros L N E F. unfold first_at in *.
  rewrite str_append_assoc. cbn [append].
  rewrite (find_sub_sep _ _ L N), E, F. reflexivity.
Qed.

(** The display-date marker without its last character. *)
Lemma DATE_MARKER_split :
  DATE_MARKER = append (append "id=" (String "034" (append "lastUpdateDate" (String "034" "")))) ">".
Proof. reflexivity. Qed.

Lemma first_at_wrap (needle b z v : string) :
  lacks ">" needle = true -> needle <> EmptyString ->
  first_at needle (append b (append DATE_MARKER z)) -> first_at needle v ->
  first_at needle (append b (append DATE_MARKER v)).
Proof.
  intros L N F V.
  assert (E : forall x, append b (append DATE_MARKER x)
                        = append (append b (append "id=" (String "034" (append "lastUpdateDate" (String "034" "")))))
                            (String ">" x)).
  { intro x. rewrite DATE_MARKER_split, !str_append_assoc. reflexivity. }
  rewrite E in *.
  apply (first_at_sep _ _ _ _ L N); [|exact V].
  exact (first_at_before _ _ _ _ L N F).
Qed.

Definition closed_text (head : string) : Prop :=
  find_sub DATE_MARKER head = None \/
  exists h0 h1, head = append h0 (String "<" h1) /\ find_sub DATE_MARKER h1 = None.

Lemma date_closed_text (head : string) : date_closed head = true -> closed_text head.
Proof.
  unfold date_closed, closed_text. intro H.
  destruct (find_sub DATE_MARKER (after_last_lt head)) eqn:E; [discriminate|].
  destruct (after_last_lt_spec head) as [[_ A]|[h A]].
  - left. now rewrite <- A.
  - right. exists h, (after_last_lt head). split; assumption.
Qed.

(** The first marker of a closed text, and the text that follows it up
    to the next less-than sign. *)
Lemma closed_text_cases (head : string) :
  closed_text head ->
  find_sub DATE_MARKER head = None \/
  exists b a old ra,
    find_sub DATE_MARKER head = Some (b, a) /\
    until_lt a = Some (old, ra) /\
    closed_text a /\ closed_text ra.
Proof.
  intros [H|(h0 & h1 & -> & H1)]; [now left|].
  rewrite (find_sub_sep "<" DATE_MARKER eq_refl) by discriminate.
  destruct (find_sub DATE_MARKER h0) as [[b y]|] eqn:E.
  - right. destruct (until_lt_sep y h1) as (old & r & U & C).
    exists b, (append y (String "<" h1)), old, r.
    split; [reflexivity|]. split; [exact U|]. split.
    + right. exists y, h1. split; [reflexivity|exact H1].
    + destruct C as [(_ & _ & ->)|(r0 & _ & ->)].
      * now left.
      * right. exists r0, h1. split; [reflexivity|exact H1].
  - left. now rewrite H1.
Qed.

(** The display-date step leaves the data block where it is: it
    rewrites the text before the block and the text after it, and no
    declaration appears before the block that was not there. *)
Lemma sub_last_update_frame (d B1 tail p : string) :
  find_sub SEARCH_MARKER d = None ->
  lacks ">" B1 = true ->
  forall n head,
    closed_text head ->
    exists head' tail',
      sub_last_update n d (append head (String " " (append B1 (String ";" tail))))
      = append head' (String " " (append B1 (String ";" tail'))) /\
      (first_at SEARCH_MARKER (append head p) -> first_at SEARCH_MARKER (append head' p)).
Proof.
  intros D LB. induction n as [|n IH]; intros head C.
  { exists head, tail. split; [reflexivity|trivial]. }
  cbn [sub_last_update].
  rewrite (find_sub_sep " " DATE_MARKER eq_refl) by discriminate.
  destruct (closed_text_cases head C) as [E|(b & a & old & ra & E & U & Ca & Cra)];
    rewrite E.
  - rewrite (find_sub_sep ";" DATE_MARKER eq_refl) by discriminate.
    rewrite (find_sub_lacks ">" DATE_MARKER eq_refl B1 LB).
    destruct (find_sub DATE_MARKER tail) as [[x y]|].
    + destruct (until_lt y) as [[[|c o] r]|].
      * eexists head, _. split; [|trivial].
        rewrite !str_append_assoc. cbn [append]. rewrite !str_append_assoc.
        cbn [append]. reflexivity.
      * eexists head, _. split; [|trivial].
        rewrite !str_append_assoc. cbn [append]. rewrite !str_append_assoc.
        cbn [append]. reflexivity.
      * eexists head, _. split; [|trivial].
        rewrite !str_append_assoc. cbn [append]. rewrite !str_append_assoc.
        cbn [append]. reflexivity.
    + exists head, tail. split; [reflexivity|trivial].
  - pose proof (find_sub_spec _ _ _ _ E) as Hh.
    pose proof (until_lt_spec _ _ _ U) as Ha.
    rewrite (until_lt_app _ _ _ (String " " (append B1 (String ";" tail))) U).
    destruct old as [|c o].
    + destruct (IH a Ca) as (a' & tail' & R & P).
      rewrite R. exists (append b (append DATE_MARKER a')), tail'. split.
      * now rewrite !str_append_assoc.
      * intro F. rewrite Hh in F. rewrite !str_append_assoc in *.
        apply (first_at_wrap SEARCH_MARKER _ _ _ eq_refl ltac:(discriminate) F).
        apply P. apply (first_at_suffix _ (append b DATE_MARKER)).
        rewrite !str_append_assoc. exact F.
    + destruct (IH ra Cra) as (r' & tail' & R & P).
      rewrite R.
      exists (append b (append DATE_MARKER (append d (String "<" r')))), tail'. split.
      * rewrite !str_append_assoc. cbn [append]. reflexivity.
      * intro F. rewrite Hh, Ha in F. rewrite !str_append_assoc in *.
        apply (first_at_wrap SEARCH_MARKER _ _ _ eq_refl ltac:(discriminate) F).
        cbn [append].
        apply (first_at_sep SEARCH_MARKER _ _ "<" eq_refl ltac:(discriminate) D).
        apply P. cbn [append] in F.
        replace (append b (append DATE_MARKER (String c (append o (String "<" (append ra p))))))
          with (append (append b (append DATE_MARKER (String c (append o "<")))) (append ra p)) in F.
        -- exact (first_at_suffix _ _ _ F).
        -- rewrite !str_append_assoc. cbn [append]. rewrite !str_append_assoc. reflexivity.
Qed.

End DateStep.

Section DocumentRoundTrip.

Variable py_repr : pyval -> string.

Lemma lacks_uint (c : ascii) (u : Decimal.uint) :
  is_digit c = false -> lacks c (NilEmpty.string_of_uint u) = true.
Proof.
  intro N. induction u; cbn [NilEmpty.string_of_uint lacks]; try reflexivity;
    rewrite IHu, andb_true_r; apply negb_true_iff;
    match goal with |- ?e = false => destruct e eqn:E end; try reflexivity;
    apply Ascii.eqb_eq in E; subst c; discriminate N.
Qed.

Lemma lacks_str_of_Z (c : ascii) (z : Z) :
  is_digit c = false -> Ascii.eqb "-" c = false -> lacks c (str_of_Z z) = true.
Proof.
  intros N M. unfold str_of_Z.
  assert (U : forall u, lacks c (NilZero.string_of_uint u) = true).
  { intro u. destruct u; try apply (lacks_uint c _ N).
    cbn [NilZero.string_of_uint lacks]. rewrite andb_true_r. apply negb_true_iff.
    match goal with |- ?e = false => destruct e eqn:E end; try reflexivity.
    apply Ascii.eqb_eq in E. subst c. discriminate N. }
  destruct z as [|q|q]; cbn [Z.to_int NilZero.string_of_int]; try apply U.
  cbn [lacks]. now rewrite M, U.
Qed.

(** The display date has no declaration of the data block in it. *)
Lemma date_display_no_marker (ymd : Z * Z * Z) :
  find_sub SEARCH_MARKER (date_display ymd) = None.
Proof.
  apply (find_sub_lacks "c" SEARCH_MARKER eq_refl).
  destruct ymd as [[y m] d]. unfold date_display.
  rewrite !lacks_app, !lacks_str_of_Z by reflexivity. reflexivity.
Qed.

Lemma search_all_records_at (head body tail : string) :
  first_at SEARCH_MARKER (append head "    ") ->
  lacks ";" body = true ->
  search_all_records
    (append head (String " " (append (append "   const ALL_RECORDS = [" (append body "]"))
                               (String ";" tail))))
  = Some (String "[" (append body "]")).
Proof.
  intros F L. unfold search_all_records.
  replace (append head (String " " (append (append "   const ALL_RECORDS = [" (append body "]"))
                               (String ";" tail))))
    with (append (append head "    ")
            (append SEARCH_MARKER (append body (append BLOCK_END tail)))).
  - rewrite (first_at_rest _ _ _ F), (find_block_end _ _ L). reflexivity.
  - rewrite !str_append_assoc. cbn [append SEARCH_MARKER BLOCK_END].
    rewrite ?str_append_assoc. reflexivity.
Qed.

(** The display-date step on a document that the writer has made: the
    reader finds the same block after it. *)
Lemma date_step_keeps_block (content head after body tail : string)
  (n : nat) (ymd : Z * Z * Z) :
  find_sub SEARCH_MARKER content = Some (append head "    ", after) ->
  date_closed head = true ->
  lacks ";" body = true -> lacks ">" body = true ->
  search_all_records
    (sub_last_update n (date_display ymd)
       (append head (append Phase2.ALL_RECORDS_DECL
                       (append (String "[" (append body "]")) (append ";" tail)))))
  = Some (String "[" (append body "]")).
Proof.
  intros F C L1 L2.
  destruct (sub_last_update_frame (date_display ymd)
              (append "   const ALL_RECORDS = [" (append body "]")) tail "    "
              (date_display_no_marker ymd)) with (n := n) (head := head)
    as (head' & tail' & R & P).
  - rewrite !lacks_app, L2. reflexivity.
  - apply date_closed_text, C.
  - replace (append head (append Phase2.ALL_RECORDS_DECL
                       (append (String "[" (append body "]")) (append ";" tail))))
      with (append head (String " " (append (append "   const ALL_RECORDS = [" (append body "]"))
                               (String ";" tail)))).
    + rewrite R. apply search_all_records_at; [|exact L1].
      apply P. exact (first_at_found _ _ _ _ F).
    + cbn [append Phase2.ALL_RECORDS_DECL]. rewrite ?str_append_assoc. reflexivity.
Qed.

Lemma phase3_inject_holds (all_records : list pyval) (w w' : world)
  (content head after old tail : string) :
  index_html w = Some content ->
  find_sub SEARCH_MARKER content = Some (append head "    ", after) ->
  find_sub BLOCK_END after = Some (old, tail) ->
  date_closed head = true ->
  forallb doc_safe all_records = true ->
  Phase3.inject_into_html py_repr all_records w = (Ok tt, w') ->
  document_holds w' all_records.
Proof.
  intros HI F B C S. destruct (inert_records py_repr _ S) as (I & L1 & L2).
  pose proof (json_loads_dumps py_repr (VList all_records)
                (doc_safe_plain (VList all_records) S)) as J.
  unfold Phase3.inject_into_html. rewrite HI.
  rewrite (doc_safe_serializable (VList all_records) S). cbv zeta.
  change Phase3.ALL_RECORDS_DECL with Phase2.ALL_RECORDS_DECL.
  rewrite (sub_all_records_block _ _ _ _ _ _ F B (proj2 (proj2 I))). cbn [bind].
  change (json_dumps py_repr (VList all_records))
    with (String "[" (append (join "," (map (json_dumps py_repr) all_records)) "]")) in *.
  destruct (dates_of all_records) as [[|d0 ds]|e]; cbn [bind]; [| |discriminate].
  - intro H. inversion H; subst. eexists _, _.
    split; [reflexivity|]. split; [|exact J].
    exact (search_all_records_written _ _ _ _ tail F L1).
  - destruct (max_date_of (d0 :: ds)) as [ymd|e]; cbn [bind]; [|discriminate].
    intro H. inversion H; subst. eexists _, _.
    split; [reflexivity|]. split; [|exact J].
    exact (date_step_keeps_block _ _ _ _ tail _ ymd F C L1 L2).
Qed.

End DocumentRoundTrip.

Section WrittenDocument.

Variable py_repr : pyval -> string.

Lemma block_ready_spec (content : string) :
  block_ready content = true ->
  exists head after old tail,
    find_sub SEARCH_MARKER content = Some (append head "    ", after) /\
    find_sub BLOCK_END after = Some (old, tail) /\
    date_closed head = true.
Proof.
  unfold block_ready.
  destruct (find_sub SUB_MARKER content) as [[head after]|] eqn:W; [|discriminate].
  destruct (find_sub SEARCH_MARKER content) as [[before after']|] eqn:R; [|discriminate].
  intro H. apply andb_true_iff in H. destruct H as [H B].
  apply andb_true_iff in H. destruct H as [E C].
  apply String.eqb_eq in E. subst before.
  destruct (find_sub BLOCK_END after) as [[old tail]|] eqn:EB; [|discriminate].
  pose proof (find_sub_with_prefix SEARCH_MARKER "    " head content after' R) as W'.
  change (append "    " SEARCH_MARKER) with SUB_MARKER in W'.
  rewrite W in W'. inversion W'; subst after'.
  exists head, after, old, tail. repeat split; assumption.
Qed.

Lemma block_ready_holds (w : world) (content : string) (records : pyval) (c : string) :
  index_html w = Some content ->
  block_ready content = true ->
  Phase3.load_existing_records w = Ok (records, c) ->
  exists block,
    search_all_records content = Some block /\ json_loads block = Ok records.
Proof.
  intros HI R. destruct (block_ready_spec _ R) as (head & after & old & tail & F & B & _).
  unfold Phase3.load_existing_records. rewrite HI.
  unfold search_all_records. rewrite F, B.
  destruct (json_loads _) as [v|e] eqn:J; cbn [bind]; [|discriminate].
  intro H. inversion H; subst. eexists. split; [reflexivity|exact J].
Qed.

Lemma phase3_fetch_index (remote : list Z -> bq_outcome) (ids : list Z) (w : world) :
  index_html (snd (Phase3.fetch_segments_from_bq py_repr remote ids w)) = index_html w.
Proof.
  destruct (phase3_fetch_world py_repr remote ids w) as [[_ ->]|[_ [->|[c ->]]]];
    reflexivity.
Qed.

(** What a successful run of the database path has done to the
    document: nothing, when it found no new row, or one call of the
    writer with the accepted set. *)
Lemma phase3_main_written (remote : list Z -> bq_outcome) (db_records : list Phase3.db_row)
  (w w1 : world) (accepted : list pyval) :
  Phase3.main py_repr remote (Some db_records) w = (Ok accepted, w1) ->
  (w1 = w /\ exists c, Phase3.load_existing_records w = Ok (VList accepted, c)) \/
  (exists w', index_html w' = index_html w /\
              Phase3.inject_into_html py_repr accepted w' = (Ok tt, w1)).
Proof.
  unfold Phase3.main. destruct db_records as [|r0 db']; [discriminate|].
  destruct (Phase3.load_existing_records w) as [[recs content]|]; [|discriminate].
  destruct recs as [| | | | | |existing|]; try discriminate.
  destruct (id_set _ existing []) as [ids1|]; [|discriminate].
  destruct (Phase3.new_rows_of (r0 :: db') ids1) as [|n ns].
  - intro H. inversion H; subst. left. split; [reflexivity|]. now exists content.
  - destruct (Phase3.corp_ids_of (n :: ns) []) as [corp_ids|]; [|discriminate].
    pose proof (phase3_fetch_index remote corp_ids w) as FI.
    destruct (Phase3.fetch_segments_from_bq py_repr remote corp_ids w) as [[seg_map|] w'];
      [|discriminate].
    destruct (Phase3.convert_all (n :: ns) seg_map) as [converted|]; [|discriminate].
    destruct (Phase3.inject_into_html py_repr (existing ++ converted) w') as [[[]|] w2] eqn:EJ;
      [|discriminate].
    intro H. inversion H; subst. right. exists w'. split; [exact FI|exact EJ].
Qed.

Lemma phase3_main_holds (remote : list Z -> bq_outcome) (db_records : list Phase3.db_row)
  (w w1 : world) (accepted : list pyval) (content : string) :
  index_html w = Some content ->
  block_ready content = true ->
  Phase3.main py_repr remote (Some db_records) w = (Ok accepted, w1) ->
  forallb doc_safe accepted = true ->
  document_holds w1 accepted.
Proof.
  intros HI R M S.
  destruct (phase3_main_written _ _ _ _ _ M) as [[-> [c L]]|(w' & FI & EJ)].
  - destruct (block_ready_holds _ _ _ _ HI R L) as (block & HS & HJ).
    exists content, block. repeat split; assumption.
  - destruct (block_ready_spec _ R) as (head & after & old & tail & F & B & C).
    rewrite HI in FI.
    exact (phase3_inject_holds py_repr _ _ _ _ _ _ _ _ FI F B C S EJ).
Qed.

End WrittenDocument.

(** The writer of the database path and its reader.  On a document
    whose data block is ready, when the texts of the records are safe
    (no control character, backslash, semicolon or greater-than sign)
    and no record holds a float or a date value, [inject_into_html]
    that succeeds leaves a document from which [load_existing_records]
    reads the records that were written, whatever the display-date step
    has changed. *)
Theorem phase3_written_is_read (py_repr : pyval -> string)
  (all_records : list pyval) (w w' : world) (content : string) :
  index_html w = Some content ->
  block_ready content = true ->
  forallb doc_safe all_records = true ->
  Phase3.inject_into_html py_repr all_records w = (Ok tt, w') ->
  exists content',
    index_html w' = Some content' /\
    Phase3.load_existing_records w' = Ok (VList all_records, content').
Proof.
  intros HI R S EJ.
  destruct (block_ready_spec _ R) as (head & after & old & tail & F & B & C).
  destruct (phase3_inject_holds py_repr _ _ _ _ _ _ _ _ HI F B C S EJ)
    as (content' & block & HI' & HS & HJ).
  exists content'. split; [exact HI'|].
  unfold Phase3.load_existing_records. rewrite HI', HS, HJ. reflexivity.
Qed.

Lemma phase3_written_is_read_witness :
  exists content',
    index_html (snd (Phase3.inject_into_html repr_unused [plain_A1; enriched_B2] sample_start))
    = Some content' /\
    Phase3.load_existing_records
      (snd (Phase3.inject_into_html repr_unused [plain_A1; enriched_B2] sample_start))
    = Ok (VList [plain_A1; enriched_B2], content').
Proof.
  apply (phase3_written_is_read repr_unused [plain_A1; enriched_B2] sample_start _
           sample_document);
    [reflexivity|vm_compute; reflexivity|vm_compute; reflexivity|vm_compute; reflexivity].
Defined.

(** The database path run twice.  On a document whose data block is
    ready, when the run succeeds and the texts of the accepted set are
    safe, a second run over the same rows returns the same accepted
    set, starts no remote query and leaves every file as it is. *)
Theorem phase3_main_idempotent (py_repr : pyval -> string)
  (remote remote' : list Z -> bq_outcome) (db_records : list Phase3.db_row)
  (w w1 : world) (accepted : list pyval) (content : string) :
  index_html w = Some content ->
  block_ready content = true ->
  Phase3.main py_repr remote (Some db_records) w = (Ok accepted, w1) ->
  forallb doc_safe accepted = true ->
  Phase3.main py_repr remote' (Some db_records) w1 = (Ok accepted, w1).
Proof.
  intros HI R M S.
  exact (phase3_main_second_run py_repr remote remote' _ _ _ _ _ M
           (phase3_main_holds py_repr _ _ _ _ _ _ HI R M S)).
Qed.

Lemma phase3_main_idempotent_witness :
  Phase3.main repr_unused no_bq (Some sample_db)
    (snd (Phase3.main repr_unused no_bq (Some sample_db) sample_start_db))
  = (fst (Phase3.main repr_unused no_bq (Some sample_db) sample_start_db),
     snd (Phase3.main repr_unused no_bq (Some sample_db) sample_start_db)).
Proof.
  destruct (Phase3.main repr_unused no_bq (Some sample_db) sample_start_db)
    as [[accepted|e] w1] eqn:M; [|vm_compute in M; discriminate M].
  cbn [fst snd].
  apply (phase3_main_idempotent repr_unused no_bq no_bq sample_db sample_start_db w1
           accepted sample_document_db); [reflexivity|vm_compute; reflexivity|exact M|].
  vm_compute in M. inversion M. vm_compute. reflexivity.
Defined.

Section WrittenIndex.

Variable py_repr : pyval -> string.

(** The display-date step of phase 2 on a document that the writer has
    made. *)
Lemma update_last_date_keeps_block (all_index filtered : list pyval) (w1 w2 : world)
  (content head after tail : string) :
  find_sub SEARCH_MARKER content = Some (append head "    ", after) ->
  date_closed head = true ->
  forallb doc_safe filtered = true ->
  index_html w1
  = Some (append head (append Phase2.ALL_RECORDS_DECL
                         (append (json_dumps py_repr (VList filtered)) (append ";" tail)))) ->
  Phase2.update_last_date all_index w1 = (Ok tt, w2) ->
  document_holds w2 filtered.
Proof.
  intros F C S HI. destruct (inert_records py_repr _ S) as (_ & L1 & L2).
  pose proof (json_loads_dumps py_repr (VList filtered)
                (doc_safe_plain (VList filtered) S)) as J.
  change (json_dumps py_repr (VList filtered))
    with (String "[" (append (join "," (map (json_dumps py_repr) filtered)) "]")) in *.
  assert (D : document_holds w1 filtered).
  { eexists _, _. split; [exact HI|]. split; [|exact J].
    exact (search_all_records_written _ _ _ _ tail F L1). }
  unfold Phase2.update_last_date.
  destruct (dates_of all_index) as [[|d0 ds]|e]; [| |discriminate].
  - intro H. inversion H; subst. exact D.
  - destruct (max_date_of (d0 :: ds)) as [ymd|e]; [|discriminate].
    rewrite HI. intro H. inversion H; subst. eexists _, _.
    split; [reflexivity|]. split; [|exact J].
    exact (date_step_keeps_block _ _ _ _ tail _ ymd F C L1 L2).
Qed.

Lemma phase2_load_of_holds (w : world) (records : list pyval) :
  document_holds w records ->
  exists c, Phase2.load_existing_records w = Ok (VList records, c).
Proof.
  intros (content & block & HI & HS & HJ). exists content.
  unfold Phase2.load_existing_records. rewrite HI, HS, HJ. reflexivity.
Qed.

(** What a successful run of phase 2 that had records to merge has done
    to the document: one call of the writer, then the display-date
    step, on the document as it was. *)
Lemma phase2_main_written (remote : list Z -> bq_outcome) (wb : option workbook)
  (w w' : world) (all_index : list pyval) (matched : nat) :
  Phase2.main py_repr remote wb w = (Ok (all_index, matched), w') ->
  (all_index = [] /\ w' = w) \/
  exists w1 w2,
    index_html w1 = index_html w /\
    Phase2.inject_into_html py_repr all_index Phase2.INDEX_FIELDS w1 = (Ok tt, w2) /\
    Phase2.update_last_date all_index w2 = (Ok tt, w').
Proof.
  unfold Phase2.main. intro H.
  destruct (Phase2.load_new_records w) as [nr|]; [|discriminate].
  destruct nr as [| | | |s| |new_records|d]; try discriminate.
  - destruct s; [|discriminate]. inversion H; subst. left. split; reflexivity.
  - destruct new_records as [|r0 rest]; [inversion H; subst; left; split; reflexivity|].
    right.
    destruct (Phase2.chat_ids_of (r0 :: rest)) as [chat_ids|]; [|discriminate].
    match type of H with
    | context [Phase2.fetch_segments_from_bq py_repr remote ?ids w] =>
        pose proof (phase2_fetch_index py_repr remote ids w) as FI;
        destruct (Phase2.fetch_segments_from_bq py_repr remote ids w) as [[seg_map|] w1];
        [|discriminate]
    end.
    simpl in FI.
    destruct (Phase2.enrich_records (r0 :: rest) _ seg_map) as [[enriched m]|];
      [|discriminate].
    destruct (Phase2.load_existing_records w1) as [[ex content]|]; [|discriminate].
    destruct ex as [| | | | | |existing|]; try discriminate.
    destruct (Phase2.inject_into_html py_repr (existing ++ enriched) Phase2.INDEX_FIELDS w1)
      as [[[]|] w2] eqn:EJ; [|discriminate].
    destruct (Phase2.update_last_date (existing ++ enriched) w2) as [[[]|] w3] eqn:EU;
      [|discriminate].
    inversion H; subst. exists w1, w2. repeat split; assumption.
  - destruct d; [|discriminate]. inversion H; subst. left. split; reflexivity.
Qed.

End WrittenIndex.



(** Phase 2 as a whole.  On a document whose data block is ready, a
    run that succeeds with records to merge leaves a document whose
    data block holds the projection of the merged list on the index
    fields, when the projected records are safe. *)
Theorem phase2_main_leaves_projection (py_repr : pyval -> string)
  (remote : list Z -> bq_outcome) (wb : option workbook) (w w' : world)
  (all_index filtered : list pyval) (matched : nat) (content : string) :
  index_html w = Some content ->
  block_ready content = true ->
  Phase2.main py_repr remote wb w = (Ok (all_index, matched), w') ->
  all_index <> [] ->
  Phase2.filter_fields Phase2.INDEX_FIELDS all_index = Ok filtered ->
  forallb doc_safe filtered = true ->
  exists c, Phase2.load_existing_records w' = Ok (VList filtered, c).
Proof.
  intros HI R M NE FF S.
  destruct (phase2_main_written py_repr _ _ _ _ _ _ M) as [[-> _]|(w1 & w2 & FI & EJ & EU)];
    [congruence|].
  rewrite HI in FI.
  destruct (block_ready_spec _ R) as (head & after & old & tail & F & B & C).
  destruct (phase2_inject_then_load py_repr _ _ _ _ _ _ _ _ _ FI F B FF S) as [EJ' _].
  rewrite EJ in EJ'. inversion EJ'; subst w2.
  apply phase2_load_of_holds.
  refine (update_last_date_keeps_block py_repr all_index filtered _ _ content head after tail
            F C S _ EU).
  reflexivity.
Qed.

Lemma phase2_main_leaves_projection_witness :
  exists c,
    Phase2.load_existing_records
      (snd (spreadsheet_run repr_unused no_bq sample_workbook sample_start))
    = Ok (VList [projected_A1; enriched_B2], c).
Proof.
  destruct (Phase2.main repr_unused no_bq (Some sample_workbook)
              (snd (Phase1.main repr_unused sample_workbook sample_start)))
    as [[[all_index matched]|e] w'] eqn:M; [|vm_compute in M; discriminate M].
  replace (snd (spreadsheet_run repr_unused no_bq sample_workbook sample_start)) with w'
    by (vm_compute in M; inversion M; vm_compute; reflexivity).
  apply (phase2_main_leaves_projection repr_unused no_bq (Some sample_workbook)
           (snd (Phase1.main repr_unused sample_workbook sample_start)) w'
           all_index [projected_A1; enriched_B2] matched sample_document);
    [reflexivity|vm_compute; reflexivity|exact M
    |vm_compute in M; inversion M; discriminate
    |vm_compute in M; inversion M; vm_compute; reflexivity
    |vm_compute; reflexivity].
Defined.

Section BadEscape.

Variable py_repr : pyval -> string.

Lemma template_error_after (a b : string) :
  template_literal a -> template_error b -> template_error (append a b).
Proof. intros A B x. now rewrite str_append_assoc, A, B. Qed.

Lemma template_error_before (a b : string) :
  template_error a -> template_error (append a b).
Proof. intros A x. rewrite str_append_assoc. apply A. Qed.

Lemma json_escape_u (c : ascii) (s : string) :
  u_escaped c = true ->
  exists t, json_escape (String c s) = String "\" (String "u" t).
Proof.
  destruct c as [[] [] [] [] [] [] [] []]; intro H;
    first [eexists; reflexivity | exfalso; vm_compute in H; discriminate H].
Qed.

Lemma template_error_escape (s1 s2 : string) (c : ascii) :
  safe_text s1 = true -> u_escaped c = true ->
  template_error (json_escape (append s1 (String c s2))).
Proof.
  intros S U. induction s1 as [|a s1 IH].
  - cbn [append]. destruct (json_escape_u c s2 U) as [t ->]. intro x. reflexivity.
  - simpl in S. apply andb_true_iff in S. destruct S as [Sa S].
    cbn [append]. rewrite (json_escape_safe_char _ _ Sa).
    destruct (safe_char_spec _ Sa) as (N & _ & _).
    destruct (Ascii.eqb a "034").
    + apply (template_error_after (String "\" (String "034" ""))); [|exact (IH S)].
      apply (template_literal_quote _ template_literal_nil).
    + apply (template_error_after (String a "")); [|exact (IH S)].
      exact (template_literal_cons _ _ N template_literal_nil).
Qed.

Lemma template_error_quote (s1 s2 : string) (c : ascii) :
  safe_text s1 = true -> u_escaped c = true ->
  template_error (json_quote (append s1 (String c s2))).
Proof.
  intros S U. unfold json_quote.
  apply (template_error_after (String "034" "")).
  - apply template_literal_cons; [reflexivity|apply template_literal_nil].
  - apply template_error_before, template_error_escape; assumption.
Qed.

Lemma template_error_join (l1 l2 : list string) (x : string) :
  Forall template_literal l1 -> template_error x ->
  template_error (join "," (l1 ++ x :: l2)).
Proof.
  intros L X. induction L as [|a l1 A _ IH].
  - cbn [app]. rewrite join_head. now apply template_error_before.
  - change ((a :: l1) ++ x :: l2) with (a :: (l1 ++ x :: l2)).
    rewrite join_head. destruct (l1 ++ x :: l2) eqn:E; [now destruct l1|].
    apply template_error_after; [exact A|].
    apply (template_error_after (String "," "")); [|exact IH].
    apply template_literal_cons; [reflexivity|apply template_literal_nil].
Qed.

Lemma template_literal_member (kv : string * pyval) :
  safe_text (fst kv) && doc_safe (snd kv) = true ->
  template_literal (append (json_quote (fst kv)) (append ":" (json_dumps py_repr (snd kv)))).
Proof.
  intro H. apply andb_true_iff in H. destruct H as [K V].
  apply template_literal_app; [exact (proj2 (proj2 (inert_json_quote _ K)))|].
  apply template_literal_app; [|exact (proj2 (proj2 (inert_json_dumps py_repr _ V)))].
  apply template_literal_cons; [reflexivity|apply template_literal_nil].
Qed.

(** The text of a list of records in which the first text that is not
    safe holds, after safe characters, a control character that is
    written as a [\u] escape. *)
Lemma template_error_records (l1 l2 : list pyval) (d1 d2 : list (string * pyval))
  (k s1 s2 : string) (c : ascii) :
  forallb doc_safe l1 = true ->
  forallb (fun kv => safe_text (fst kv) && doc_safe (snd kv)) d1 = true ->
  safe_text k = true -> safe_text s1 = true -> u_escaped c = true ->
  template_error
    (json_dumps py_repr
       (VList (l1 ++ VDict (d1 ++ (k, VStr (append s1 (String c s2))) :: d2) :: l2))).
Proof.
  intros L D K S U. cbn [json_dumps].
  apply (template_error_after (String "[" "")).
  { apply template_literal_cons; [reflexivity|apply template_literal_nil]. }
  apply template_error_before. rewrite map_app. cbn [map].
  apply template_error_join.
  { apply Forall_forall. intros t I. apply in_map_iff in I. destruct I as (v & <- & I).
    rewrite forallb_forall in L. exact (proj2 (proj2 (inert_json_dumps py_repr _ (L v I)))). }
  cbn [json_dumps].
  apply (template_error_after (String "{" "")).
  { apply template_literal_cons; [reflexivity|apply template_literal_nil]. }
  apply template_error_before. rewrite map_app. cbn [map fst snd].
  apply template_error_join.
  { apply Forall_forall. intros t I. apply in_map_iff in I. destruct I as (kv & <- & I).
    rewrite forallb_forall in D. exact (template_literal_member kv (D kv I)). }
  apply template_error_after; [exact (proj2 (proj2 (inert_json_quote _ K)))|].
  apply (template_error_after (String ":" "")).
  { apply template_literal_cons; [reflexivity|apply template_literal_nil]. }
  cbn [json_dumps]. now apply template_error_quote.
Qed.

Lemma sub_all_records_error (json content : string) :
  template_error json ->
  sub_all_records (append Phase2.ALL_RECORDS_DECL (append json ";")) content = Raise ReError.
Proof.
  intro E. unfold sub_all_records.
  assert (T : template_literal Phase2.ALL_RECORDS_DECL).
  { repeat (apply template_literal_cons; [reflexivity|]). apply template_literal_nil. }
  now rewrite T, E.
Qed.

End BadEscape.

(** A control character stops the writers.  When the first text that
    is not safe among the records to write, in the order of writing, is
    the value of a field and holds, after safe characters, a control
    character other than backspace, tab, line feed, form feed and
    carriage return, [json.dumps] writes it as a [\u] escape, which
    [re.sub] refuses in its replacement: [inject_into_html] of either
    phase raises [re.error] and the document is not written. *)
Theorem control_character_stops_writer (py_repr : pyval -> string)
  (l1 l2 : list pyval) (d1 d2 : list (string * pyval)) (k s1 s2 : string) (c : ascii)
  (w : world) (content : string) :
  let records := l1 ++ VDict (d1 ++ (k, VStr (append s1 (String c s2))) :: d2) :: l2 in
  index_html w = Some content ->
  forallb doc_safe l1 = true ->
  forallb (fun kv => safe_text (fst kv) && doc_safe (snd kv)) d1 = true ->
  safe_text k = true -> safe_text s1 = true -> u_escaped c = true ->
  serializable (VList records) = true ->
  Phase3.inject_into_html py_repr records w = (Raise ReError, w) /\
  (forall all_records fields,
     Phase2.filter_fields fields all_records = Ok records ->
     Phase2.inject_into_html py_repr all_records fields w = (Raise ReError, w)).
Proof.
  intros records HI L D K S U Z.
  pose proof (template_error_records py_repr l1 l2 d1 d2 k s1 s2 c L D K S U) as E.
  fold records in E. split.
  - unfold Phase3.inject_into_html. rewrite HI, Z. cbv zeta.
    change Phase3.ALL_RECORDS_DECL with Phase2.ALL_RECORDS_DECL.
    rewrite (sub_all_records_error _ content E). reflexivity.
  - intros all_records fields FF. unfold Phase2.inject_into_html.
    rewrite HI, FF, Z. cbv zeta.
    rewrite (sub_all_records_error _ content E). reflexivity.
Qed.

(** The record B2 with an escape character (code 27) in its title,
    after the record A1. *)
Lemma control_character_stops_writer_witness :
  Phase3.inject_into_html repr_unused
    ([plain_A1]
     ++ VDict ([("chatId", VStr "B2")]
               ++ ("title", VStr (append "colour " (String (ascii_of_nat 27) "[31m"))) :: [])
        :: [])
    sample_start
  = (Raise ReError, sample_start) /\
  (forall all_records fields,
     Phase2.filter_fields fields all_records
     = Ok ([plain_A1]
           ++ VDict ([("chatId", VStr "B2")]
                     ++ ("title", VStr (append "colour " (String (ascii_of_nat 27) "[31m")))
                        :: [])
              :: []) ->
     Phase2.inject_into_html repr_unused all_records fields sample_start
     = (Raise ReError, sample_start)).
Proof.
  apply (control_character_stops_writer repr_unused [plain_A1] [] [("chatId", VStr "B2")] []
           "title" "colour " "[31m" (ascii_of_nat 27) sample_start sample_document);
    reflexivity.
Defined.

Section IndentedText.

Variable py_repr : pyval -> string.

Lemma skip_ws_all_ws (w x : string) :
  all_ws w = true -> skip_ws (append w x) = skip_ws x.
Proof.
  induction w as [|c w IH]; cbn [all_ws append skip_ws]; intro H; [reflexivity|].
  apply andb_true_iff in H. destruct H as [A B]. rewrite A. exact (IH B).
Qed.

Lemma all_ws_spaces (n : nat) : all_ws (spaces n) = true.
Proof. induction n as [|n IH]; [reflexivity|]. cbn [spaces all_ws]. now rewrite IH. Qed.

Lemma all_ws_newline (n : nat) : all_ws (String (ascii_of_nat 10) (spaces n)) = true.
Proof. cbn [all_ws]. now rewrite all_ws_spaces. Qed.

Lemma delimited_ws (w x : string) (c : ascii) :
  all_ws w = true ->
  Ascii.eqb c "]" || Ascii.eqb c "}" = true ->
  delimited (append w (String c x)) = true.
Proof.
  intros W C. destruct w as [|a w]; cbn [append delimited].
  - apply orb_true_iff in C. destruct C as [C|C]; rewrite C;
      rewrite ?orb_true_r; reflexivity.
  - cbn [all_ws] in W. apply andb_true_iff in W. destruct W as [A _].
    rewrite A. now rewrite !orb_true_r.
Qed.

Lemma skip_ws_reads (f : nat) (enc : pyval -> string) (v : pyval) (w x : string) :
  reads f enc v -> all_ws w = true ->
  skip_ws (append w (append (enc v) x)) = append (enc v) x.
Proof.
  intros [(c & t & E & W & _) _] A. rewrite (skip_ws_all_ws _ _ A), E.
  cbn [append]. now apply skip_ws_head.
Qed.

(** The loop over the elements of an array, on elements separated by a
    comma and white space and closed after white space. *)
Lemma scan_elements_ws (f : nat) (enc : pyval -> string) (ws1 ws2 : string)
  (l : list pyval) (rest : string) :
  all_ws ws1 = true -> all_ws ws2 = true ->
  Forall (reads f enc) l -> l <> [] ->
  forall n, (List.length l <= n)%nat ->
    scan_elements (scan_value f) n
      (append (join (String "," ws1) (map enc l)) (append ws2 (String "]" rest)))
    = Some (l, rest).
Proof.
  intros W1 W2. induction l as [|v l IH]; [congruence|]. intros F _ n Ln.
  inversion F as [|? ? Rv Fl]; subst. destruct Rv as [Hv Sv].
  destruct n as [|n]; [simpl in Ln; lia|]. rewrite scan_elements_step.
  destruct l as [|v2 l'].
  - cbn [map join]. rewrite Sv by (apply delimited_ws; [exact W2|reflexivity]).
    rewrite (skip_ws_all_ws _ _ W2).
    change (skip_ws (String "]" rest)) with (String "]" rest). reflexivity.
  - cbn [map]. rewrite join_cons2, !str_append_assoc. cbn [append].
    rewrite Sv by reflexivity.
    match goal with
    | |- context [skip_ws (String "," ?x)] =>
        change (skip_ws (String "," x)) with (String "," x)
    end.
    change (Ascii.eqb "," "]") with false. change (Ascii.eqb "," ",") with true. cbv iota.
    inversion Fl as [|? ? R2 _]; subst.
    assert (SW : forall x,
               skip_ws (append ws1 (append (join (String "," ws1) (enc v2 :: map enc l')) x))
               = append (join (String "," ws1) (enc v2 :: map enc l')) x).
    { intro x. rewrite join_head, str_append_assoc. apply (skip_ws_reads f); assumption. }
    rewrite SW.
    change (enc v2 :: map enc l') with (map enc (v2 :: l')).
    rewrite IH; [reflexivity|exact Fl|discriminate|simpl in *; lia].
Qed.

Lemma member_text_ws (enc : pyval -> string) (k : string) (v : pyval) (x : string) :
  append (append (json_quote k) (append ": " (enc v))) x
  = String "034" (append (json_escape k)
                    (String "034" (String ":" (String " " (append (enc v) x))))).
Proof.
  unfold json_quote. cbn [append]. rewrite !str_append_assoc. reflexivity.
Qed.

(** The loop over the members of an object, likewise, a colon and a
    space between a key and its value. *)
Lemma scan_members_ws (f : nat) (enc : pyval -> string) (ws1 ws2 : string)
  (d : list (string * pyval)) (rest : string) :
  all_ws ws1 = true -> all_ws ws2 = true ->
  Forall (fun kv => reads f enc (snd kv)) d -> d <> [] ->
  forall n, (List.length d <= n)%nat ->
    scan_members (scan_value f) n
      (append (join (String "," ws1)
                 (map (fun kv => append (json_quote (fst kv)) (append ": " (enc (snd kv)))) d))
         (append ws2 (String "}" rest)))
    = Some (d, rest).
Proof.
  intros W1 W2. induction d as [|[k v] d IH]; [congruence|]. intros F _ n Ln.
  inversion F as [|? ? Rv Fl]; subst. cbn [snd] in Rv. destruct Rv as [Hv Sv].
  destruct n as [|n]; [simpl in Ln; lia|].
  assert (KL : forall x, (String.length k
                          < S (String.length (append (json_escape k) x)))%nat).
  { intro x. rewrite length_append. pose proof (json_escape_length k). lia. }
  assert (SV : forall x, skip_ws (String " " (append (enc v) x)) = append (enc v) x).
  { intro x. apply (skip_ws_reads f enc v " " x); [split; assumption|reflexivity]. }
  set (mem := fun kv : string * pyval =>
                append (json_quote (fst kv)) (append ": " (enc (snd kv)))) in *.
  destruct d as [|[k2 v2] d'].
  - cbn [map join]. unfold mem at 1. cbn [fst snd].
    rewrite member_text_ws, scan_members_step.
    rewrite scan_string_escape by apply KL.
    match goal with
    | |- context [skip_ws (String ":" ?x)] =>
        change (skip_ws (String ":" x)) with (String ":" x)
    end.
    change (Ascii.eqb ":" ":") with true. cbv iota.
    rewrite SV, Sv by (apply delimited_ws; [exact W2|reflexivity]).
    rewrite (skip_ws_all_ws _ _ W2).
    change (skip_ws (String "}" rest)) with (String "}" rest). reflexivity.
  - change (map mem ((k, v) :: (k2, v2) :: d'))
      with (mem (k, v) :: mem (k2, v2) :: map mem d').
    rewrite join_cons2, !str_append_assoc.
    change (mem (k, v)) with (append (json_quote k) (append ": " (enc v))).
    rewrite member_text_ws, scan_members_step.
    rewrite scan_string_escape by apply KL.
    match goal with
    | |- context [skip_ws (String ":" ?x)] =>
        change (skip_ws (String ":" x)) with (String ":" x)
    end.
    change (Ascii.eqb ":" ":") with true. cbv iota.
    cbn [append]. rewrite SV.
    rewrite Sv by reflexivity.
    match goal with
    | |- context [skip_ws (String "," ?x)] =>
        change (skip_ws (String "," x)) with (String "," x)
    end.
    change (Ascii.eqb "," "}") with false. change (Ascii.eqb "," ",") with true. cbv iota.
    assert (SW2 : forall x,
               skip_ws (append ws1 (append (join (String "," ws1) (mem (k2, v2) :: map mem d')) x))
               = append (join (String "," ws1) (mem (k2, v2) :: map mem d')) x).
    { intro x. rewrite (skip_ws_all_ws _ _ W1), join_head. unfold mem at 1.
      unfold json_quote. cbn [append fst]. reflexivity. }
    rewrite SW2.
    change (mem (k2, v2) :: map mem d') with (map mem ((k2, v2) :: d')).
    rewrite IH; [reflexivity|exact Fl|discriminate|simpl in *; lia].
Qed.

Lemma json_dumps_indent_list (lvl : nat) (v : pyval) (l : list pyval) :
  json_dumps_indent py_repr lvl (VList (v :: l))
  = String "["
      (append (indent_newline (S lvl))
         (append (join (String "," (indent_newline (S lvl)))
                    (map (json_dumps_indent py_repr (S lvl)) (v :: l)))
            (append (indent_newline lvl) "]"))).
Proof. reflexivity. Qed.

Lemma json_dumps_indent_dict (lvl : nat) (kv : string * pyval) (d : list (string * pyval)) :
  json_dumps_indent py_repr lvl (VDict (kv :: d))
  = String "{"
      (append (indent_newline (S lvl))
         (append (join (String "," (indent_newline (S lvl)))
                    (map (fun kv => append (json_quote (fst kv))
                                      (append ": " (json_dumps_indent py_repr (S lvl) (snd kv))))
                       (kv :: d)))
            (append (indent_newline lvl) "}"))).
Proof. reflexivity. Qed.

Lemma all_ws_indent_newline (k : nat) : all_ws (indent_newline k) = true.
Proof. apply all_ws_newline. Qed.

Lemma reads_head (f : nat) (enc : pyval -> string) (v : pyval) :
  reads f enc v -> enc v <> EmptyString.
Proof. intros [(c & t & E & _) _]. rewrite E. discriminate. Qed.

(** What [json.dump(..., indent=2)] writes for a plain value, at any
    depth, is read by the decoder with any fuel that covers the text. *)
Lemma reads_indent (v : pyval) :
  json_plain v = true ->
  forall lvl f,
    (String.length (json_dumps_indent py_repr lvl v) <= f)%nat ->
    reads f (json_dumps_indent py_repr lvl) v.
Proof.
  assert (SC : forall u lvl f,
             json_dumps_indent py_repr lvl u = json_dumps py_repr u ->
             json_plain u = true ->
             (String.length (json_dumps_indent py_repr lvl u) <= f)%nat ->
             reads f (json_dumps_indent py_repr lvl) u).
  { intros u lvl f E PL LF. unfold reads. rewrite E in *. split.
    - destruct (json_dumps_head py_repr u EmptyString PL) as (c & t & H & W).
      rewrite str_append_nil_r in H. exists c, t. split; [exact H|exact W].
    - intros rest DL. exact (scan_value_dumps py_repr u PL f rest LF DL). }
  induction v as [|b|z|fl|s|dt|l IH|d IH] using pyval_nested_ind; intros PL lvl fuel LF;
    try (apply SC; [reflexivity|exact PL|exact LF]).
  - destruct l as [|v1 l'].
    { apply SC; [reflexivity|exact PL|exact LF]. }
    rewrite json_dumps_indent_list in LF.
    set (enc := json_dumps_indent py_repr (S lvl)) in *.
    set (J := join (String "," (indent_newline (S lvl))) (map enc (v1 :: l'))) in *.
    destruct fuel as [|f]; [simpl in LF; lia|].
    assert (LJ : (String.length J <= f)%nat).
    { cbn [String.length] in LF. rewrite !length_append in LF. lia. }
    assert (R : Forall (reads f enc) (v1 :: l')).
    { rewrite Forall_forall in IH. apply Forall_forall. intros v I.
      cbn [json_plain] in PL. rewrite forallb_forall in PL.
      apply (IH v I (PL v I) (S lvl) f).
      pose proof (join_length_elem (String "," (indent_newline (S lvl))) (enc v)
                    (map enc (v1 :: l')) (in_map _ _ _ I)) as X.
      fold J in X. unfold enc in X. lia. }
    split.
    { eexists _, _. split; [apply json_dumps_indent_list|]. repeat split; reflexivity. }
    intros rest DL. rewrite json_dumps_indent_list. fold enc. fold J.
    cbn [append]. rewrite !str_append_assoc. rewrite scan_value_list_step.
    assert (SW : skip_ws (append (indent_newline (S lvl))
                            (append J (append (indent_newline lvl) (append "]" rest))))
                 = append J (append (indent_newline lvl) (append "]" rest))).
    { unfold J. cbn [map]. rewrite join_head, str_append_assoc.
      apply (skip_ws_reads f); [inversion R; assumption|apply all_ws_indent_newline]. }
    rewrite SW.
    assert (HJ : exists c t, J = String c t /\ Ascii.eqb c "]" = false).
    { inversion R as [|? ? [(c & t & E & _ & B & _) _] _]; subst.
      unfold J. cbn [map]. rewrite join_head, E. cbn [append].
      eexists _, _. split; [reflexivity|exact B]. }
    destruct HJ as (c & t & EJ & B). rewrite EJ. cbn [append]. rewrite B.
    change (String c (append t (append (indent_newline lvl) (String "]" rest))))
      with (append (String c t) (append (indent_newline lvl) (String "]" rest))).
    rewrite <- EJ. unfold J.
    rewrite (scan_elements_ws f enc _ _ _ rest (all_ws_indent_newline _)
               (all_ws_indent_newline _) R); [reflexivity|discriminate|].
    fold J. cbn [String.length]. rewrite length_append.
    pose proof (join_length_count (String "," (indent_newline (S lvl)))
                  (map enc (v1 :: l'))) as X.
    fold J in X. rewrite length_map in X.
    assert (Y : (List.length (v1 :: l') <= String.length J)%nat).
    { apply X. intros x Ix. apply in_map_iff in Ix. destruct Ix as (v & <- & I).
      rewrite Forall_forall in R. exact (reads_head _ _ _ (R v I)). }
    lia.
  - destruct d as [|[k1 v1] d'].
    { apply SC; [reflexivity|exact PL|exact LF]. }
    cbn [json_plain] in PL. apply andb_true_iff in PL. destruct PL as [PL DK].
    rewrite json_dumps_indent_dict in LF.
    set (enc := json_dumps_indent py_repr (S lvl)) in *.
    set (mem := fun kv : string * pyval =>
                  append (json_quote (fst kv)) (append ": " (enc (snd kv)))) in *.
    set (J := join (String "," (indent_newline (S lvl))) (map mem ((k1, v1) :: d'))) in *.
    destruct fuel as [|f]; [simpl in LF; lia|].
    assert (LJ : (String.length J <= f)%nat).
    { cbn [String.length] in LF. rewrite !length_append in LF. lia. }
    assert (R : Forall (fun kv => reads f enc (snd kv)) ((k1, v1) :: d')).
    { rewrite Forall_forall in IH. apply Forall_forall. intros kv I.
      rewrite forallb_forall in PL.
      apply (IH kv I (PL kv I) (S lvl) f).
      pose proof (join_length_elem (String "," (indent_newline (S lvl))) (mem kv)
                    (map mem ((k1, v1) :: d')) (in_map _ _ _ I)) as X.
      fold J in X. unfold mem in X at 1. rewrite !length_append in X.
      unfold enc in X. lia. }
    split.
    { eexists _, _. split; [apply json_dumps_indent_dict|]. repeat split; reflexivity. }
    intros rest DL. rewrite json_dumps_indent_dict. fold enc. fold mem. fold J.
    cbn [append]. rewrite !str_append_assoc. rewrite scan_value_dict_step.
    assert (HJ : exists t, J = String "034" t).
    { unfold J. cbn [map]. rewrite join_head. unfold mem at 1. unfold json_quote.
      cbn [append fst]. eexists. reflexivity. }
    destruct HJ as (t & EJ).
    rewrite (skip_ws_all_ws _ _ (all_ws_indent_newline (S lvl))).
    rewrite EJ. cbn [append].
    change (skip_ws (String "034" (append t (append (indent_newline lvl) (String "}" rest)))))
      with (String "034" (append t (append (indent_newline lvl) (String "}" rest)))).
    change (Ascii.eqb "034" "}") with false. cbv iota.
    change (String "034" (append t (append (indent_newline lvl) (String "}" rest))))
      with (append (String "034" t) (append (indent_newline lvl) (String "}" rest))).
    rewrite <- EJ. unfold J, mem.
    rewrite (scan_members_ws f enc _ _ _ rest (all_ws_indent_newline _)
               (all_ws_indent_newline _) R);
      [rewrite (dict_of_pairs_distinct _ DK); reflexivity|discriminate|].
    fold mem. fold J. cbn [String.length]. rewrite length_append.
    pose proof (join_length_count (String "," (indent_newline (S lvl)))
                  (map mem ((k1, v1) :: d'))) as X.
    fold J in X. rewrite length_map in X.
    assert (Y : (List.length ((k1, v1) :: d') <= String.length J)%nat).
    { apply X. intros x Ix. apply in_map_iff in Ix. destruct Ix as (kv & <- & I).
      unfold mem, json_quote. discriminate. }
    lia.
Qed.

(** [json.load] of what [json.dump(v, f, ensure_ascii=False, indent=2)]
    has written is [v], for a plain value. *)
Lemma json_loads_dumps_indent (v : pyval) :
  json_plain v = true -> json_loads (json_dumps_indent py_repr 0 v) = Ok v.
Proof.
  intro PL. unfold json_loads.
  destruct (reads_indent v PL 0 (String.length (json_dumps_indent py_repr 0 v))
              (Nat.le_refl _)) as [(c & t & E & W & _) _].
  assert (SW : skip_ws (json_dumps_indent py_repr 0 v) = json_dumps_indent py_repr 0 v)
    by (rewrite E; now apply skip_ws_head).
  rewrite SW.
  destruct (reads_indent v PL 0 (S (String.length (json_dumps_indent py_repr 0 v)))
              (Nat.le_succ_diag_r _)) as [_ H].
  specialize (H EmptyString eq_refl). rewrite str_append_nil_r in H.
  rewrite H. reflexivity.
Qed.

End IndentedText.

Section HandOff.

Variable py_repr : pyval -> string.

Lemma phase1_main_steps (wb : workbook) (w w1 : world) (recs : list pyval) :
  Phase1.main py_repr wb w = (Ok recs, w1) ->
  exists ids skipped_empty skipped_dup,
    Phase1.load_existing_chat_ids w = Ok ids /\
    Phase1.parse_userchat py_repr (UserChat wb) (Phase1.build_user_map (UserData wb) []) ids
    = Ok (recs, skipped_empty, skipped_dup) /\
    (recs <> [] ->
     w1 = set_new_records_json (json_dumps_indent py_repr 0 (VList recs)) w).
Proof.
  unfold Phase1.main.
  destruct (Phase1.load_existing_chat_ids w) as [ids|e]; [|discriminate].
  destruct (Phase1.parse_userchat py_repr (UserChat wb) _ ids) as [[[rs se] sd]|e] eqn:P;
    [|discriminate].
  destruct rs as [|r rs].
  - intro H. inversion H; subst. exists ids, se, sd. repeat split; congruence.
  - destruct (Phase1.date_range_ok (r :: rs)) as [[]|e]; [|discriminate].
    destruct (serializable (VList (r :: rs))); [|discriminate].
    intro H. inversion H; subst. exists ids, se, sd. repeat split; assumption.
Qed.

Lemma handoff_is_read (wb : workbook) (w w1 : world) (new_records : list pyval) :
  Phase1.main py_repr wb w = (Ok new_records, w1) ->
  new_records <> [] ->
  forallb json_plain new_records = true ->
  Phase2.load_new_records w1 = Ok (VList new_records) /\ index_html w1 = index_html w.
Proof.
  intros M NE PL. destruct (phase1_main_steps _ _ _ _ M) as (ids & se & sd & _ & _ & W).
  rewrite (W NE). split; [|reflexivity].
  unfold Phase2.load_new_records. cbn [new_records_json set_new_records_json].
  exact (json_loads_dumps_indent py_repr (VList new_records) PL).
Qed.

Lemma phase2_main_steps (remote : list Z -> bq_outcome) (wb : option workbook)
  (w w' : world) (new_records all_index : list pyval) (matched : nat) :
  Phase2.load_new_records w = Ok (VList new_records) -> new_records <> [] ->
  Phase2.main py_repr remote wb w = (Ok (all_index, matched), w') ->
  exists seg_map enriched existing c w1 w2,
    index_html w1 = index_html w /\
    Phase2.enrich_records new_records (Phase2.build_corp_number_map py_repr wb) seg_map
    = Ok (enriched, matched) /\
    Phase2.load_existing_records w1 = Ok (VList existing, c) /\
    all_index = existing ++ enriched /\
    Phase2.inject_into_html py_repr all_index Phase2.INDEX_FIELDS w1 = (Ok tt, w2) /\
    Phase2.update_last_date all_index w2 = (Ok tt, w').
Proof.
  intros L NE. unfold Phase2.main. rewrite L.
  destruct new_records as [|r0 rest]; [congruence|]. intro H.
  destruct (Phase2.chat_ids_of (r0 :: rest)) as [chat_ids|]; [|discriminate].
  match type of H with
  | context [Phase2.fetch_segments_from_bq py_repr remote ?ids w] =>
      pose proof (phase2_fetch_index py_repr remote ids w) as FI;
      destruct (Phase2.fetch_segments_from_bq py_repr remote ids w) as [[seg_map|] w1];
      [|discriminate]
  end.
  simpl in FI.
  destruct (Phase2.enrich_records (r0 :: rest) _ seg_map) as [[enriched m]|] eqn:EE;
    [|discriminate].
  destruct (Phase2.load_existing_records w1) as [[ex c]|] eqn:EL; [|discriminate].
  destruct ex as [| | | | | |existing|]; try discriminate.
  destruct (Phase2.inject_into_html py_repr (existing ++ enriched) Phase2.INDEX_FIELDS w1)
    as [[[]|] w2] eqn:EJ; [|discriminate].
  destruct (Phase2.update_last_date (existing ++ enriched) w2) as [[[]|] w3] eqn:EU;
    [|discriminate].
  inversion H; subst. exists seg_map, enriched, existing, c, w1, w2.
  repeat split; assumption.
Qed.

Lemma phase2_steps_hold (all_index filtered : list pyval) (w1 w2 w' : world)
  (content : string) :
  index_html w1 = Some content ->
  block_ready content = true ->
  Phase2.filter_fields Phase2.INDEX_FIELDS all_index = Ok filtered ->
  forallb doc_safe filtered = true ->
  Phase2.inject_into_html py_repr all_index Phase2.INDEX_FIELDS w1 = (Ok tt, w2) ->
  Phase2.update_last_date all_index w2 = (Ok tt, w') ->
  document_holds w' filtered.
Proof.
  intros HI R FF S EJ EU.
  destruct (block_ready_spec _ R) as (head & after & old & tail & F & B & C).
  destruct (phase2_inject_then_load py_repr _ _ _ _ _ _ _ _ _ HI F B FF S) as [EJ' _].
  rewrite EJ in EJ'. inversion EJ'; subst w2.
  refine (update_last_date_keeps_block py_repr all_index filtered _ _ content head after tail
            F C S _ EU).
  reflexivity.
Qed.

End HandOff.

(** The hand-off file.  When the script of phase 1 ends with new
    records that hold no float (and so are written without the float
    printer), the script of phase 2 reads from the hand-off file
    exactly these records. *)
Theorem handoff_round_trip (py_repr : pyval -> string) (wb : workbook) (w w1 : world)
  (new_records : list pyval) :
  Phase1.main py_repr wb w = (Ok new_records, w1) ->
  new_records <> [] ->
  forallb json_plain new_records = true ->
  Phase2.load_new_records w1 = Ok (VList new_records).
Proof.
  intros M NE PL. exact (proj1 (handoff_is_read py_repr _ _ _ _ M NE PL)).
Qed.

Lemma handoff_round_trip_witness :
  Phase2.load_new_records (snd (Phase1.main repr_unused sample_workbook sample_start))
  = Ok (VList (match fst (Phase1.main repr_unused sample_workbook sample_start) with
               | Ok recs => recs
               | Raise _ => []
               end)).
Proof.
  apply (handoff_round_trip repr_unused sample_workbook sample_start);
    [vm_compute; reflexivity|vm_compute; discriminate|vm_compute; reflexivity].
Defined.

(** The spreadsheet path, end to end.  On a document whose data block
    is ready: when phase 1 has found new records and written the
    hand-off file, and phase 2 has then merged them into the document,
    phase 1 run again on the same workbook finds no new record and
    writes nothing, provided the records hold no float and the
    projected records are safe. *)
Theorem spreadsheet_path_settles (py_repr : pyval -> string)
  (remote : list Z -> bq_outcome) (wb : workbook) (wb2 : option workbook)
  (w w1 w2 : world) (new_records all_index filtered : list pyval) (matched : nat)
  (content : string) :
  index_html w = Some content ->
  block_ready content = true ->
  Phase1.main py_repr wb w = (Ok new_records, w1) ->
  new_records <> [] ->
  forallb json_plain new_records = true ->
  Phase2.main py_repr remote wb2 w1 = (Ok (all_index, matched), w2) ->
  Phase2.filter_fields Phase2.INDEX_FIELDS all_index = Ok filtered ->
  forallb doc_safe filtered = true ->
  Phase1.main py_repr wb w2 = (Ok [], w2).
Proof.
  intros HI R M1 NE PL M2 FF S.
  destruct (phase1_main_steps py_repr _ _ _ _ M1) as (ids & se & sd & LI & P & _).
  destruct (handoff_is_read py_repr _ _ _ _ M1 NE PL) as [LN HI1].
  rewrite HI in HI1.
  destruct (phase2_main_steps py_repr _ _ _ _ _ _ _ LN NE M2)
    as (seg_map & enriched & existing & c & w1' & w2' & FI & EE & EL & -> & EJ & EU).
  rewrite HI1 in FI.
  pose proof (phase2_steps_hold py_repr _ _ _ _ _ _ FI R FF S EJ EU) as D.
  assert (I1 : id_set chat_id_of existing [] = Ok ids).
  { destruct (block_ready_spec _ R) as (head & after & old & tail & F & B & _).
    unfold Phase2.load_existing_records in EL. rewrite FI in EL.
    unfold Phase1.load_existing_chat_ids in LI. rewrite HI in LI.
    unfold search_all_records in EL, LI. rewrite F, B in EL, LI.
    destruct (json_loads _) as [v|e]; cbn [bind] in EL, LI; [|discriminate].
    inversion EL; subst v. exact LI. }
  exact (spreadsheet_second_run py_repr wb existing new_records enriched filtered ids
           se sd matched _ seg_map w2 I1 P EE FF D).
Qed.

Lemma spreadsheet_path_settles_witness :
  Phase1.main repr_unused sample_workbook
    (snd (spreadsheet_run repr_unused no_bq sample_workbook sample_start))
  = (Ok [], snd (spreadsheet_run repr_unused no_bq sample_workbook sample_start)).
Proof.
  destruct (Phase1.main repr_unused sample_workbook sample_start)
    as [[new_records|e] w1] eqn:M1; [|vm_compute in M1; discriminate M1].
  destruct (Phase2.main repr_unused no_bq (Some sample_workbook) w1)
    as [[[all_index matched]|e] w2] eqn:M2;
    [|vm_compute in M1; inversion M1; subst; vm_compute in M2; discriminate M2].
  replace (snd (spreadsheet_run repr_unused no_bq sample_workbook sample_start)) with w2
    by (unfold spreadsheet_run; rewrite M1, M2; reflexivity).
  apply (spreadsheet_path_settles repr_unused no_bq sample_workbook (Some sample_workbook)
           sample_start w1 w2 new_records all_index [projected_A1; enriched_B2] matched
           sample_document);
    [reflexivity|vm_compute; reflexivity|exact M1
    |vm_compute in M1; inversion M1; discriminate
    |vm_compute in M1; inversion M1; vm_compute; reflexivity
    |exact M2
    |vm_compute in M1; inversion M1; subst; vm_compute in M2; inversion M2;
     vm_compute; reflexivity
    |vm_compute; reflexivity].
Defined.

Section CacheRoundTrip.

Variable py_repr : pyval -> string.




End CacheRoundTrip.



Section BrokenString.

Variable py_repr : pyval -> string.









End BrokenString.

Section RawControl.

Variable py_repr : pyval -> string.















End RawControl.

Section BrokenDocument.

Variable py_repr : pyval -> string.









End BrokenDocument.




Section StaleHandOff.

Variable py_repr : pyval -> string.

Lemma filter_fields_length (fields : list string) (all_records filtered : list pyval) :
  Phase2.filter_fields fields all_records = Ok filtered ->
  List.length filtered = List.length all_records.
Proof.
  intro H. symmetry. exact (Forall2_length (filter_fields_each _ _ _ H)).
Qed.

Lemma enrich_records_length (corp_map : list (pyval * string))
  (seg_map : list (string * pyval)) (new_records enriched : list pyval) (matched : nat) :
  Phase2.enrich_records new_records corp_map seg_map = Ok (enriched, matched) ->
  List.length enriched = List.length new_records.
Proof.
  intro H. symmetry. exact (Forall2_length (enrich_records_chat_ids _ _ _ _ _ H)).
Qed.

Lemma phase2_main_handoff (remote : list Z -> bq_outcome) (wb : option workbook)
  (w : world) :
  new_records_json (snd (Phase2.main py_repr remote wb w)) = new_records_json w.
Proof. exact (proj1 (phase2_main_world py_repr remote wb w)). Qed.

Lemma phase2_load_holds (w : world) (records : list pyval) (v : pyval) (c : string) :
  document_holds w records ->
  Phase2.load_existing_records w = Ok (v, c) -> v = VList records.
Proof.
  intros (content & block & HI & HS & HJ). unfold Phase2.load_existing_records.
  rewrite HI, HS, HJ. cbn [bind]. congruence.
Qed.

End StaleHandOff.

(** Phase 2 run again on the same hand-off file.  Phase 2 has no
    identity check: on a document whose data block is ready, when a run
    has merged the records of the hand-off file and the projected
    records are safe, a second run that succeeds reads the projection
    of the first merged list from the document and appends the records
    of the hand-off file once more. *)
Theorem phase2_rerun_appends_again (py_repr : pyval -> string)
  (remote remote2 : list Z -> bq_outcome) (wb wb2 : option workbook)
  (w w1 w2 : world) (new_records all1 all2 filtered : list pyval) (m1 m2 : nat)
  (content : string) :
  index_html w = Some content ->
  block_ready content = true ->
  Phase2.load_new_records w = Ok (VList new_records) ->
  new_records <> [] ->
  Phase2.main py_repr remote wb w = (Ok (all1, m1), w1) ->
  Phase2.filter_fields Phase2.INDEX_FIELDS all1 = Ok filtered ->
  forallb doc_safe filtered = true ->
  Phase2.main py_repr remote2 wb2 w1 = (Ok (all2, m2), w2) ->
  exists enriched2 seg_map2,
    Phase2.enrich_records new_records (Phase2.build_corp_number_map py_repr wb2) seg_map2
    = Ok (enriched2, m2) /\
    all2 = filtered ++ enriched2 /\
    List.length all2 = (List.length all1 + List.length new_records)%nat.
Proof.
  intros HI R LN NE M1 FF S M2.
  destruct (phase2_main_steps py_repr _ _ _ _ _ _ _ LN NE M1)
    as (seg1 & enriched1 & existing & c & wa & wb' & FI & EE & EL & -> & EJ & EU).
  rewrite HI in FI.
  pose proof (phase2_steps_hold py_repr _ _ _ _ _ _ FI R FF S EJ EU) as D.
  assert (LN1 : Phase2.load_new_records w1 = Ok (VList new_records)).
  { unfold Phase2.load_new_records in *.
    pose proof (phase2_main_handoff py_repr remote wb w) as H.
    rewrite M1 in H. cbn [snd] in H. now rewrite H. }
  destruct (phase2_main_steps py_repr _ _ _ _ _ _ _ LN1 NE M2)
    as (seg2 & enriched2 & existing2 & c2 & wc & wd & FI2 & EE2 & EL2 & -> & _ & _).
  assert (D2 : document_holds wc filtered).
  { destruct D as (ct & block & HI1 & HS & HJ). exists ct, block.
    repeat split; try assumption. now rewrite FI2. }
  pose proof (phase2_load_holds _ _ _ _ D2 EL2) as E. injection E as ->.
  exists enriched2, seg2. split; [exact EE2|]. split; [reflexivity|].
  rewrite length_app, (filter_fields_length _ _ _ FF),
    (enrich_records_length _ _ _ _ _ EE2). reflexivity.
Qed.

(** The sample after phase 1, then phase 2 twice: the record B2 is in
    the merged list twice. *)
Lemma phase2_rerun_appends_again_witness :
  exists enriched2 seg_map2,
    Phase2.enrich_records [handoff_B2]
      (Phase2.build_corp_number_map repr_unused (Some sample_workbook)) seg_map2
    = Ok (enriched2, 1%nat) /\
    [projected_A1; enriched_B2; enriched_B2] = [projected_A1; enriched_B2] ++ enriched2 /\
    List.length [projected_A1; enriched_B2; enriched_B2]
    = (List.length [plain_A1; enriched_B2] + List.length [handoff_B2])%nat.
Proof.
  apply (phase2_rerun_appends_again repr_unused no_bq no_bq
           (Some sample_workbook) (Some sample_workbook)
           sample_handoff_world
           (snd (Phase2.main repr_unused no_bq (Some sample_workbook) sample_handoff_world))
           (snd (Phase2.main repr_unused no_bq (Some sample_workbook)
                   (snd (Phase2.main repr_unused no_bq (Some sample_workbook)
                           sample_handoff_world))))
           [handoff_B2] [plain_A1; enriched_B2] [projected_A1; enriched_B2; enriched_B2]
           [projected_A1; enriched_B2] 1%nat 1%nat sample_document);
    solve [reflexivity | vm_compute; reflexivity | discriminate].
Defined.

Section MixedDates.

Variable py_repr : pyval -> string.

Lemma parse_userchat_record (rows : list (list cell)) (user_map : list (pyval * pyval))
  (ids : list pyval) :
  forall recs skipped_empty skipped_dup,
    Phase1.parse_userchat py_repr rows user_map ids = Ok (recs, skipped_empty, skipped_dup) ->
    forall row, In row rows -> row_new ids row = true ->
      exists rec,
        In rec recs /\
        Phase1.record_of_row py_repr row user_map (cell_value row 1) = Ok rec.
Proof.
  induction rows as [|r rest IH]; intros recs se sd H row I N; [destruct I|].
  unfold row_new in N. apply andb_true_iff in N. destruct N as [T N].
  apply negb_true_iff in N. simpl in H.
  destruct (negb (truthy (cell_value r 1))) eqn:ET.
  - destruct (Phase1.parse_userchat py_repr rest user_map ids) as [[[recs' se'] sd']|];
      cbn [bind] in H; [|discriminate].
    inversion H; subst. destruct I as [->|I]; [rewrite T in ET; discriminate|].
    eapply IH; eauto. unfold row_new. now rewrite T, N.
  - destruct (py_in (cell_value r 1) ids) eqn:EP.
    + destruct (Phase1.parse_userchat py_repr rest user_map ids) as [[[recs' se'] sd']|];
        cbn [bind] in H; [|discriminate].
      inversion H; subst. destruct I as [->|I]; [congruence|].
      eapply IH; eauto. unfold row_new. now rewrite T, N.
    + destruct (Phase1.record_of_row py_repr r user_map (cell_value r 1)) as [rec|] eqn:ER;
        cbn [bind] in H; [|discriminate].
      destruct (Phase1.parse_userchat py_repr rest user_map ids) as [[[recs' se'] sd']|];
        cbn [bind] in H; [|discriminate].
      inversion H; subst. destruct I as [->|I].
      * exists rec. split; [now left|exact ER].
      * destruct (IH _ _ _ eq_refl row I) as (rec' & I' & C);
          [unfold row_new; now rewrite T, N|].
        exists rec'. split; [now right|exact C].
Qed.

(** The date of the record of a row: none when the date cell is empty,
    a text when it is not. *)
Lemma record_of_row_date (r : list cell) (user_map : list (pyval * pyval))
  (chat_id rec : pyval) :
  Phase1.record_of_row py_repr r user_map chat_id = Ok rec ->
  exists d, rec = VDict d /\
    (truthy (cell_value r 2) = false ->
     py_get rec "date" (VStr "unknown") = Ok VNone) /\
    (truthy (cell_value r 2) = true ->
     exists t, py_get rec "date" (VStr "unknown") = Ok (VStr t)).
Proof.
  unfold Phase1.record_of_row. generalize (cell_value r 2) as m. intro m.
  match goal with
  | |- (x <- ?c ;; _) = _ -> _ => destruct c as [company|]; cbn [bind]; [|discriminate]
  end.
  destruct (Phase1.to_seconds (cell_value r 67)) as [fa|]; cbn [bind]; [|discriminate].
  destruct (Phase1.to_seconds (cell_value r 79)) as [cs|]; cbn [bind]; [|discriminate].
  intro H. injection H as <-. eexists. split; [reflexivity|].
  split; intro T.
  - destruct m as [|b|z|[q| | |]|s|dt|l|d]; try discriminate T;
      unfold py_get; cbn [dict_get assoc_get String.eqb Ascii.eqb Bool.eqb];
      rewrite T; reflexivity.
  - destruct m as [|b|z|[q| | |]|s|dt|l|d]; try discriminate T;
      unfold py_get; cbn [dict_get assoc_get String.eqb Ascii.eqb Bool.eqb];
      rewrite ?T; eexists; reflexivity.
Qed.

Lemma date_range_mixed (recs : list pyval) (r1 r2 : pyval) (t : string) :
  Forall (fun r => exists d, r = VDict d) recs ->
  In r1 recs -> In r2 recs ->
  py_get r1 "date" (VStr "unknown") = Ok VNone ->
  py_get r2 "date" (VStr "unknown") = Ok (VStr t) ->
  Phase1.date_range_ok recs = Raise TypeError.
Proof.
  intros F I1 I2 G1 G2. unfold Phase1.date_range_ok.
  match goal with
  | |- (ds <- ?g recs ;; _) = _ => set (go := g)
  end.
  assert (G : exists ds, go recs = Ok ds /\
                         forall r v, In r recs -> py_get r "date" (VStr "unknown") = Ok v ->
                                     In v ds).
  { clear I1 I2 G1 G2. induction F as [|r l (d & ->) F IH].
    - exists []. split; [reflexivity|]. intros r v [].
    - destruct IH as (ds & E & H).
      exists ((match dict_get "date" d with Some v => v | None => VStr "unknown" end) :: ds).
      split.
      + change (go (VDict d :: l))
          with (x <- py_get (VDict d) "date" (VStr "unknown") ;;
                t0 <- go l ;; Ok (x :: t0)).
        cbn [py_get bind]. rewrite E. reflexivity.
      + intros r v [<-|I] Hv.
        * cbn [py_get] in Hv. injection Hv as <-. now left.
        * right. exact (H r v I Hv). }
  destruct G as (ds & -> & H). cbn [bind].
  assert (E1 : existsb (fun d => match d with VNone => true | _ => false end) ds = true).
  { apply existsb_exists. exists VNone. split; [exact (H _ _ I1 G1)|reflexivity]. }
  assert (E2 : existsb is_str ds = true).
  { apply existsb_exists. exists (VStr t). split; [exact (H _ _ I2 G2)|reflexivity]. }
  now rewrite E1, E2.
Qed.

End MixedDates.

(** A missing date among dated rows stops phase 1.  When two new rows
    of the UserChat sheet are parsed, one with an empty date cell and
    one with a date, the date statistics of [main] compare [None] with a
    text: the script stops with [TypeError] and the hand-off file is
    not written. *)
Theorem missing_date_stops_phase1 (py_repr : pyval -> string) (wb : workbook) (w : world)
  (ids recs : list pyval) (skipped_empty skipped_dup : nat) (row1 row2 : list cell) :
  Phase1.load_existing_chat_ids w = Ok ids ->
  Phase1.parse_userchat py_repr (UserChat wb) (Phase1.build_user_map (UserData wb) []) ids
  = Ok (recs, skipped_empty, skipped_dup) ->
  In row1 (UserChat wb) -> row_new ids row1 = true -> truthy (cell_value row1 2) = false ->
  In row2 (UserChat wb) -> row_new ids row2 = true -> truthy (cell_value row2 2) = true ->
  Phase1.main py_repr wb w = (Raise TypeError, w).
Proof.
  intros LI P I1 N1 T1 I2 N2 T2.
  destruct (parse_userchat_record py_repr _ _ _ _ _ _ P row1 I1 N1) as (r1 & J1 & R1).
  destruct (parse_userchat_record py_repr _ _ _ _ _ _ P row2 I2 N2) as (r2 & J2 & R2).
  destruct (record_of_row_date py_repr _ _ _ _ R1) as (d1 & _ & G1 & _).
  destruct (record_of_row_date py_repr _ _ _ _ R2) as (d2 & _ & _ & G2).
  destruct (G2 T2) as [t G2'].
  assert (F : Forall (fun r => exists d, r = VDict d) recs).
  { pose proof (parse_userchat_index_records py_repr _ _ _ _ _ _ P) as X.
    apply Forall_forall. intros r I. rewrite Forall_forall in X.
    destruct (X r I) as (d & -> & _). now exists d. }
  pose proof (date_range_mixed recs r1 r2 t F J1 J2 (G1 T1) G2') as D.
  unfold Phase1.main. rewrite LI, P.
  destruct recs as [|r0 recs']; [destruct J1|]. now rewrite D.
Qed.

(** The sample workbook with a third row, C3, that has no date: B2 and
    C3 are new, and phase 1 stops. *)
Lemma missing_date_stops_phase1_witness :
  Phase1.main repr_unused sample_workbook_undated sample_start
  = (Raise TypeError, sample_start).
Proof.
  eapply (missing_date_stops_phase1 repr_unused sample_workbook_undated sample_start
            [VStr "A1"] _ _ _ (undated_chat_row "C3") (sample_chat_row "B2" "2026-02-20"));
    [vm_compute; reflexivity
    |vm_compute; reflexivity
    |right; right; left; reflexivity
    |reflexivity|reflexivity
    |right; left; reflexivity
    |reflexivity|reflexivity].
Defined.

Section NoWorkbook.

Variable py_repr : pyval -> string.

Lemma unique_corps_of_no_map (chat_ids : list pyval) :
  forall acc, Phase2.unique_corps_of chat_ids [] acc = acc.
Proof. induction chat_ids as [|c l IH]; intro acc; [reflexivity|]. simpl. apply IH. Qed.

Lemma enrich_records_no_map (seg_map : list (string * pyval)) (recs : list pyval) :
  forall recs' matched,
    Phase2.enrich_records recs [] seg_map = Ok (recs', matched) ->
    recs' = recs /\ matched = O.
Proof.
  induction recs as [|r recs IH]; intros recs' matched H; simpl in H.
  - inversion H; subst. split; reflexivity.
  - destruct (py_item r "chatId") as [chat_id|]; cbn [bind] in H; [|discriminate].
    destruct (hashable chat_id); cbn [bind] in H; [|discriminate].
    destruct (Phase2.enrich_records recs [] seg_map) as [[t m]|]; cbn [bind] in H;
      [|discriminate].
    destruct (IH _ _ eq_refl) as [-> ->]. inversion H; subst. split; reflexivity.
Qed.

End NoWorkbook.

(** Phase 2 without the workbook.  When [build_corp_number_map] finds
    no workbook, no record has a business number: a run that succeeds
    starts no remote query, leaves the cache as it is, counts no match
    and appends the records of the hand-off file as they are. *)
Theorem phase2_without_workbook (py_repr : pyval -> string)
  (remote : list Z -> bq_outcome) (w w' : world)
  (new_records all_index : list pyval) (matched : nat) :
  Phase2.load_new_records w = Ok (VList new_records) ->
  new_records <> [] ->
  Phase2.main py_repr remote None w = (Ok (all_index, matched), w') ->
  matched = O /\
  bq_attempts w' = bq_attempts w /\
  segment_cache w' = segment_cache w /\
  exists existing c,
    Phase2.load_existing_records w = Ok (VList existing, c) /\
    all_index = existing ++ new_records.
Proof.
  intros L NE. unfold Phase2.main. rewrite L.
  destruct new_records as [|r0 rest]; [congruence|].
  destruct (Phase2.chat_ids_of (r0 :: rest)) as [chat_ids|]; [|discriminate].
  cbn [Phase2.build_corp_number_map]. rewrite unique_corps_of_no_map.
  cbn [filter map Phase2.fetch_segments_from_bq].
  destruct (Phase2.enrich_records (r0 :: rest) [] []) as [[enriched m]|] eqn:EE;
    [|discriminate].
  destruct (enrich_records_no_map _ _ _ _ EE) as [-> ->].
  destruct (Phase2.load_existing_records w) as [[ex c]|] eqn:EL; [|discriminate].
  destruct ex as [| | | | | |existing|]; try discriminate.
  pose proof (phase2_inject_world py_repr (existing ++ r0 :: rest) Phase2.INDEX_FIELDS w) as J.
  destruct (Phase2.inject_into_html py_repr (existing ++ r0 :: rest) Phase2.INDEX_FIELDS w)
    as [[[]|] w2]; [|discriminate].
  pose proof (update_last_date_world (existing ++ r0 :: rest) w2) as U.
  destruct (Phase2.update_last_date (existing ++ r0 :: rest) w2) as [[[]|] w3];
    [|discriminate].
  intro H. inversion H; subst. cbn [fst snd] in J, U.
  assert (W2 : bq_attempts w2 = bq_attempts w /\ segment_cache w2 = segment_cache w).
  { destruct J as [[-> _]|[_ (c0 & c1 & _ & ->)]]; split; reflexivity. }
  assert (W3 : bq_attempts w' = bq_attempts w2 /\ segment_cache w' = segment_cache w2).
  { destruct U as [->|[_ (c0 & c1 & _ & ->)]]; split; reflexivity. }
  destruct W2 as [A2 B2], W3 as [A3 B3].
  split; [reflexivity|]. split; [congruence|]. split; [congruence|].
  exists existing, c. split; reflexivity.
Qed.

Lemma phase2_without_workbook_witness :
  snd (merged_of (Phase2.main repr_unused no_bq None sample_handoff_world)) = O /\
  bq_attempts (snd (Phase2.main repr_unused no_bq None sample_handoff_world))
  = bq_attempts sample_handoff_world /\
  segment_cache (snd (Phase2.main repr_unused no_bq None sample_handoff_world))
  = segment_cache sample_handoff_world /\
  exists existing c,
    Phase2.load_existing_records sample_handoff_world = Ok (VList existing, c) /\
    fst (merged_of (Phase2.main repr_unused no_bq None sample_handoff_world))
    = existing ++ [handoff_B2].
Proof.
  apply (phase2_without_workbook repr_unused no_bq sample_handoff_world
           (snd (Phase2.main repr_unused no_bq None sample_handoff_world)) [handoff_B2]);
    [vm_compute; reflexivity|discriminate|vm_compute; reflexivity].
Defined.

Section AcrossPaths.

Variable py_repr : pyval -> string.

Lemma phase3_main_known (remote : list Z -> bq_outcome) (db_records : list Phase3.db_row)
  (w w1 : world) (accepted : list pyval) :
  Phase3.main py_repr remote (Some db_records) w = (Ok accepted, w1) ->
  exists ids,
    id_set chat_id_or_empty accepted [] = Ok ids /\
    forall r, In r db_records -> py_in (of_cell (Phase3.slack_ts r)) ids = true.
Proof.
  intro H.
  destruct (phase3_main_inv py_repr _ _ _ _ _ H) as (NE & existing & c & ids1 & _ & EI & Hcase).
  assert (A : exists ids2, id_set chat_id_or_empty accepted [] = Ok ids2 /\
                           Phase3.new_rows_of db_records ids2 = []).
  { destruct Hcase as [(EN & -> & _)|(seg_map & converted & _ & EC & ->)].
    - exists ids1. split; assumption.
    - eapply phase3_second_run_no_new_rows; eassumption. }
  destruct A as (ids2 & E2 & N2). exists ids2. split; [exact E2|].
  intros r I. unfold Phase3.new_rows_of in N2.
  destruct (py_in (of_cell (Phase3.slack_ts r)) ids2) eqn:E; [reflexivity|].
  assert (X : In r (filter (fun r => negb (py_in (of_cell (Phase3.slack_ts r)) ids2))
                      db_records))
    by (apply filter_In; split; [exact I|now rewrite E]).
  rewrite N2 in X. destruct X.
Qed.

End AcrossPaths.

(** The two paths recognise each other's records.  On a document whose
    data block is ready, after a run of the database path that
    succeeded with an accepted set of safe texts, the ingestion script
    of the spreadsheet path, when it can build its identity index,
    finds no new record in a workbook whose every identified row
    carries the identity ([slack_ts]) of a row of the database, and
    writes nothing. *)
Theorem database_rows_known_to_spreadsheet (py_repr : pyval -> string)
  (remote : list Z -> bq_outcome) (db_records : list Phase3.db_row) (wb : workbook)
  (w w1 : world) (accepted ids : list pyval) (content : string) :
  index_html w = Some content ->
  block_ready content = true ->
  Phase3.main py_repr remote (Some db_records) w = (Ok accepted, w1) ->
  forallb doc_safe accepted = true ->
  Phase1.load_existing_chat_ids w1 = Ok ids ->
  (forall row, In row (UserChat wb) -> truthy (cell_value row 1) = true ->
               exists r, In r db_records /\ of_cell (Phase3.slack_ts r) = cell_value row 1) ->
  Phase1.main py_repr wb w1 = (Ok [], w1).
Proof.
  intros HI R M S LI K.
  destruct (phase3_main_holds py_repr _ _ _ _ _ _ HI R M S) as (c1 & block & HI1 & HS & HJ).
  destruct (phase3_main_known py_repr _ _ _ _ _ M) as (ids2 & E2 & N2).
  assert (E : ids2 = ids).
  { unfold Phase1.load_existing_chat_ids in LI. rewrite HI1, HS, HJ in LI.
    cbn [bind py_iter] in LI.
    pose proof (id_set_weaken _ chat_id_or_empty accepted chat_id_of_or_empty _ _ LI) as W.
    congruence. }
  subst ids2.
  destruct (parse_userchat_all_known py_repr (UserChat wb)
              (Phase1.build_user_map (UserData wb) []) ids) as (se & sd & P).
  { intros row I T. destruct (K row I T) as (r & Ir & <-). exact (N2 r Ir). }
  unfold Phase1.main. now rewrite LI, P.
Qed.

Lemma database_rows_known_to_spreadsheet_witness :
  Phase1.main repr_unused sample_workbook
    (snd (Phase3.main repr_unused no_bq (Some sample_db) sample_start_db))
  = (Ok [], snd (Phase3.main repr_unused no_bq (Some sample_db) sample_start_db)).
Proof.
  eapply (database_rows_known_to_spreadsheet repr_unused no_bq sample_db sample_workbook
            sample_start_db _ _ _ sample_document_db);
    [reflexivity|vm_compute; reflexivity|vm_compute; reflexivity|vm_compute; reflexivity
    |vm_compute; reflexivity|].
  intros row [<-|[<-|[]]] _.
  - exists (sample_db_row "A1" "2026-01-01"). split; [now left|reflexivity].
  - exists (sample_db_row "B2" "2026-02-20"). split; [right; now left|reflexivity].
Defined.

Section DateStepTwice.

Lemma until_lt_lacks (a : string) : lacks "<" a = true -> until_lt a = None.
Proof.
  induction a as [|c a IH]; [reflexivity|]. cbn [lacks until_lt]. intro H.
  apply andb_true_iff in H. destruct H as [N L]. apply negb_true_iff in N.
  rewrite N, (IH L). reflexivity.
Qed.

Lemma until_lt_None_lacks (a : string) : until_lt a = None -> lacks "<" a = true.
Proof.
  induction a as [|c a IH]; [reflexivity|]. cbn [lacks until_lt].
  destruct (Ascii.eqb c "<"); [discriminate|].
  destruct (until_lt a) as [[x y]|]; [discriminate|]. intros _. now rewrite IH.
Qed.

Lemma until_lt_date (d r : string) :
  lacks "<" d = true -> until_lt (append d (String "<" r)) = Some (d, r).
Proof.
  induction d as [|c d IH]; [reflexivity|]. cbn [lacks append until_lt]. intro H.
  apply andb_true_iff in H. destruct H as [N L]. apply negb_true_iff in N.
  rewrite N, (IH L). reflexivity.
Qed.

(** A text without a less-than sign has no display-date element. *)
Lemma sub_last_update_lacks (d : string) (n : nat) :
  forall a, lacks "<" a = true -> sub_last_update n d a = a.
Proof.
  induction n as [|n IH]; intros a L; [reflexivity|]. cbn [sub_last_update].
  destruct (find_sub DATE_MARKER a) as [[b r]|] eqn:F; [|reflexivity].
  pose proof (find_sub_spec _ _ _ _ F) as E.
  assert (Lr : lacks "<" r = true).
  { rewrite E, !lacks_app in L. apply andb_true_iff in L. destruct L as [_ L].
    apply andb_true_iff in L. tauto. }
  rewrite (until_lt_lacks _ Lr), (IH _ Lr). exact (eq_sym E).
Qed.

Lemma sub_last_update_lt (d : string) (n : nat) (r : string) :
  sub_last_update n d (String "<" r) = String "<" (sub_last_update n d r).
Proof.
  destruct n as [|n]; [reflexivity|]. cbn [sub_last_update].
  change (find_sub DATE_MARKER (String "<" r))
    with (match find_sub DATE_MARKER r with
          | Some (before, after) => Some (String "<" before, after)
          | None => None
          end).
  destruct (find_sub DATE_MARKER r) as [[b a]|]; [|reflexivity].
  destruct (until_lt a) as [[[|c o] rest]|]; reflexivity.
Qed.

(** The display-date step done again changes nothing. *)
Lemma sub_last_update_twice (d : string) :
  lacks "<" d = true -> d <> EmptyString ->
  forall n c m,
    (String.length c <= n)%nat ->
    (String.length (sub_last_update n d c) <= m)%nat ->
    sub_last_update m d (sub_last_update n d c) = sub_last_update n d c.
Proof.
  intros L NE. induction n as [|n IH]; intros c m Ln Lm.
  { destruct c; [|simpl in Ln; lia]. destruct m; reflexivity. }
  cbn [sub_last_update] in *.
  destruct (find_sub DATE_MARKER c) as [[b a]|] eqn:F.
  2:{ destruct m as [|m]; [reflexivity|]. cbn [sub_last_update]. now rewrite F. }
  pose proof (find_sub_spec _ _ _ _ F) as E.
  assert (La : (String.length a < String.length c)%nat).
  { rewrite E, !length_append. cbn. lia. }
  destruct (until_lt a) as [[[|x old] rest]|] eqn:U.
  - (* the marker is followed by a less-than sign *)
    pose proof (until_lt_spec _ _ _ U) as Ea. cbn [append] in Ea.
    destruct m as [|m].
    { rewrite !length_append in Lm. cbn in Lm. lia. }
    cbn [sub_last_update].
    rewrite (find_sub_first _ _ _ _ F (sub_last_update n d a)).
    rewrite Ea, sub_last_update_lt. cbn [until_lt].
    change (Ascii.eqb "<" "<") with true. cbv iota.
    rewrite <- sub_last_update_lt, <- Ea.
    rewrite IH; [reflexivity|lia|].
    rewrite !length_append in Lm. cbn in Lm. lia.
  - (* a date is replaced *)
    pose proof (until_lt_spec _ _ _ U) as Ea.
    assert (Lr : (String.length rest < String.length a)%nat).
    { rewrite Ea, length_append. cbn. lia. }
    destruct m as [|m].
    { rewrite !length_append in Lm. cbn in Lm. lia. }
    cbn [sub_last_update].
    rewrite (find_sub_first _ _ _ _ F
               (append d (String "<" (sub_last_update n d rest)))).
    rewrite (until_lt_date _ _ L).
    assert (Lm' : (String.length (sub_last_update n d rest) <= m)%nat).
    { rewrite !length_append in Lm. cbn [String.length] in Lm.
      rewrite ?length_append in Lm. cbn [String.length] in Lm. lia. }
    destruct d as [|y d']; [congruence|].
    rewrite IH; [reflexivity|lia|exact Lm'].
  - (* no less-than sign follows *)
    pose proof (until_lt_None_lacks _ U) as LA.
    destruct m as [|m].
    { rewrite !length_append in Lm. cbn in Lm. lia. }
    cbn [sub_last_update].
    rewrite (find_sub_first _ _ _ _ F (sub_last_update n d a)).
    rewrite (sub_last_update_lacks d n a LA), U, (sub_last_update_lacks d m a LA).
    reflexivity.
Qed.

End DateStepTwice.

Section WriteTwice.

Variable py_repr : pyval -> string.

(** A document in which the block is where the reader finds it is left
    as it is by the data-block step that writes the same block. *)
Lemma sub_all_records_same (head body tail : string) :
  first_at SEARCH_MARKER (append head "    ") ->
  lacks ";" body = true ->
  template_literal (String "[" (append body "]")) ->
  sub_all_records
    (append Phase2.ALL_RECORDS_DECL (append (String "[" (append body "]")) ";"))
    (append head (String " " (append (append "   const ALL_RECORDS = [" (append body "]"))
                                (String ";" tail))))
  = Ok (append head (String " " (append (append "   const ALL_RECORDS = [" (append body "]"))
                                   (String ";" tail)))).
Proof.
  intros F L T.
  assert (E : append head (String " " (append (append "   const ALL_RECORDS = ["
                                                  (append body "]")) (String ";" tail)))
              = append (append head "    ")
                  (append SEARCH_MARKER (append body (append BLOCK_END tail)))).
  { rewrite !str_append_assoc. cbn [append SEARCH_MARKER BLOCK_END].
    rewrite ?str_append_assoc. reflexivity. }
  rewrite E at 1.
  rewrite (sub_all_records_block _ head _ body tail _ (first_at_rest _ _ _ F)
             (find_block_end _ _ L) T).
  reflexivity.
Qed.

Lemma date_display_plain (ymd : Z * Z * Z) :
  lacks "<" (date_display ymd) = true /\ date_display ymd <> EmptyString.
Proof.
  destruct ymd as [[y m] d]. unfold date_display. split.
  - rewrite !lacks_app, !lacks_str_of_Z by reflexivity. reflexivity.
  - destruct (str_of_Z_head y) as (c & t & -> & _). discriminate.
Qed.

Lemma set_index_html_twice (c : string) (w : world) :
  set_index_html c (set_index_html c w) = set_index_html c w.
Proof. reflexivity. Qed.

Lemma phase3_inject_result (records : list pyval) (w : world) (c c1 c2 : string) :
  index_html w = Some c ->
  serializable (VList records) = true ->
  sub_all_records
    (append Phase2.ALL_RECORDS_DECL (append (json_dumps py_repr (VList records)) ";")) c
  = Ok c1 ->
  (dates_of records = Ok [] /\ c2 = c1) \/
  (exists d0 ds ymd,
     dates_of records = Ok (d0 :: ds) /\ max_date_of (d0 :: ds) = Ok ymd /\
     c2 = sub_last_update (String.length c1) (date_display ymd) c1) ->
  Phase3.inject_into_html py_repr records w = (Ok tt, set_index_html c2 w).
Proof.
  intros HI Z SA D. unfold Phase3.inject_into_html. rewrite HI, Z. cbv zeta.
  change Phase3.ALL_RECORDS_DECL with Phase2.ALL_RECORDS_DECL. rewrite SA. cbn [bind].
  destruct D as [[-> ->]|(d0 & ds & ymd & -> & M & ->)]; [reflexivity|].
  cbn [bind]. rewrite M. reflexivity.
Qed.

Lemma phase3_inject_steps (records : list pyval) (w w1 : world) (c c1 : string) :
  index_html w = Some c ->
  sub_all_records
    (append Phase2.ALL_RECORDS_DECL (append (json_dumps py_repr (VList records)) ";")) c
  = Ok c1 ->
  Phase3.inject_into_html py_repr records w = (Ok tt, w1) ->
  serializable (VList records) = true /\
  ((dates_of records = Ok [] /\ w1 = set_index_html c1 w) \/
   (exists d0 ds ymd,
      dates_of records = Ok (d0 :: ds) /\ max_date_of (d0 :: ds) = Ok ymd /\
      w1 = set_index_html (sub_last_update (String.length c1) (date_display ymd) c1) w)).
Proof.
  intros HI SA. unfold Phase3.inject_into_html. rewrite HI.
  destruct (serializable (VList records)); [|discriminate]. cbv zeta.
  change Phase3.ALL_RECORDS_DECL with Phase2.ALL_RECORDS_DECL. rewrite SA. cbn [bind].
  destruct (dates_of records) as [[|d0 ds]|e]; cbn [bind]; [| |discriminate].
  - intro H. injection H as <-. split; [reflexivity|]. left. split; reflexivity.
  - destruct (max_date_of (d0 :: ds)) as [ymd|e] eqn:M; cbn [bind]; [|discriminate].
    intro H. injection H as <-. split; [reflexivity|]. right.
    exists d0, ds, ymd. split; [reflexivity|]. split; [exact M|reflexivity].
Qed.

End WriteTwice.

(** Writing the same records again changes nothing.  On a document
    whose data block is ready and for records of safe texts, the
    document that [inject_into_html] has written is left as it is,
    byte for byte, by a second call with the same records: in phase 3,
    where the display date is substituted again, and in phase 2. *)
Theorem rewriting_changes_nothing (py_repr : pyval -> string) (w : world) (content : string) :
  index_html w = Some content ->
  block_ready content = true ->
  (forall records w1,
     forallb doc_safe records = true ->
     Phase3.inject_into_html py_repr records w = (Ok tt, w1) ->
     Phase3.inject_into_html py_repr records w1 = (Ok tt, w1)) /\
  (forall all_records fields filtered w1,
     Phase2.filter_fields fields all_records = Ok filtered ->
     forallb doc_safe filtered = true ->
     Phase2.inject_into_html py_repr all_records fields w = (Ok tt, w1) ->
     Phase2.inject_into_html py_repr all_records fields w1 = (Ok tt, w1)).
Proof.
  intros HI R. destruct (block_ready_spec _ R) as (head & after & old & tail & F & B & C).
  pose proof (first_at_found _ _ _ _ F) as FA.
  split.
  - intros records w1 S EJ.
    destruct (inert_records py_repr _ S) as (I & L1 & L2).
    set (body := join "," (map (json_dumps py_repr) records)) in *.
    pose proof (sub_all_records_block _ _ _ _ _ _ F B (proj2 (proj2 I))) as SA.
    destruct (phase3_inject_steps py_repr _ _ _ _ _ HI SA EJ)
      as [Z [[D ->]|(d0 & ds & ymd & D & M & ->)]].
    + set (c1 := append head (String " " (append (append "   const ALL_RECORDS = ["
                                                     (append body "]")) (String ";" tail)))).
      refine (phase3_inject_result py_repr records (set_index_html c1 w) c1 c1 c1
                _ Z _ _).
      * reflexivity.
      * exact (sub_all_records_same head body tail FA L1 (proj2 (proj2 I))).
      * left. split; [exact D|reflexivity].
    + destruct (date_display_plain ymd) as [DL DN].
      set (c1 := append head (String " " (append (append "   const ALL_RECORDS = ["
                                                     (append body "]")) (String ";" tail)))).
      destruct (sub_last_update_frame (date_display ymd)
                  (append "   const ALL_RECORDS = [" (append body "]")) tail "    "
                  (date_display_no_marker ymd)) with (n := String.length c1) (head := head)
        as (head' & tail' & E & P).
      { rewrite !lacks_app, L2. reflexivity. }
      { apply date_closed_text, C. }
      fold c1 in E.
      set (c2 := sub_last_update (String.length c1) (date_display ymd) c1) in *.
      refine (phase3_inject_result py_repr records (set_index_html c2 w) c2 c2 c2
                _ Z _ _).
      * reflexivity.
      * rewrite E. exact (sub_all_records_same head' body tail' (P FA) L1 (proj2 (proj2 I))).
      * right. exists d0, ds, ymd. split; [exact D|]. split; [exact M|].
        symmetry. apply (sub_last_update_twice _ DL DN); apply Nat.le_refl.
  - intros all_records fields filtered w1 FF S EJ.
    destruct (inert_records py_repr _ S) as (I & L1 & L2).
    destruct (phase2_inject_then_load py_repr _ _ _ _ _ _ _ _ _ HI F B FF S) as [EJ' _].
    rewrite EJ in EJ'. injection EJ' as ->.
    unfold Phase2.inject_into_html. cbn [index_html set_index_html].
    rewrite FF, (doc_safe_serializable (VList filtered) S). cbv zeta.
    pose proof (sub_all_records_same head (join "," (map (json_dumps py_repr) filtered)) tail
                  FA L1 (proj2 (proj2 I))) as SM.
    match goal with
    | |- match sub_all_records ?nl ?c with _ => _ end = _ =>
        change (sub_all_records nl c) with
          (sub_all_records
             (append Phase2.ALL_RECORDS_DECL
                (append (String "[" (append (join "," (map (json_dumps py_repr) filtered)) "]"))
                   ";"))
             (append head
                (String " "
                   (append (append "   const ALL_RECORDS = ["
                              (append (join "," (map (json_dumps py_repr) filtered)) "]"))
                      (String ";" tail)))))
    end.
    rewrite SM. reflexivity.
Qed.

Lemma rewriting_changes_nothing_witness :
  (forall records w1,
     forallb doc_safe records = true ->
     Phase3.inject_into_html repr_unused records sample_start = (Ok tt, w1) ->
     Phase3.inject_into_html repr_unused records w1 = (Ok tt, w1)) /\
  (forall all_records fields filtered w1,
     Phase2.filter_fields fields all_records = Ok filtered ->
     forallb doc_safe filtered = true ->
     Phase2.inject_into_html repr_unused all_records fields sample_start = (Ok tt, w1) ->
     Phase2.inject_into_html repr_unused all_records fields w1 = (Ok tt, w1)).
Proof.
  apply (rewriting_changes_nothing repr_unused sample_start sample_document);
    [reflexivity|vm_compute; reflexivity].
Defined.
